(** * ISY-994 component: classification of nodes, programs, variables, weather

    A shallow embedding of [homeassistant/components/isy994/__init__.py]:
    the rule table [NODE_FILTERS], the five single-dimension matchers, the
    node classifier [_categorize_nodes], and the program, variable and
    weather classifiers, followed by the properties proved about them.

    Python code that mutates [hass.data] and may raise is embedded in a small
    state-and-exception monad: a computation takes the store and returns the
    store it leaves behind together with either a value or the exception that
    escaped.  Mutations made before an exception persist, as in Python. *)

From Stdlib Require Import List String Ascii Bool ZArith Lia DecimalString.
Import ListNotations.
Local Open Scope string_scope.
Local Open Scope list_scope.

Set Implicit Arguments.

(* ================================================================= *)
(** ** Python strings *)

(** Strings are byte strings; case and digits are those of ASCII, with
    which [str.lower] and [int] of Python agree on every character of
    ASCII.

    [c.lower()] on one character. *)
Definition ascii_lower (c : ascii) : ascii :=
  let n := nat_of_ascii c in
  if ((65 <=? n) && (n <=? 90))%nat then ascii_of_nat (n + 32) else c.

(** [str.lower]. *)
Fixpoint str_lower (s : string) : string :=
  match s with
  | EmptyString => EmptyString
  | String c s' => String (ascii_lower c) (str_lower s')
  end.

(** [s.startswith(t)]. *)
Fixpoint startswith (s t : string) {struct t} : bool :=
  match t with
  | EmptyString => true
  | String b t' =>
      match s with
      | EmptyString => false
      | String a s' => if Ascii.eqb a b then startswith s' t' else false
      end
  end.

(** [t in s] for two strings: [t] occurs in [s] as a substring. *)
Fixpoint str_in (t s : string) : bool :=
  if startswith s t then true
  else match s with
       | EmptyString => false
       | String _ s' => str_in t s'
       end.

(** [attr.replace('_', ' ')]. *)
Fixpoint replace_underscores (s : string) : string :=
  match s with
  | EmptyString => EmptyString
  | String c s' =>
      String (if Ascii.eqb c "_"%char then " "%char else c)
             (replace_underscores s')
  end.

(** [s[-1]]: the last character, absent for the empty string. *)
Fixpoint last_char (s : string) : option ascii :=
  match s with
  | EmptyString => None
  | String c EmptyString => Some c
  | String _ s' => last_char s'
  end.

(** [int(c)] for a one-character string: defined on decimal digits only. *)
Definition digit_value (c : ascii) : option Z :=
  let n := nat_of_ascii c in
  if ((48 <=? n) && (n <=? 57))%nat then Some (Z.of_nat (n - 48)) else None.

(** [str(n)] for a non-negative integer. *)
Definition str (n : nat) : string := NilZero.string_of_uint (Nat.to_uint n).

(** [range(a, b)]. *)
Definition range (a b : nat) : list nat := seq a (b - a).

(** [x in l] for a list (or set) of strings. *)
Definition mem (x : string) (l : list string) : bool :=
  existsb (String.eqb x) l.

(** Python sets of strings are kept as lists read up to order and
    repetition.  [a.intersection(b)] is used only for its truth value. *)
Definition intersects (a b : list string) : bool :=
  existsb (fun x => mem x b) a.

Definition subset (a b : list string) : bool :=
  forallb (fun x => mem x b) a.

(** [set(a) == set(b)]. *)
Definition set_eq (a b : list string) : bool :=
  subset a b && subset b a.

(* ================================================================= *)
(** ** Categories and the rule table *)

Inductive Domain : Type :=
  | binary_sensor | sensor | lock | fan | cover | light | switch | climate.

Definition domain_eqb (a b : Domain) : bool :=
  match a, b with
  | binary_sensor, binary_sensor | sensor, sensor | lock, lock | fan, fan
  | cover, cover | light, light | switch, switch | climate, climate => true
  | _, _ => false
  end.

(** The string a category is written as in the source. *)
Definition domain_name (d : Domain) : string :=
  match d with
  | binary_sensor => "binary_sensor"
  | sensor => "sensor"
  | lock => "lock"
  | fan => "fan"
  | cover => "cover"
  | light => "light"
  | switch => "switch"
  | climate => "climate"
  end.

(** One entry of the rule table: the five match lists of a category. *)
Module Filter.
Record t : Type := mk {
  uom : list string;
  states : list string;
  node_def_id : list string;
  insteon_type : list string;
  zwave_cat : list string
}.
End Filter.

Definition NODE_FILTERS (d : Domain) : Filter.t :=
  match d with
  | binary_sensor =>
      Filter.mk [] []
        ["BinaryAlarm"; "OnOffControl_ADV"]
        ["7.13."; "16."]
        (["104"; "112"; "138"] ++ map str (range 148 179))
  | sensor =>
      Filter.mk
        (["1"] ++ map str (range 3 11) ++ map str (range 12 51)
           ++ map str (range 52 66) ++ map str (range 69 78)
           ++ ["79"] ++ map str (range 82 97))
        []
        ["IMETER_SOLO"]
        ["9.0."; "9.7."]
        (["118"] ++ map str (range 180 184))
  | lock =>
      Filter.mk ["11"] ["locked"; "unlocked"] ["DoorLock"] ["15."] ["111"]
  | fan =>
      Filter.mk [] ["off"; "low"; "med"; "high"] ["FanLincMotor"]
        ["1.46."] []
  | cover =>
      Filter.mk ["97"] ["open"; "closed"; "closing"; "opening"; "stopped"]
        [] [] []
  | light =>
      Filter.mk ["51"] ["on"; "off"; "%"]
        ["DimmerLampSwitch"; "DimmerLampSwitch_ADV";
         "DimmerSwitchOnly"; "DimmerSwitchOnly_ADV";
         "DimmerLampOnly"; "BallastRelayLampSwitch";
         "BallastRelayLampSwitch_ADV";
         "RemoteLinc2"; "RemoteLinc2_ADV"]
        ["1."]
        ["109"; "119"]
  | switch =>
      Filter.mk ["2"; "78"] ["on"; "off"]
        ["OnOffControl"; "RelayLampSwitch";
         "RelayLampSwitch_ADV"; "RelaySwitchOnlyPlusQuery";
         "RelaySwitchOnlyPlusQuery_ADV"; "RelayLampOnly";
         "RelayLampOnly_ADV"; "KeypadButton";
         "KeypadButton_ADV"; "EZRAIN_Input"; "EZRAIN_Output";
         "EZIO2x4_Input"; "EZIO2x4_Input_ADV"; "BinaryControl";
         "BinaryControl_ADV"; "AlertModuleSiren";
         "AlertModuleSiren_ADV"; "AlertModuleArmed"; "Siren";
         "Siren_ADV"]
        ["2."; "9.10."; "9.11."]
        ["121"; "122"; "123"; "137"; "141"; "147"]
  | climate =>
      Filter.mk ["2"]
        ["heating"; "cooling"; "idle"; "fan_only"; "off"]
        ["TempLinc"; "Thermostat"]
        ["5."]
        ["140"]
  end.

Definition SUPPORTED_DOMAINS : list Domain :=
  [binary_sensor; sensor; lock; fan; cover; light; switch; climate].
Definition SUPPORTED_PROGRAM_DOMAINS : list Domain :=
  [binary_sensor; lock; fan; cover; switch].
Definition SUPPORTED_VARIABLE_DOMAINS : list Domain :=
  [binary_sensor; sensor; switch].

Definition SCENE_DOMAIN : Domain := switch.

Definition KEY_ACTIONS := "actions".
Definition KEY_FOLDER := "folder".
Definition KEY_MY_PROGRAMS := "My Programs".
Definition KEY_STATUS := "status".

(* ================================================================= *)
(** ** The state-and-exception monad *)

Inductive Exception : Type :=
  | IndexError | ValueError | KeyError | TypeError
  | AttributeError | AssertionError.

Definition exception_eqb (a b : Exception) : bool :=
  match a, b with
  | IndexError, IndexError | ValueError, ValueError | KeyError, KeyError
  | TypeError, TypeError | AttributeError, AttributeError
  | AssertionError, AssertionError => true
  | _, _ => false
  end.

Inductive Outcome (A : Type) : Type :=
  | Returned (a : A)
  | Raised (e : Exception).
Arguments Raised {A} e.

Definition Py (S A : Type) : Type := S -> S * Outcome A.

Definition ret {S A} (a : A) : Py S A := fun s => (s, Returned a).

Definition raise {S A} (e : Exception) : Py S A := fun s => (s, Raised e).

Definition bind {S A B} (m : Py S A) (k : A -> Py S B) : Py S B :=
  fun s =>
    match m s with
    | (s', Returned a) => k a s'
    | (s', Raised e) => (s', Raised e)
    end.

Notation "x <- m ;; k" := (bind m (fun x => k))
  (at level 61, m at next level, right associativity).
Notation "m ;; k" := (bind m (fun _ => k))
  (at level 61, right associativity).

(** [try: m  except (caught): handler]. *)
Definition try_except {S A} (m : Py S A) (caught : list Exception)
    (handler : Py S A) : Py S A :=
  fun s =>
    match m s with
    | (s', Returned a) => (s', Returned a)
    | (s', Raised e) =>
        if existsb (exception_eqb e) caught then handler s'
        else (s', Raised e)
    end.

Definition modify {S} (f : S -> S) : Py S unit := fun s => (f s, Returned tt).

(** [for x in xs: body(x)], where [body] ends either by falling through or
    by [continue]; an exception leaves the loop. *)
Fixpoint for_each {S A} (xs : list A) (body : A -> Py S unit) : Py S unit :=
  match xs with
  | [] => ret tt
  | x :: xs' => body x ;; for_each xs' body
  end.

(** Lifting a lookup that raises when it finds nothing. *)
Definition or_raise {S A} (o : option A) (e : Exception) : Py S A :=
  match o with
  | Some a => ret a
  | None => raise e
  end.

(** Category-indexed buckets: [hass.data[KEY][domain]], a list per
    category, created empty by [setup]. *)
Definition Buckets (A : Type) : Type := Domain -> list A.

Definition no_buckets {A} : Buckets A := fun _ => [].

(** [buckets[d].append(x)]. *)
Definition bucket_append {A} (d : Domain) (x : A) (b : Buckets A)
    : Buckets A :=
  fun d' => if domain_eqb d' d then b d' ++ [x] else b d'.

(* ================================================================= *)
(** ** Nodes and the store of the node classifier *)

(** A node as the classifier reads it.  An optional field is [None] both
    when the attribute is missing ([hasattr] fails) and when it is [None].
    [uom] is the sequence that iterating [node.uom] yields.  [is_group]
    records [isinstance(node, Group)]. *)
Record Node : Type := mkNode {
  name : string;
  nid : string;
  node_def_id : option string;
  type : option string;
  devtype_cat : option string;
  uom : option (list string);
  is_group : bool
}.

Inductive Matcher : Type :=
  | NodeDef | InsteonType | ZwaveCat | UomId | StatesInUom.

(** The part of the store the node classifier touches: the node buckets
    [hass.data[ISY994_NODES]], and a ghost history of the matcher
    invocations made so far (which matcher, restricted to which category),
    kept only to state which matchers run. *)
Record Hass : Type := mkHass {
  isy994_nodes : Buckets Node;
  calls : list (Matcher * option Domain)
}.

(** [hass.data[ISY994_NODES][domain].append(node)]. *)
Definition append_node (domain : Domain) (node : Node) : Py Hass unit :=
  modify (fun h =>
    mkHass (bucket_append domain node (isy994_nodes h)) (calls h)).

(** The same with the category in a variable that may hold [None], which
    is not a key of the buckets. *)
Definition append_node_at (single_domain : option Domain) (node : Node)
    : Py Hass unit :=
  match single_domain with
  | Some domain => append_node domain node
  | None => raise KeyError
  end.

Definition enter (m : Matcher) (single_domain : option Domain)
    : Py Hass unit :=
  modify (fun h =>
    mkHass (isy994_nodes h) (calls h ++ [(m, single_domain)])).

(** [SUPPORTED_DOMAINS if not single_domain else [single_domain]]. *)
Definition domains_of (single_domain : option Domain) : list Domain :=
  match single_domain with
  | None => SUPPORTED_DOMAINS
  | Some d => [d]
  end.

(** [int(node.nid[-1])]. *)
Definition int_of_last (s : string) : Py Hass Z :=
  c <- or_raise (last_char s) IndexError ;;
  or_raise (digit_value c) ValueError.

(** [set(map(str.lower, node.uom))]. *)
Definition lowered (u : list string) : list string := map str_lower u.

(* ================================================================= *)
(** ** The single-dimension matchers *)

(** The [for domain in domains] loop shared by the matchers whose body is
    [if <test>: append to domain; return True], ending in [return False]. *)
Fixpoint first_matching (test : Domain -> bool) (node : Node)
    (domains : list Domain) : Py Hass bool :=
  match domains with
  | [] => ret false
  | domain :: rest =>
      if test domain then append_node domain node ;; ret true
      else first_matching test node rest
  end.

Definition _check_for_node_def (node : Node) (single_domain : option Domain)
    : Py Hass bool :=
  enter NodeDef single_domain ;;
  match node_def_id node with
  | None => ret false
  | Some id =>
      first_matching
        (fun domain => mem id (Filter.node_def_id (NODE_FILTERS domain)))
        node (domains_of single_domain)
  end.

(** The loop of [_check_for_insteon_type], with its two special cases. *)
Fixpoint insteon_type_loop (device_type : string) (node : Node)
    (domains : list Domain) : Py Hass bool :=
  match domains with
  | [] => ret false
  | domain :: rest =>
      if existsb (startswith device_type)
           (Filter.insteon_type (NODE_FILTERS domain))
      then
        is_fanlinc_light <-
          (if domain_eqb domain fan
           then k <- int_of_last (nid node) ;; ret (k =? 1)%Z
           else ret false) ;;
        if is_fanlinc_light then append_node light node ;; ret true
        else
          is_thermostat_subnode <-
            (if domain_eqb domain climate
             then k <- int_of_last (nid node) ;;
                  ret (existsb (Z.eqb k) [2; 3]%Z)
             else ret false) ;;
          if is_thermostat_subnode
          then append_node binary_sensor node ;; ret true
          else append_node domain node ;; ret true
      else insteon_type_loop device_type node rest
  end.

Definition _check_for_insteon_type (node : Node)
    (single_domain : option Domain) : Py Hass bool :=
  enter InsteonType single_domain ;;
  match type node with
  | None => ret false
  | Some device_type =>
      insteon_type_loop device_type node (domains_of single_domain)
  end.

Definition _check_for_zwave_cat (node : Node) (single_domain : option Domain)
    : Py Hass bool :=
  enter ZwaveCat single_domain ;;
  match devtype_cat node with
  | None => ret false
  | Some device_type =>
      first_matching
        (fun domain =>
           existsb (startswith device_type)
             (Filter.zwave_cat (NODE_FILTERS domain)))
        node (domains_of single_domain)
  end.

(** A list argument that defaults to [None] is true when it is a
    non-empty list. *)
Definition truthy (l : option (list string)) : option (list string) :=
  match l with
  | Some (_ :: _) => l
  | _ => None
  end.

Definition _check_for_uom_id (node : Node) (single_domain : option Domain)
    (uom_list : option (list string)) : Py Hass bool :=
  enter UomId single_domain ;;
  match uom node with
  | None => ret false
  | Some u =>
      let node_uom := lowered u in
      match truthy uom_list with
      | Some uom_list =>
          if intersects node_uom uom_list
          then append_node_at single_domain node ;; ret true
          else ret false
      | None =>
          first_matching
            (fun domain =>
               intersects node_uom (Filter.uom (NODE_FILTERS domain)))
            node (domains_of single_domain)
      end
  end.

Definition _check_for_states_in_uom (node : Node)
    (single_domain : option Domain) (states_list : option (list string))
    : Py Hass bool :=
  enter StatesInUom single_domain ;;
  match uom node with
  | None => ret false
  | Some u =>
      let node_uom := lowered u in
      match truthy states_list with
      | Some states_list =>
          if set_eq node_uom states_list
          then append_node_at single_domain node ;; ret true
          else ret false
      | None =>
          first_matching
            (fun domain =>
               set_eq node_uom (Filter.states (NODE_FILTERS domain)))
            node (domains_of single_domain)
      end
  end.

Definition _is_sensor_a_binary_sensor (node : Node) : Py Hass bool :=
  b <- _check_for_node_def node (Some binary_sensor) ;;
  if b then ret true else
  b <- _check_for_insteon_type node (Some binary_sensor) ;;
  if b then ret true else
  b <- _check_for_uom_id node (Some binary_sensor) (Some ["2"; "78"]) ;;
  if b then ret true else
  b <- _check_for_states_in_uom node (Some binary_sensor)
         (Some ["on"; "off"]) ;;
  if b then ret true else
  ret false.

(* ================================================================= *)
(** ** The node classifier *)

(** The body of the loop of [_categorize_nodes], for one (path, node). *)
Definition categorize_node (ignore_identifier sensor_identifier : string)
    (entry : string * Node) : Py Hass unit :=
  let (path, node) := entry in
  let ignored :=
    str_in ignore_identifier path || str_in ignore_identifier (name node) in
  if ignored then ret tt
  else if is_group node then append_node SCENE_DOMAIN node
  else if str_in sensor_identifier path
          || str_in sensor_identifier (name node)
  then
    b <- _is_sensor_a_binary_sensor node ;;
    if b then ret tt else append_node sensor node
  else
    b <- _check_for_node_def node None ;;
    if b then ret tt else
    b <- _check_for_insteon_type node None ;;
    if b then ret tt else
    b <- _check_for_zwave_cat node None ;;
    if b then ret tt else
    b <- _check_for_uom_id node None None ;;
    if b then ret tt else
    b <- _check_for_states_in_uom node None None ;;
    ret tt.

Definition _categorize_nodes (nodes : list (string * Node))
    (ignore_identifier sensor_identifier : string) : Py Hass unit :=
  for_each nodes (categorize_node ignore_identifier sensor_identifier).

(* ================================================================= *)
(** ** The program classifier *)

(** What [_LOGGER] is asked to record: the warning of the program
    classifier ("Program entity '%s' not loaded due to invalid folder
    structure.") with the folder name, and the error of the variable
    classifier ("ISY Variable Not Found in ISY List; check your config for
    Variable %s.%s") with the type and id. *)
Inductive LogRecord : Type :=
  | warning_program_not_loaded (folder_name : string)
  | error_variable_not_found (vtype vid : Z).

(** The program directory is an object of the connection library; the
    classifier uses four operations of it.  [getitem f key] is [f[key]]
    when the lookup gives a folder or a program, [None] standing for
    [KeyError]; [children f] lists the (dtype, name, id) triples of
    [f.children]; [dtype] is [None] when the attribute is missing. *)
Module Programs.
Class Tree (F : Type) : Type := {
  getitem : F -> string -> option F;
  children : F -> list (string * string * string);
  name : F -> string;
  dtype : F -> option string
}.

(** A program entity: [(entity_folder.name, status, actions)]. *)
Definition Entity (F : Type) : Type := (string * F * option F)%type.

(** [hass.data[ISY994_PROGRAMS]] and the log. *)
Record Hass (F : Type) : Type := mkHass {
  isy994_programs : Buckets (Entity F);
  log : list LogRecord
}.
End Programs.

Section ProgramClassifier.
Context {F : Type} {T : Programs.Tree F}.

Definition append_program (domain : Domain) (entity : Programs.Entity F)
    : Py (Programs.Hass F) unit :=
  modify (fun h =>
    Programs.mkHass
      (bucket_append domain entity (Programs.isy994_programs h))
      (Programs.log h)).

Definition log_warning (folder_name : string) : Py (Programs.Hass F) unit :=
  modify (fun h =>
    Programs.mkHass (Programs.isy994_programs h)
      (Programs.log h ++ [warning_program_not_loaded folder_name])).

(** [assert x.dtype == 'program', 'Not a program']. *)
Definition assert_program (x : F) : Py (Programs.Hass F) unit :=
  d <- or_raise (Programs.dtype x) AttributeError ;;
  if String.eqb d "program" then ret tt else raise AssertionError.

(** The body of the [try] block: the status and action handles of one
    entity folder. *)
Definition load_handles (domain : Domain) (entity_folder : F)
    : Py (Programs.Hass F) (F * option F) :=
  status <- or_raise (Programs.getitem entity_folder KEY_STATUS) KeyError ;;
  assert_program status ;;
  if negb (domain_eqb domain binary_sensor) then
    actions <-
      or_raise (Programs.getitem entity_folder KEY_ACTIONS) KeyError ;;
    assert_program actions ;;
    ret (status, Some actions)
  else ret (status, None).

(** The body of the loop over [folder.children]. *)
Definition categorize_program_child (domain : Domain) (folder : F)
    (child : string * string * string) : Py (Programs.Hass F) unit :=
  let '(dtype, _, node_id) := child in
  if negb (String.eqb dtype KEY_FOLDER) then ret tt
  else
    entity_folder <- or_raise (Programs.getitem folder node_id) KeyError ;;
    loaded <-
      try_except
        (handles <- load_handles domain entity_folder ;; ret (Some handles))
        [AttributeError; KeyError; AssertionError]
        (log_warning (Programs.name entity_folder) ;; ret None) ;;
    match loaded with
    | None => ret tt
    | Some (status, actions) =>
        append_program domain
          (Programs.name entity_folder, status, actions)
    end.

Definition categorize_program_folder (domain : Domain) (folder : F)
    : Py (Programs.Hass F) unit :=
  for_each (Programs.children folder)
    (categorize_program_child domain folder).

(** The body of the loop over [SUPPORTED_PROGRAM_DOMAINS]: the folder
    lookup under [try], the walk of its children under [else]. *)
Definition categorize_program_domain (programs : F) (domain : Domain)
    : Py (Programs.Hass F) unit :=
  found <-
    try_except
      (root <- or_raise (Programs.getitem programs KEY_MY_PROGRAMS)
                 KeyError ;;
       folder <- or_raise
                   (Programs.getitem root ("HA." ++ domain_name domain))
                   KeyError ;;
       ret (Some folder))
      [KeyError]
      (ret None) ;;
  match found with
  | None => ret tt
  | Some folder => categorize_program_folder domain folder
  end.

Definition _categorize_programs (programs : F)
    : Py (Programs.Hass F) unit :=
  for_each SUPPORTED_PROGRAM_DOMAINS (categorize_program_domain programs).

End ProgramClassifier.

(** A concrete program directory: a tree of folders and programs, looked
    up by id first and by name otherwise. *)
Unset Elimination Schemes.
Inductive ProgramNode : Type :=
  | PNode (dtype name id : string) (items : list ProgramNode).
Set Elimination Schemes.

Definition pn_dtype (p : ProgramNode) : string :=
  let 'PNode d _ _ _ := p in d.
Definition pn_name (p : ProgramNode) : string :=
  let 'PNode _ n _ _ := p in n.
Definition pn_id (p : ProgramNode) : string :=
  let 'PNode _ _ i _ := p in i.
Definition pn_items (p : ProgramNode) : list ProgramNode :=
  let 'PNode _ _ _ l := p in l.

Definition pn_getitem (p : ProgramNode) (key : string)
    : option ProgramNode :=
  match find (fun c => String.eqb (pn_id c) key) (pn_items p) with
  | Some c => Some c
  | None => find (fun c => String.eqb (pn_name c) key) (pn_items p)
  end.

#[export] Instance ProgramNode_Tree : Programs.Tree ProgramNode := {
  Programs.getitem := pn_getitem;
  Programs.children :=
    fun p => map (fun c => (pn_dtype c, pn_name c, pn_id c)) (pn_items p);
  Programs.name := pn_name;
  Programs.dtype := fun p => Some (pn_dtype p)
}.

(* ================================================================= *)
(** ** The variable classifier *)

(** A declared variable: the configuration entry with its [id] and [type]
    and whatever display options it carries. *)
Record IsyVar : Type := mkIsyVar {
  CONF_ID : Z;
  CONF_TYPE : Z;
  options : list (string * string)
}.

Module Variables.
(** The variable directory of the connection library.  [by_type v t] is
    [v[t]] and [item v i] is [v[i]], [None] standing for [KeyError];
    [children v] lists the (kind, name, id) triples of [v.children]. *)
Class Dir (V H : Type) : Type := {
  by_type : V -> Z -> option V;
  children : V -> list (Z * option string * Z);
  item : V -> Z -> option H
}.

Definition Entity (H : Type) : Type := (IsyVar * string * H)%type.

(** [hass.data[ISY994_VARIABLES]] and the log.  [setup] creates a bucket
    for the categories of [SUPPORTED_VARIABLE_DOMAINS] only. *)
Record Hass (H : Type) : Type := mkHass {
  isy994_variables : Buckets (Entity H);
  log : list LogRecord
}.
End Variables.

Section VariableClassifier.
Context {V H : Type} {D : Variables.Dir V H}.

Definition append_variable (domain : Domain) (variable : Variables.Entity H)
    : Py (Variables.Hass H) unit :=
  if existsb (domain_eqb domain) SUPPORTED_VARIABLE_DOMAINS then
    modify (fun h =>
      Variables.mkHass
        (bucket_append domain variable (Variables.isy994_variables h))
        (Variables.log h))
  else raise KeyError.

Definition log_error (vtype vid : Z) : Py (Variables.Hass H) unit :=
  modify (fun h =>
    Variables.mkHass (Variables.isy994_variables h)
      (Variables.log h ++ [error_variable_not_found vtype vid])).

(** The body of the loop of [_categorize_variables]. *)
Definition categorize_variable (variables : V) (domain : Domain)
    (isy_var : IsyVar) : Py (Variables.Hass H) unit :=
  let vid := CONF_ID isy_var in
  let vtype := CONF_TYPE isy_var in
  typed <- or_raise (Variables.by_type variables vtype) KeyError ;;
  (* next((var for ... if var[2] == vid), None) *)
  let found :=
    find (fun var => Z.eqb (snd var) vid) (Variables.children typed) in
  (* _, vname, _ = found : unpacking None is a TypeError *)
  var <- or_raise found TypeError ;;
  match snd (fst var) with
  | None => log_error vtype vid
  | Some vname =>
      typed <- or_raise (Variables.by_type variables vtype) KeyError ;;
      handle <- or_raise (Variables.item typed vid) KeyError ;;
      append_variable domain (isy_var, vname, handle)
  end.

Definition _categorize_variables (variables : V)
    (domain_cfg : option (list IsyVar)) (domain : Domain)
    : Py (Variables.Hass H) unit :=
  match domain_cfg with
  | None => ret tt
  | Some cfg => for_each cfg (categorize_variable variables domain)
  end.

End VariableClassifier.

(** A concrete variable directory: the root holds, per type, the list of
    (name, id, value) of its variables. *)
Inductive VarDir : Type :=
  | VarRoot (types : list (Z * list (option string * Z * Z)))
  | VarType (vtype : Z) (vars : list (option string * Z * Z)).

Definition vd_by_type (v : VarDir) (t : Z) : option VarDir :=
  match v with
  | VarRoot types =>
      match find (fun e => Z.eqb (fst e) t) types with
      | Some e => Some (VarType t (snd e))
      | None => None
      end
  | VarType _ _ => None
  end.

Definition vd_children (v : VarDir) : list (Z * option string * Z) :=
  match v with
  | VarRoot types =>
      flat_map
        (fun e => map (fun x => (fst e, fst (fst x), snd (fst x))) (snd e))
        types
  | VarType t vars => map (fun x => (t, fst (fst x), snd (fst x))) vars
  end.

Definition vd_item (v : VarDir) (i : Z) : option Z :=
  match v with
  | VarRoot _ => None
  | VarType _ vars =>
      match find (fun x => Z.eqb (snd (fst x)) i) vars with
      | Some x => Some (snd x)
      | None => None
      end
  end.

#[export] Instance VarDir_Dir : Variables.Dir VarDir Z := {
  Variables.by_type := vd_by_type;
  Variables.children := vd_children;
  Variables.item := vd_item
}.

(* ================================================================= *)
(** ** The weather classifier *)

Module WeatherNode.
Record t (A : Type) : Type := mk {
  status : A;
  name : string;
  uom : A
}.
End WeatherNode.

(** The climate object as the classifier sees it: the names [dir(climate)]
    lists, and [getattr], [None] standing for [AttributeError]. *)
Record Climate (A : Type) : Type := mkClimate {
  dir : list string;
  getattr : string -> option A
}.

Section WeatherClassifier.
Context {A : Type}.

(** ['{}_units'.format(attr)]. *)
Definition units_of (attr : string) : string := (attr ++ "_units")%string.

(** The list comprehension of [_categorize_weather] over the attributes
    still to visit. *)
Fixpoint weather_nodes (climate : Climate A) (climate_attrs : list string)
    (attrs : list string)
    : Py (list (WeatherNode.t A)) (list (WeatherNode.t A)) :=
  match attrs with
  | [] => ret []
  | attr :: rest =>
      if mem (units_of attr) climate_attrs then
        value <- or_raise (getattr climate attr) AttributeError ;;
        unit <- or_raise (getattr climate (units_of attr)) AttributeError ;;
        others <- weather_nodes climate climate_attrs rest ;;
        ret (WeatherNode.mk value (replace_underscores attr) unit :: others)
      else weather_nodes climate climate_attrs rest
  end.

(** The store is [hass.data[ISY994_WEATHER]]. *)
Definition _categorize_weather (climate : Climate A)
    : Py (list (WeatherNode.t A)) unit :=
  let climate_attrs := dir climate in
  nodes <- weather_nodes climate climate_attrs climate_attrs ;;
  modify (fun weather => weather ++ nodes).

End WeatherClassifier.

(** An object given by its attributes, in the order [dir] lists them. *)
Definition object_of {A} (attrs : list (string * A)) : Climate A :=
  mkClimate (map fst attrs)
    (fun a =>
       match find (fun e => String.eqb (fst e) a) attrs with
       | Some e => Some (snd e)
       | None => None
       end).

(* ================================================================= *)
(** ** Vocabulary of the properties *)

(** What one classification does to the node buckets. *)
Definition placed_in (d : Domain) (node : Node) (before after : Buckets Node)
    : Prop :=
  after d = before d ++ [node] /\ forall d', d' <> d -> after d' = before d'.

Definition dropped (before after : Buckets Node) : Prop :=
  forall d, after d = before d.

(** The numeral an address ends with, when it ends with one. *)
Definition address_suffix (address : string) : option Z :=
  match last_char address with
  | Some c => digit_value c
  | None => None
  end.

(** The first category, in the order of [SUPPORTED_DOMAINS], whose rule
    accepts the node under a given test. *)
Definition first_category (test : Domain -> bool) : option Domain :=
  find test SUPPORTED_DOMAINS.

(** The per-category criteria of the five matchers, read off the rule
    table. *)
Definition node_def_rule (id : string) (d : Domain) : bool :=
  mem id (Filter.node_def_id (NODE_FILTERS d)).
Definition insteon_rule (device_type : string) (d : Domain) : bool :=
  existsb (startswith device_type) (Filter.insteon_type (NODE_FILTERS d)).
Definition zwave_rule (device_type : string) (d : Domain) : bool :=
  existsb (startswith device_type) (Filter.zwave_cat (NODE_FILTERS d)).
Definition uom_rule (u : list string) (d : Domain) : bool :=
  intersects (lowered u) (Filter.uom (NODE_FILTERS d)).
Definition states_rule (u : list string) (d : Domain) : bool :=
  set_eq (lowered u) (Filter.states (NODE_FILTERS d)).

(** The two redirections of the protocol-type matcher. *)
Definition redirect (d : Domain) (suffix : Z) : Domain :=
  match d with
  | fan => if (suffix =? 1)%Z then light else fan
  | climate =>
      if ((suffix =? 2) || (suffix =? 3))%Z then binary_sensor else climate
  | _ => d
  end.

(** The store after [node] was put in bucket [d] by matcher [m] invoked
    with [single_domain]. *)
Definition matched (m : Matcher) (single_domain : option Domain)
    (d : Domain) (node : Node) (h : Hass) : Hass :=
  mkHass (bucket_append d node (isy994_nodes h))
         (calls h ++ [(m, single_domain)]).

(** The store after matcher [m] ran and matched nothing. *)
Definition unmatched (m : Matcher) (single_domain : option Domain)
    (h : Hass) : Hass :=
  mkHass (isy994_nodes h) (calls h ++ [(m, single_domain)]).

(** The forced-sensor test in the words of the specification: some rule
    restricted to binary_sensor accepts the node, the unit-of-measure
    rules being replaced by the on/off codes and tokens. *)
Definition forced_binary_sensor (node : Node) : bool :=
  match node_def_id node with
  | Some id => node_def_rule id binary_sensor
  | None => false
  end
  || match type node with
     | Some t => insteon_rule t binary_sensor
     | None => false
     end
  || match uom node with
     | Some u => intersects (lowered u) ["2"; "78"]
     | None => false
     end
  || match uom node with
     | Some u => set_eq (lowered u) ["on"; "off"]
     | None => false
     end.

(** Whether a (path, node) pair carries a marker string. *)
Definition marked (marker path : string) (node : Node) : bool :=
  str_in marker path || str_in marker (name node).

(** The protocol-type loop once a category's prefixes accept the type. *)
Definition insteon_hit (domain : Domain) (node : Node) : Py Hass bool :=
  if domain_eqb domain fan || domain_eqb domain climate then
    k <- int_of_last (nid node) ;;
    append_node (redirect domain k) node ;; ret true
  else append_node domain node ;; ret true.

(** A matcher either puts the node in one bucket and returns [True], or
    leaves the buckets alone. *)
Definition hit_or_miss (node : Node) (h : Hass) (r : Hass * Outcome bool)
    : Prop :=
  match r with
  | (h', Returned true) =>
      exists d, isy994_nodes h' = bucket_append d node (isy994_nodes h)
  | (h', _) => isy994_nodes h' = isy994_nodes h
  end.

Definition at_most_one {A} (node : Node) (h : Hass) (r : Hass * Outcome A)
    : Prop :=
  isy994_nodes (fst r) = isy994_nodes h
  \/ exists d, isy994_nodes (fst r) = bucket_append d node (isy994_nodes h).




(* ----------------------------------------------------------------- *)
(** *** Programs, in the words of the specification *)

Section ProgramVocabulary.
Context {F : Type} {T : Programs.Tree F}.

(** A required leaf: present and of program kind. *)
Definition is_program (leaf : option F) : bool :=
  match leaf with
  | Some p =>
      match Programs.dtype p with
      | Some kind => String.eqb kind "program"
      | None => false
      end
  | None => false
  end.

(** A folder is malformed for a category when its "status" leaf is absent
    or not a program, or, for every category but binary_sensor, when its
    "actions" leaf is absent or not a program. *)
Definition malformed (domain : Domain) (entity_folder : F) : bool :=
  negb (is_program (Programs.getitem entity_folder "status"))
  || (negb (domain_eqb domain binary_sensor)
      && negb (is_program (Programs.getitem entity_folder "actions"))).

(** The folders behind the folder-type entries of a list of children. *)
Definition resolved (folder : F) (children : list (string * string * string))
    : list F :=
  flat_map
    (fun child =>
       if String.eqb (fst (fst child)) "folder" then
         match Programs.getitem folder (snd child) with
         | Some entity_folder => [entity_folder]
         | None => []
         end
       else [])
    children.

Definition entity_folders (folder : F) : list F :=
  resolved folder (Programs.children folder).

(** The entity of a well-formed folder; nothing for a malformed one. *)
Definition program_entity (domain : Domain) (entity_folder : F)
    : list (Programs.Entity F) :=
  if malformed domain entity_folder then []
  else
    match Programs.getitem entity_folder "status" with
    | Some status =>
        [(Programs.name entity_folder, status,
          if domain_eqb domain binary_sensor then None
          else Programs.getitem entity_folder "actions")]
    | None => []
    end.

Definition expected_entities (domain : Domain) (folders : list F)
    : list (Programs.Entity F) :=
  flat_map (program_entity domain) folders.

Definition expected_warnings (domain : Domain) (folders : list F)
    : list LogRecord :=
  map (fun f => warning_program_not_loaded (Programs.name f))
      (filter (malformed domain) folders).

(** Every folder-type child the directory lists can be fetched by id. *)
Definition children_resolve (folder : F)
    (children : list (string * string * string)) : Prop :=
  forall child,
    In child children -> fst (fst child) = "folder" ->
    Programs.getitem folder (snd child) <> None.

End ProgramVocabulary.

(* ----------------------------------------------------------------- *)
(** *** Weather, in the words of the specification *)

Section WeatherVocabulary.
Context {A : Type}.

(** The attributes that have a sibling named after them with "_units". *)
Definition paired_attrs (climate : Climate A) : list string :=
  filter (fun attr => mem (units_of attr) (dir climate)) (dir climate).

(** The entry of attribute [attr]: its value, its name with spaces for
    underscores, and the value of its units sibling. *)
Definition weather_entry (climate : Climate A) (attr : string)
    (node : WeatherNode.t A) : Prop :=
  getattr climate attr = Some (WeatherNode.status node)
  /\ WeatherNode.name node = replace_underscores attr
  /\ getattr climate (units_of attr) = Some (WeatherNode.uom node).

(** [dir] lists each name once, and every name it lists can be read. *)
Definition climate_ok (climate : Climate A) : Prop :=
  NoDup (dir climate)
  /\ forall attr, In attr (dir climate) -> getattr climate attr <> None.

End WeatherVocabulary.

(* ================================================================= *)
(** ** The classification as a function of the node *)

(** The category each matcher of the default cascade names for a node,
    when it names one. *)
Definition by_node_def (node : Node) : option Domain :=
  match node_def_id node with
  | Some id => first_category (node_def_rule id)
  | None => None
  end.

Definition by_zwave_cat (node : Node) : option Domain :=
  match devtype_cat node with
  | Some t => first_category (zwave_rule t)
  | None => None
  end.

Definition by_uom (node : Node) : option Domain :=
  match uom node with
  | Some u => first_category (uom_rule u)
  | None => None
  end.

Definition by_states (node : Node) : option Domain :=
  match uom node with
  | Some u => first_category (states_rule u)
  | None => None
  end.

(** Text within ASCII.  Python's [int] and [str.lower] also know the
    decimal digits and the letters beyond ASCII; on a character with a
    code below 128 they are [digit_value] and [ascii_lower].  A string
    ends with such a character exactly when its last byte is below 128. *)
Definition is_ascii (c : ascii) : bool := (nat_of_ascii c <? 128)%nat.

Definition ascii_text (s : string) : bool :=
  forallb is_ascii (list_ascii_of_string s).

(** The address is empty or ends with an ASCII character. *)
Definition ascii_address (address : string) : bool :=
  match last_char address with
  | Some c => is_ascii c
  | None => true
  end.

(** What the classification reads character by character is ASCII: the
    end of the address and the unit-of-measure tokens. *)
Definition ascii_metadata (node : Node) : bool :=
  ascii_address (nid node)
  && match uom node with
     | Some u => forallb ascii_text u
     | None => true
     end.

(** The exception [int(node.nid[-1])] ends with on an address without a
    final numeral. *)
Definition suffix_error (address : string) : Exception :=
  match last_char address with
  | None => IndexError
  | Some _ => ValueError
  end.

(** The protocol-type matcher reads the address only for fan and
    climate. *)
Definition by_insteon_type (node : Node) : Outcome (option Domain) :=
  match type node with
  | None => Returned None
  | Some t =>
      match first_category (insteon_rule t) with
      | None => Returned None
      | Some d =>
          if domain_eqb d fan || domain_eqb d climate then
            match address_suffix (nid node) with
            | Some k => Returned (Some (redirect d k))
            | None => Raised (suffix_error (nid node))
            end
          else Returned (Some d)
      end
  end.

(** The bucket a (path, node) pair is headed for: none when the pair is
    ignored or no rule accepts the node, or the exception that ends the
    classification. *)
Definition expected_category (ignore_identifier sensor_identifier : string)
    (path : string) (node : Node) : Outcome (option Domain) :=
  if marked ignore_identifier path node then Returned None
  else if is_group node then Returned (Some SCENE_DOMAIN)
  else if marked sensor_identifier path node then
    Returned (Some (if forced_binary_sensor node then binary_sensor
                    else sensor))
  else
    match by_node_def node with
    | Some d => Returned (Some d)
    | None =>
        match by_insteon_type node with
        | Raised e => Raised e
        | Returned (Some d) => Returned (Some d)
        | Returned None =>
            match by_zwave_cat node with
            | Some d => Returned (Some d)
            | None =>
                match by_uom node with
                | Some d => Returned (Some d)
                | None => Returned (by_states node)
                end
            end
        end
    end.

(** The number of entries of all buckets together. *)
Definition total_size {A} (b : Buckets A) : nat :=
  list_sum (map (fun d => List.length (b d)) SUPPORTED_DOMAINS).

(** Two token lists denote the same set. *)
Definition same_set (a b : list string) : Prop :=
  forall x, In x a <-> In x b.

(** A matcher agrees with a verdict: it appends to the category named and
    returns [True], or leaves the buckets alone and returns [False], or
    leaves them alone and raises. *)
Definition decides (node : Node) (m : Py Hass bool)
    (verdict : Outcome (option Domain)) : Prop :=
  forall h,
    match verdict with
    | Returned (Some d) =>
        snd (m h) = Returned true
        /\ isy994_nodes (fst (m h)) = bucket_append d node (isy994_nodes h)
    | Returned None =>
        snd (m h) = Returned false
        /\ isy994_nodes (fst (m h)) = isy994_nodes h
    | Raised e =>
        snd (m h) = Raised e /\ isy994_nodes (fst (m h)) = isy994_nodes h
    end.

(** The same for a statement of the loop body. *)
Definition lands (node : Node) (m : Py Hass unit)
    (verdict : Outcome (option Domain)) : Prop :=
  forall h,
    match verdict with
    | Returned (Some d) =>
        snd (m h) = Returned tt
        /\ isy994_nodes (fst (m h)) = bucket_append d node (isy994_nodes h)
    | Returned None =>
        snd (m h) = Returned tt /\ isy994_nodes (fst (m h)) = isy994_nodes h
    | Raised e =>
        snd (m h) = Raised e /\ isy994_nodes (fst (m h)) = isy994_nodes h
    end.

(* ----------------------------------------------------------------- *)
(** *** Whole passes of the program classifier *)

Section ProgramPassVocabulary.
Context {F : Type} {T : Programs.Tree F}.

(** The folder of a category: "My Programs" / "HA.<category>". *)
Definition category_folder (programs : F) (domain : Domain) : option F :=
  match Programs.getitem programs "My Programs" with
  | Some root => Programs.getitem root ("HA." ++ domain_name domain)
  | None => None
  end.

Definition category_entities (programs : F) (domain : Domain)
    : list (Programs.Entity F) :=
  match category_folder programs domain with
  | Some folder => expected_entities domain (entity_folders folder)
  | None => []
  end.

Definition category_warnings (programs : F) (domain : Domain)
    : list LogRecord :=
  match category_folder programs domain with
  | Some folder => expected_warnings domain (entity_folders folder)
  | None => []
  end.

(** A store that grew from another: every bucket [allowed] was extended
    at its end, every other bucket is the same, and the log was extended
    at its end. *)
Definition programs_grew (allowed : Domain -> bool)
    (before after : Programs.Hass F) : Prop :=
  (forall d, exists added,
      Programs.isy994_programs after d
      = Programs.isy994_programs before d ++ added
      /\ (allowed d = false -> added = []))
  /\ exists logged, Programs.log after = Programs.log before ++ logged.

End ProgramPassVocabulary.

(* ----------------------------------------------------------------- *)
(** *** Variables, resolved against the directory *)

Section VariableVocabulary.
Context {V H : Type} {D : Variables.Dir V H}.

(** The first child of the declared type that has the declared id. *)
Definition declared_child (variables : V) (isy_var : IsyVar)
    : option (Z * option string * Z) :=
  match Variables.by_type variables (CONF_TYPE isy_var) with
  | Some typed =>
      find (fun var => Z.eqb (snd var) (CONF_ID isy_var))
           (Variables.children typed)
  | None => None
  end.

(** The value handle of the declared (type, id). *)
Definition declared_handle (variables : V) (isy_var : IsyVar) : option H :=
  match Variables.by_type variables (CONF_TYPE isy_var) with
  | Some typed => Variables.item typed (CONF_ID isy_var)
  | None => None
  end.

(** What a descriptor contributes when its child is found: the entity of
    a named child, nothing for a child without a name. *)
Definition variable_entities (variables : V) (isy_var : IsyVar)
    : list (Variables.Entity H) :=
  match declared_child variables isy_var,
        declared_handle variables isy_var with
  | Some (_, Some vname, _), Some handle => [(isy_var, vname, handle)]
  | _, _ => []
  end.

Definition variable_errors (variables : V) (isy_var : IsyVar)
    : list LogRecord :=
  match declared_child variables isy_var with
  | Some (_, None, _) =>
      [error_variable_not_found (CONF_TYPE isy_var) (CONF_ID isy_var)]
  | _ => []
  end.

(** The descriptor can be classified without an exception: its child is
    found, and when the child has a name its value can be fetched. *)
Definition classifiable (variables : V) (isy_var : IsyVar) : Prop :=
  exists child,
    declared_child variables isy_var = Some child
    /\ (snd (fst child) <> None ->
        declared_handle variables isy_var <> None).

End VariableVocabulary.

(* ================================================================= *)
(** ** [setup] *)

(** The parts of [urlparse(host)] that [setup] reads.  [port] is what
    evaluating [host.port] gives: a number, [None] when the host names no
    port, or the [ValueError] the property raises for a port that is not
    a number or is out of range. *)
Record Url : Type := mkUrl {
  scheme : string;
  port : Outcome (option Z);
  hostname : option string
}.

(** [config[DOMAIN][CONF_ISY_VARIABLES]]: the descriptor lists per
    category, a list being [None] when its key is absent. *)
Record IsyVariables : Type := mkIsyVariables {
  CONF_SENSORS : option (list IsyVar);
  CONF_BINARY_SENSORS : option (list IsyVar);
  CONF_SWITCHES : option (list IsyVar)
}.

(** [config[DOMAIN]], with the host already parsed.  [Tls] is the type of
    the TLS version, which [setup] only passes on. *)
Record IsyConfig (Tls : Type) : Type := mkIsyConfig {
  CONF_USERNAME : string;
  CONF_PASSWORD : string;
  CONF_TLS_VER : option Tls;
  CONF_HOST : Url;
  CONF_IGNORE_STRING : string;
  CONF_SENSOR_STRING : string;
  CONF_ENABLE_CLIMATE : bool;
  CONF_ISY_VARIABLES : IsyVariables
}.

(** What [setup] reads of the connection object: [weather_information]
    is the truth value of [isy.configuration.get('Weather
    Information')]. *)
Module ISY.
Record t (F V A : Type) : Type := mk {
  connected : bool;
  nodes : list (string * Node);
  programs : F;
  variables : V;
  climate : Climate A;
  weather_information : bool
}.
End ISY.

(** What [setup] logs: the records of the classifiers, and its own error
    "isy994 host value in configuration is invalid". *)
Inductive SetupRecord : Type :=
  | classifier_record (r : LogRecord)
  | error_invalid_host.

(** The store of [setup]: the four entries of [hass.data] (the node
    entry with its ghost history), the log, the number of listeners
    registered for the stop event, the platforms [load_platform] was
    called for, and [isy.auto_update]. *)
Module Data.
Record t (F H A : Type) : Type := mk {
  nodes : Hass;
  programs : Buckets (Programs.Entity F);
  variables : Buckets (Variables.Entity H);
  weather : list (WeatherNode.t A);
  log : list SetupRecord;
  stop_listeners : nat;
  platforms : list Domain;
  auto_update : bool
}.
End Data.

Section Setup.
Context {F V H A Tls : Type}
        {T : Programs.Tree F} {D : Variables.Dir V H}.

(** [PyISY.ISY(hostname, port, username=, password=, use_https=,
    tls_ver=, log=)]. *)
Variable connect :
  option string -> Z -> string -> string -> bool -> option Tls ->
  ISY.t F V A.

(** Running a classifier on its entry of the store.  The program and
    variable classifiers only add to the log; what they add is appended
    to the log of [setup]. *)
Definition on_nodes {X} (m : Py Hass X) : Py (Data.t F H A) X :=
  fun s =>
    let (n, o) := m (Data.nodes s) in
    (Data.mk n (Data.programs s) (Data.variables s) (Data.weather s)
       (Data.log s) (Data.stop_listeners s) (Data.platforms s)
       (Data.auto_update s),
     o).

Definition on_programs {X} (m : Py (Programs.Hass F) X) : Py (Data.t F H A) X :=
  fun s =>
    let (p, o) := m (Programs.mkHass (Data.programs s) []) in
    (Data.mk (Data.nodes s) (Programs.isy994_programs p)
       (Data.variables s) (Data.weather s)
       (Data.log s ++ map classifier_record (Programs.log p))
       (Data.stop_listeners s) (Data.platforms s) (Data.auto_update s),
     o).

Definition on_variables {X} (m : Py (Variables.Hass H) X) : Py (Data.t F H A) X :=
  fun s =>
    let (v, o) := m (Variables.mkHass (Data.variables s) []) in
    (Data.mk (Data.nodes s) (Data.programs s)
       (Variables.isy994_variables v) (Data.weather s)
       (Data.log s ++ map classifier_record (Variables.log v))
       (Data.stop_listeners s) (Data.platforms s) (Data.auto_update s),
     o).

Definition on_weather {X} (m : Py (list (WeatherNode.t A)) X)
    : Py (Data.t F H A) X :=
  fun s =>
    let (w, o) := m (Data.weather s) in
    (Data.mk (Data.nodes s) (Data.programs s) (Data.variables s) w
       (Data.log s) (Data.stop_listeners s) (Data.platforms s)
       (Data.auto_update s),
     o).

(** The first statements of [setup]: every entry of [hass.data] is
    created anew, empty.  The node and program entries get a list for
    each of the eight categories.  The variable entry gets one for the
    three categories of [SUPPORTED_VARIABLE_DOMAINS] only: the value of
    the function at another category stands for no list of the source,
    [append_variable] raises [KeyError] there and it is never written. *)
Definition reset_data : Py (Data.t F H A) unit :=
  modify (fun s =>
    Data.mk (mkHass no_buckets (calls (Data.nodes s)))
      no_buckets no_buckets [] (Data.log s) (Data.stop_listeners s)
      (Data.platforms s) (Data.auto_update s)).

Definition log_invalid_host : Py (Data.t F H A) unit :=
  modify (fun s =>
    Data.mk (Data.nodes s) (Data.programs s) (Data.variables s)
      (Data.weather s) (Data.log s ++ [error_invalid_host])
      (Data.stop_listeners s) (Data.platforms s) (Data.auto_update s)).

(** [hass.bus.listen_once(EVENT_HOMEASSISTANT_STOP, stop)]. *)
Definition listen_once_stop : Py (Data.t F H A) unit :=
  modify (fun s =>
    Data.mk (Data.nodes s) (Data.programs s) (Data.variables s)
      (Data.weather s) (Data.log s) (S (Data.stop_listeners s))
      (Data.platforms s) (Data.auto_update s)).

(** [discovery.load_platform(hass, component, DOMAIN, {}, config)]. *)
Definition load_platform (component : Domain) : Py (Data.t F H A) unit :=
  modify (fun s =>
    Data.mk (Data.nodes s) (Data.programs s) (Data.variables s)
      (Data.weather s) (Data.log s) (Data.stop_listeners s)
      (Data.platforms s ++ [component]) (Data.auto_update s)).

(** [isy.auto_update = True]. *)
Definition set_auto_update (b : bool) : Py (Data.t F H A) unit :=
  modify (fun s =>
    Data.mk (Data.nodes s) (Data.programs s) (Data.variables s)
      (Data.weather s) (Data.log s) (Data.stop_listeners s)
      (Data.platforms s) b).

(** Evaluating [host.port]. *)
Definition read_port (host : Url) : Py (Data.t F H A) (option Z) :=
  fun s => (s, port host).

(** [p or default], for the value [p] of [host.port]. *)
Definition port_or (p : option Z) (default : Z) : Z :=
  match p with
  | Some n => if (n =? 0)%Z then default else n
  | None => default
  end.

(** The last statements of [setup]. *)
Definition finish_setup : Py (Data.t F H A) bool :=
  listen_once_stop ;;
  for_each SUPPORTED_DOMAINS load_platform ;;
  set_auto_update true ;;
  ret true.

(** The part of [setup] after the connection is made. *)
Definition setup_connected (isy_config : IsyConfig Tls)
    (isy : ISY.t F V A) : Py (Data.t F H A) bool :=
  if negb (ISY.connected isy) then ret false
  else
    let ignore_identifier := CONF_IGNORE_STRING isy_config in
    let sensor_identifier := CONF_SENSOR_STRING isy_config in
    let enable_climate := CONF_ENABLE_CLIMATE isy_config in
    let isy_variables := CONF_ISY_VARIABLES isy_config in
    on_nodes (_categorize_nodes (ISY.nodes isy) ignore_identifier
                sensor_identifier) ;;
    on_programs (_categorize_programs (ISY.programs isy)) ;;
    on_variables (_categorize_variables (ISY.variables isy)
                    (CONF_SENSORS isy_variables) sensor) ;;
    on_variables (_categorize_variables (ISY.variables isy)
                    (CONF_BINARY_SENSORS isy_variables) binary_sensor) ;;
    on_variables (_categorize_variables (ISY.variables isy)
                    (CONF_SWITCHES isy_variables) switch) ;;
    (if enable_climate && ISY.weather_information isy
     then on_weather (_categorize_weather (ISY.climate isy))
     else ret tt) ;;
    finish_setup.

Definition setup (isy_config : IsyConfig Tls) : Py (Data.t F H A) bool :=
  reset_data ;;
  let user := CONF_USERNAME isy_config in
  let password := CONF_PASSWORD isy_config in
  let tls_version := CONF_TLS_VER isy_config in
  let host := CONF_HOST isy_config in
  if String.eqb (scheme host) "http" then
    p <- read_port host ;;
    setup_connected isy_config
      (connect (hostname host) (port_or p 80) user password
         false tls_version)
  else if String.eqb (scheme host) "https" then
    p <- read_port host ;;
    setup_connected isy_config
      (connect (hostname host) (port_or p 443) user password
         true tls_version)
  else
    log_invalid_host ;; ret false.

End Setup.

(** Two stores with the same four entries of [hass.data]. *)
Definition same_data {F H A} (s s' : Data.t F H A) : Prop :=
  isy994_nodes (Data.nodes s) = isy994_nodes (Data.nodes s')
  /\ Data.programs s = Data.programs s'
  /\ Data.variables s = Data.variables s'
  /\ Data.weather s = Data.weather s'.

(** A computation that cannot tell such stores apart. *)
Definition data_only {F H A X} (m : Py (Data.t F H A) X) : Prop :=
  forall s s',
    same_data s s' ->
    same_data (fst (m s)) (fst (m s')) /\ snd (m s) = snd (m s').

Section SetupVocabulary.
Context {F V H A Tls : Type}.
Variable connect :
  option string -> Z -> string -> string -> bool -> option Tls ->
  ISY.t F V A.

(** The host names one of the two schemes [setup] accepts. *)
Definition valid_scheme (isy_config : IsyConfig Tls) : bool :=
  String.eqb (scheme (CONF_HOST isy_config)) "http"
  || String.eqb (scheme (CONF_HOST isy_config)) "https".

(** The controller [setup] connects to: over http on the given port or
    80, over https on the given port or 443; none for another scheme, and
    none when the port of the host cannot be read. *)
Definition connection (isy_config : IsyConfig Tls)
    : option (ISY.t F V A) :=
  let host := CONF_HOST isy_config in
  if String.eqb (scheme host) "http" then
    match port host with
    | Returned p =>
        Some (connect (hostname host) (port_or p 80)
                (CONF_USERNAME isy_config) (CONF_PASSWORD isy_config) false
                (CONF_TLS_VER isy_config))
    | Raised _ => None
    end
  else if String.eqb (scheme host) "https" then
    match port host with
    | Returned p =>
        Some (connect (hostname host) (port_or p 443)
                (CONF_USERNAME isy_config) (CONF_PASSWORD isy_config) true
                (CONF_TLS_VER isy_config))
    | Raised _ => None
    end
  else None.

(** The store after the first statements of [setup]. *)
Definition emptied (s : Data.t F H A) : Data.t F H A :=
  Data.mk (mkHass no_buckets (calls (Data.nodes s)))
    no_buckets no_buckets [] (Data.log s) (Data.stop_listeners s)
    (Data.platforms s) (Data.auto_update s).

End SetupVocabulary.

(* ================================================================= *)
(** ** [ISYDevice] *)

(** A Python [dict] with string keys: the items in insertion order, each
    key once. *)
Definition dict_get {A} (k : string) (d : list (string * A)) : option A :=
  match find (fun e => String.eqb (fst e) k) d with
  | Some e => Some (snd e)
  | None => None
  end.

(** [d[k] = v]: an existing key keeps its place. *)
Fixpoint dict_set {A} (k : string) (v : A) (d : list (string * A))
    : list (string * A) :=
  match d with
  | [] => [(k, v)]
  | (k', v') :: d' =>
      if String.eqb k' k then (k, v) :: d' else (k', v') :: dict_set k v d'
  end.

(** [d.update(other)], and a dict display [{k1: v1, k2: v2, ...}], in
    which a key written twice keeps its last value. *)
Definition dict_update {A} (d other : list (string * A))
    : list (string * A) :=
  fold_left (fun acc e => dict_set (fst e) (snd e) acc) other d.

Definition dict_display {A} (items : list (string * A))
    : list (string * A) :=
  dict_update [] items.

Definition ISY994_EVENT_FRIENDLY_NAME : list (string * string) :=
  dict_display
    [("OL", "On Level"); ("RR", "Ramp Rate");
     ("CLISPH", "Heat Setpoint"); ("CLISPC", "Cool Setpoint");
     ("CLIFS", "Fan State"); ("CLIMD", "Thermostat Mode");
     ("CLIHUM", "Humidity"); ("CLIHCS", "Heat/Cool State");
     ("CLIEMD", "Energy Saving Mode");
     ("ERR", "Device communication errors");
     ("UOM", "Unit of Measure"); ("TPW", "Total kW Power");
     ("PPW", "Polarized Power"); ("PF", "Power Factor");
     ("CC", "Current"); ("CV", "Voltage"); ("AIRFLOW", "Air Flow");
     ("ALARM", "Alarm"); ("ANGLE", "Angle Position");
     ("ATMPRES", "Atmospheric Pressure");
     ("BARPRES", "Barometric Pressure"); ("BATLVL", "Battery Level");
     ("CLIMD", "Mode"); ("CLISMD", "Schedule Mode");
     ("CLITEMP", "Temperature"); ("CO2LVL", "CO2 Level");
     ("CPW", "Power"); ("DISTANC", "Distance");
     ("ELECRES", "Electrical Resistivity");
     ("ELECCON", "Electrical Conductivity");
     ("GPV", "General Purpose"); ("GVOL", "Gas Volume");
     ("LUMIN", "Luminance"); ("MOIST", "Moisture");
     ("PCNT", "Pulse Count"); ("PULSCNT", "Pulse Count");
     ("RAINRT", "Rain Rate"); ("ROTATE", "Rotation");
     ("SEISINT", "Seismic Intensity"); ("SEISMAG", "Seismic Magnitude");
     ("SOLRAD", "Solar Radiation"); ("SPEED", "Speed");
     ("SVOL", "Sound Volume"); ("TANKCAP", "Tank Capacity");
     ("TIDELVL", "Tide Level"); ("TIMEREM", "Time Remaining");
     ("UAC", "User Number"); ("UV", "UV Light");
     ("USRNUM", "User Number"); ("VOCLVL", "VOC Level");
     ("WEIGHT", "Weight"); ("WINDDIR", "Wind Direction");
     ("WVOL", "Water Volume")].

Definition ISY994_EVENT_IGNORE : list string :=
  ["DON"; "ST"; "DFON"; "DOF"; "DFOF"; "BEEP"; "RESET";
   "X10"; "BMAN"; "SMAN"; "BRT"; "DIM"; "BUSY"].

(** What the attributes of a device hold: integers taken from control
    events, and the strings made of the auxiliary properties. *)
Inductive AttrValue : Type :=
  | AInt (z : Z)
  | AStr (s : string).

(** One auxiliary property of a node: [val.get('value')] and
    [val.get('uom')], already as text, [None] when the key is absent. *)
Record AuxProperty : Type := mkAux {
  aux_value : option string;
  aux_uom : option string
}.

(** [str(x)] for a text or [None]. *)
Definition str_of (x : option string) : string :=
  match x with
  | Some s => s
  | None => "None"
  end.

(** ['{} {}'.format(a, b)]. *)
Definition format_pair (a b : option string) : string :=
  (str_of a ++ " " ++ str_of b)%string.

Module ISYDevice.
(** A control event of the node, and the event fired on the bus. *)
Record ControlEvent (N : Type) : Type := mkControl {
  event : string;
  nval : N
}.

Record BusEvent (N : Type) : Type := mkBus {
  entity_id : string;
  control : string;
  value : N
}.

(** The device: its entity id, [_attrs], and what it has asked of the
    host so far, the events fired as 'isy994_control' and the number of
    calls of [schedule_update_ha_state]. *)
Record t (N : Type) : Type := mk {
  self_entity_id : string;
  _attrs : list (string * AttrValue);
  fired : list (BusEvent N);
  scheduled_updates : nat
}.
End ISYDevice.

Section Device.
Context {N : Type}.

(** [int(event.nval)], on whatever type the event value has. *)
Variable int : N -> Outcome Z.

Definition fire_control (e : ISYDevice.ControlEvent N)
    : Py (ISYDevice.t N) unit :=
  modify (fun self =>
    ISYDevice.mk (ISYDevice.self_entity_id self) (ISYDevice._attrs self)
      (ISYDevice.fired self
         ++ [ISYDevice.mkBus (ISYDevice.self_entity_id self)
               (ISYDevice.event e) (ISYDevice.nval e)])
      (ISYDevice.scheduled_updates self)).

Definition set_attr (attr_name : string) (v : AttrValue)
    : Py (ISYDevice.t N) unit :=
  modify (fun self =>
    ISYDevice.mk (ISYDevice.self_entity_id self)
      (dict_set attr_name v (ISYDevice._attrs self))
      (ISYDevice.fired self) (ISYDevice.scheduled_updates self)).

Definition schedule_update_ha_state : Py (ISYDevice.t N) unit :=
  modify (fun self =>
    ISYDevice.mk (ISYDevice.self_entity_id self) (ISYDevice._attrs self)
      (ISYDevice.fired self) (S (ISYDevice.scheduled_updates self))).

(** [ISY994_EVENT_FRIENDLY_NAME.get(code, code)]. *)
Definition friendly_name (code : string) : string :=
  match dict_get code ISY994_EVENT_FRIENDLY_NAME with
  | Some n => n
  | None => code
  end.

Definition on_control (e : ISYDevice.ControlEvent N)
    : Py (ISYDevice.t N) unit :=
  fire_control e ;;
  if negb (mem (ISYDevice.event e) ISY994_EVENT_IGNORE) then
    let attr_name := friendly_name (ISYDevice.event e) in
    z <- (fun self =>
            match int (ISYDevice.nval e) with
            | Returned z => (self, Returned z)
            | Raised x => (self, Raised x)
            end) ;;
    set_attr attr_name (AInt z) ;;
    schedule_update_ha_state
  else ret tt.

(** [device_state_attributes], for a node with the given
    [aux_properties.items()], or without the attribute. *)
Definition device_state_attributes
    (aux_properties : option (list (string * AuxProperty)))
    : Py (ISYDevice.t N) (list (string * AttrValue)) :=
  let attr :=
    match aux_properties with
    | Some items =>
        fold_left
          (fun attr item =>
             dict_set (fst item)
               (AStr (format_pair (aux_value (snd item))
                        (aux_uom (snd item))))
               attr)
          items []
    | None => []
    end in
  modify (fun self =>
    ISYDevice.mk (ISYDevice.self_entity_id self)
      (dict_update (ISYDevice._attrs self) attr)
      (ISYDevice.fired self) (ISYDevice.scheduled_updates self)) ;;
  ret attr.

End Device.

(* ================================================================= *)
(** ** Example inputs *)

(** The store [setup] hands to the node classifier. *)
Definition fresh : Hass := mkHass no_buckets [].

Definition ignored_scene : Node :=
  mkNode "Attic sensor {IGNORE ME}" "45321" (Some "Thermostat")
    (Some "1.46.0.0") None (Some ["2"]) true.

Definition lock_reporting_light_uom : Node :=
  mkNode "Front door" "ZW004_1" (Some "DoorLock") None (Some "111")
    (Some ["51"]) false.


(** A scene the user named after the sensors it groups. *)
Definition sensor_scene : Node :=
  mkNode "Hallway sensor lights" "28614" None None None None true.

(** Two nodes carrying the sensor marker: a leak sensor reporting the
    on/off code, and a temperature probe. *)
Definition leak_sensor : Node :=
  mkNode "Basement leak sensor" "2C 11 0F 1" None None None
    (Some ["78"]) false.
Definition temperature_sensor : Node :=
  mkNode "Porch sensor" "ZW011_1" None None None (Some ["17"]) false.

(** The light of a FanLinc, and the heat sub-node of a thermostat. *)
Definition fanlinc_light : Node :=
  mkNode "Bedroom fan light" "1F 3A 22 1" None (Some "1.46.65.0") None
    (Some ["%"; "on"; "off"]) false.
Definition thermostat_heat : Node :=
  mkNode "Thermostat heat" "2A 40 7C 3" None (Some "5.11.13.0") None
    None false.

(** A thermostat sub-node whose address ends with a hexadecimal letter,
    and a plain switch listed after it. *)
Definition thermostat_subnode_a : Node :=
  mkNode "Thermostat aux" "2A 40 7C A" None (Some "5.11.13.0") None
    None false.
Definition relay_switch : Node :=
  mkNode "Porch relay" "19 02 5D 1" (Some "RelayLampSwitch")
    (Some "2.42.67.0") None None false.

(** A node that only reports the unit-of-measure code 2. *)
Definition uom_2_node : Node :=
  mkNode "Outlet" "n001_outlet" None None None (Some ["2"]) false.

(** A category folder with three entity folders, the second of which has
    no "actions" program, next to a stray program. *)
Definition front_door : ProgramNode :=
  PNode "folder" "Front door" "0012"
    [PNode "program" "status" "0013" []; PNode "program" "actions" "0014" []].
Definition side_gate : ProgramNode :=
  PNode "folder" "Side gate" "0015" [PNode "program" "status" "0016" []].
Definition garage : ProgramNode :=
  PNode "folder" "Garage" "0017"
    [PNode "program" "status" "0018" []; PNode "program" "actions" "0019" []].
Definition ha_lock : ProgramNode :=
  PNode "folder" "HA.lock" "0011"
    [front_door; PNode "program" "Nightly" "0020" []; side_gate; garage].

(** A controller with one integer variable (type 1, id 3) and a
    configuration that declares a variable the controller does not have
    before the one it has. *)
Definition controller_variables : VarDir :=
  VarRoot [(1%Z, [(Some "Outside temperature", 3%Z, 17%Z)]); (2%Z, [])].
Definition undeclared_var : IsyVar := mkIsyVar 7 1 [].
Definition outside_temperature_var : IsyVar :=
  mkIsyVar 3 1 [("name", "Outside")].
Definition no_variables : Variables.Hass Z := Variables.mkHass no_buckets [].

(** A weather object with a temperature and its units, and a humidity
    without units. *)
Definition station : Climate string :=
  object_of
    [("humidity", "40"); ("temperature", "21.5");
     ("temperature_units", "C")].

(** The program directory around it: "My Programs" holds the folder of
    the lock category only. *)
Definition program_directory : ProgramNode :=
  PNode "folder" "" "0000"
    [PNode "folder" "My Programs" "0001" [ha_lock]].

(** A structural node: a name and an address, nothing else. *)
Definition bare_node : Node :=
  mkNode "Keypad backlight" "ZW019_1" None None None None false.

(** A node reporting an empty list of states, and two nodes reporting
    the on/off states in different spellings. *)
Definition stateless_node : Node :=
  mkNode "Pool controller" "n002_pool" None None None (Some []) false.
Definition shouting_switch : Node :=
  mkNode "Pump" "n002_pump" None None None (Some ["ON"; "Off"; "on"]) false.
Definition quiet_switch : Node :=
  mkNode "Heater" "n002_heat" None None None (Some ["off"; "on"]) false.

(** A program directory without the "My Programs" folder. *)
Definition bare_directory : ProgramNode :=
  PNode "folder" "" "0000" [PNode "program" "Query All" "0002" []].

(** A directory in which "My Programs" holds a folder for each of the
    five program categories, the one of lock with its three entities. *)
Definition full_directory : ProgramNode :=
  PNode "folder" "" "0000"
    [PNode "folder" "My Programs" "0001"
       [PNode "folder" "HA.binary_sensor" "0030" [];
        ha_lock;
        PNode "folder" "HA.fan" "0031" [];
        PNode "folder" "HA.cover" "0032"
          [PNode "program" "Sunset" "0034" []];
        PNode "folder" "HA.switch" "0033" []]].

(** A directory whose listing is ahead of its contents: every folder
    also lists a folder "Ghost" that cannot be fetched. *)
Definition stale_listing : Programs.Tree ProgramNode := {|
  Programs.getitem := pn_getitem;
  Programs.children :=
    fun p =>
      map (fun c => (pn_dtype c, pn_name c, pn_id c)) (pn_items p)
      ++ [("folder", "Ghost", "9999")];
  Programs.name := pn_name;
  Programs.dtype := fun p => Some (pn_dtype p)
|}.

(** A controller with a nameless state variable (type 2, id 1) next to
    two named variables. *)
Definition named_and_nameless : VarDir :=
  VarRoot [(1%Z, [(Some "Outside temperature", 3%Z, 17%Z)]);
           (2%Z, [(None, 1%Z, 0%Z); (Some "Away", 2%Z, 1%Z)])].
Definition away_var : IsyVar := mkIsyVar 2 2 [].
Definition nameless_var : IsyVar := mkIsyVar 1 2 [].
Definition float_var : IsyVar := mkIsyVar 1 3 [].

(** A weather object whose [dir] lists an attribute that cannot be
    read. *)
Definition broken_station : Climate string :=
  mkClimate ["wind_speed"; "wind_speed_units"]
    (fun a => if String.eqb a "wind_speed" then Some "12" else None).

(** A weather object with a two-word measurement. *)
Definition wind_station : Climate string :=
  object_of [("wind_speed", "12"); ("wind_speed_units", "km/h")].

(** An empty store, a configuration with an ftp host, and a controller
    that never connects. *)
Definition empty_store : Data.t ProgramNode Z string :=
  Data.mk fresh no_buckets no_buckets [] [] 0 [] false.
Definition ftp_config : IsyConfig unit :=
  mkIsyConfig "admin" "secret" None
    (mkUrl "ftp" (Returned None) (Some "isy.local"))
    "{IGNORE ME}" "sensor" true (mkIsyVariables (Some []) (Some []) (Some [])).
Definition http_config : IsyConfig unit :=
  mkIsyConfig "admin" "secret" None
    (mkUrl "http" (Returned None) (Some "isy.local"))
    "{IGNORE ME}" "sensor" true
    (mkIsyVariables (Some [outside_temperature_var]) (Some [])
       (Some [away_var])).
(** The configuration of a host written with the port 99999, which
    [host.port] refuses. *)
Definition bad_port_config : IsyConfig unit :=
  mkIsyConfig "admin" "secret" None
    (mkUrl "http" (Raised ValueError) (Some "isy.local"))
    "{IGNORE ME}" "sensor" true (mkIsyVariables (Some []) (Some []) (Some [])).
Definition unreachable
    (hostname : option string) (port : Z) (user password : string)
    (use_https : bool) (tls_ver : option unit)
    : ISY.t ProgramNode VarDir string :=
  ISY.mk false [] bare_directory (VarRoot []) (object_of []) false.

(** A controller that answers on port 80 only, with a few nodes, the
    lock programs, three variables and a weather station. *)
Definition house
    (hostname : option string) (port : Z) (user password : string)
    (use_https : bool) (tls_ver : option unit)
    : ISY.t ProgramNode VarDir string :=
  ISY.mk (port =? 80)%Z
    [("Bedroom", fanlinc_light); ("Basement", leak_sensor);
     ("Scenes", sensor_scene); ("Den", bare_node)]
    program_directory named_and_nameless station true.

(** A thermostat entity, and a reading of event values that are one
    decimal digit. *)
Definition thermostat_entity : ISYDevice.t string :=
  ISYDevice.mk "climate.hallway" [("Mode", AInt 1)] [] 0.
Definition read_digit (s : string) : Outcome Z :=
  match s with
  | String c EmptyString =>
      match digit_value c with
      | Some z => Returned z
      | None => Raised ValueError
      end
  | _ => Raised ValueError
  end.

(* ================================================================= *)
(** ** Basic facts: categories, buckets, strings *)

Lemma domain_eqb_eq (a b : Domain) : domain_eqb a b = true <-> a = b.
Proof. destruct a, b; simpl; split; intro E; congruence. Qed.

Lemma domain_eqb_refl (d : Domain) : domain_eqb d d = true.
Proof. now apply domain_eqb_eq. Qed.

Lemma domain_eqb_neq (a b : Domain) : a <> b -> domain_eqb a b = false.
Proof.
  intro N. destruct (domain_eqb a b) eqn:E; [|reflexivity].
  apply domain_eqb_eq in E. contradiction.
Qed.

Lemma bucket_append_same {A} (d : Domain) (x : A) (b : Buckets A) :
  bucket_append d x b d = b d ++ [x].
Proof. unfold bucket_append. now rewrite domain_eqb_refl. Qed.

Lemma bucket_append_other {A} (d d' : Domain) (x : A) (b : Buckets A) :
  d' <> d -> bucket_append d x b d' = b d'.
Proof. intro N. unfold bucket_append. now rewrite domain_eqb_neq. Qed.

Lemma app_one_neq {A} (l : list A) (x : A) : l ++ [x] <> l.
Proof.
  intro E. apply (f_equal (@List.length A)) in E.
  rewrite List.length_app in E. simpl in E. lia.
Qed.

Lemma placed_in_append (d : Domain) (node : Node) (b : Buckets Node) :
  placed_in d node b (bucket_append d node b).
Proof.
  split; [apply bucket_append_same | intros; now apply bucket_append_other].
Qed.

Lemma placed_in_unique d d' node (before after : Buckets Node) :
  placed_in d node before after -> placed_in d' node before after -> d' = d.
Proof.
  intros [Hd _] [_ Ho].
  destruct (domain_eqb d d') eqn:E.
  - apply domain_eqb_eq in E. congruence.
  - exfalso. assert (N : d <> d').
    { intro X. apply domain_eqb_eq in X. congruence. }
    specialize (Ho d N). rewrite Hd in Ho. now apply app_one_neq in Ho.
Qed.

Lemma placed_in_not_dropped d node (before after : Buckets Node) :
  placed_in d node before after -> ~ dropped before after.
Proof.
  intros [Hd _] D. specialize (D d). rewrite Hd in D.
  now apply app_one_neq in D.
Qed.

Lemma startswith_app (s t : string) :
  startswith s t = true <-> exists r, s = (t ++ r)%string.
Proof.
  revert s. induction t as [|b t IH]; intro s; simpl.
  - split; [intros _; now exists s | reflexivity].
  - destruct s as [|a s].
    + split; [discriminate | intros [r E]; discriminate].
    + destruct (Ascii.eqb a b) eqn:E.
      * apply Ascii.eqb_eq in E. subst b. rewrite IH.
        split; intros [r Hr]; exists r; congruence.
      * split; [discriminate|]. intros [r Hr]. injection Hr as -> _.
        now rewrite Ascii.eqb_refl in E.
Qed.

Lemma mem_In (x : string) (l : list string) : mem x l = true <-> In x l.
Proof.
  unfold mem. rewrite existsb_exists. split.
  - intros [y [Hy E]]. apply String.eqb_eq in E. now subst.
  - intro H. exists x. split; [assumption | apply String.eqb_refl].
Qed.

(* ================================================================= *)
(** ** What each matcher does *)

Lemma first_matching_find test node domains h :
  first_matching test node domains h =
  match find test domains with
  | Some d => (mkHass (bucket_append d node (isy994_nodes h)) (calls h),
               Returned true)
  | None => (h, Returned false)
  end.
Proof.
  induction domains as [|d ds IH]; simpl; [reflexivity|].
  destruct (test d); [reflexivity | apply IH].
Qed.

Lemma int_of_last_suffix (s : string) (h : Hass) :
  int_of_last s h =
  match address_suffix s with
  | Some k => (h, Returned k)
  | None =>
      (h, Raised (match last_char s with
                  | None => IndexError
                  | Some _ => ValueError
                  end))
  end.
Proof.
  unfold int_of_last, address_suffix, bind, or_raise, ret, raise.
  destruct (last_char s) as [c|]; [|reflexivity].
  destruct (digit_value c); reflexivity.
Qed.

Lemma insteon_type_loop_find device_type node domains h :
  insteon_type_loop device_type node domains h =
  match find (insteon_rule device_type) domains with
  | Some d => insteon_hit d node h
  | None => (h, Returned false)
  end.
Proof.
  induction domains as [|d ds IH]; simpl; [reflexivity|].
  unfold insteon_rule at 1.
  destruct (existsb _ _); [|apply IH].
  unfold insteon_hit, bind, ret.
  destruct d; simpl; try reflexivity;
    rewrite int_of_last_suffix;
    destruct (address_suffix (nid node)) as [k|]; try reflexivity;
    simpl; unfold redirect.
  - destruct (k =? 1)%Z; reflexivity.
  - destruct (k =? 2)%Z; simpl; [reflexivity|].
    destruct (k =? 3)%Z; reflexivity.
Qed.

Lemma check_for_node_def_spec node single_domain h :
  _check_for_node_def node single_domain h =
  match node_def_id node with
  | None => (unmatched NodeDef single_domain h, Returned false)
  | Some id =>
      match find (node_def_rule id) (domains_of single_domain) with
      | Some d => (matched NodeDef single_domain d node h, Returned true)
      | None => (unmatched NodeDef single_domain h, Returned false)
      end
  end.
Proof.
  unfold _check_for_node_def, bind, enter, modify.
  destruct (node_def_id node) as [id|]; [|reflexivity].
  rewrite first_matching_find. fold (node_def_rule id).
  destruct (find _ _); reflexivity.
Qed.

Lemma check_for_zwave_cat_spec node single_domain h :
  _check_for_zwave_cat node single_domain h =
  match devtype_cat node with
  | None => (unmatched ZwaveCat single_domain h, Returned false)
  | Some t =>
      match find (zwave_rule t) (domains_of single_domain) with
      | Some d => (matched ZwaveCat single_domain d node h, Returned true)
      | None => (unmatched ZwaveCat single_domain h, Returned false)
      end
  end.
Proof.
  unfold _check_for_zwave_cat, bind, enter, modify.
  destruct (devtype_cat node) as [t|]; [|reflexivity].
  rewrite first_matching_find. fold (zwave_rule t).
  destruct (find _ _); reflexivity.
Qed.

Lemma check_for_insteon_type_spec node single_domain h :
  _check_for_insteon_type node single_domain h =
  match type node with
  | None => (unmatched InsteonType single_domain h, Returned false)
  | Some t =>
      match find (insteon_rule t) (domains_of single_domain) with
      | Some d => insteon_hit d node (unmatched InsteonType single_domain h)
      | None => (unmatched InsteonType single_domain h, Returned false)
      end
  end.
Proof.
  unfold _check_for_insteon_type, bind, enter, modify.
  destruct (type node) as [t|]; [|reflexivity].
  now rewrite insteon_type_loop_find.
Qed.

Lemma check_for_uom_id_all node single_domain h :
  _check_for_uom_id node single_domain None h =
  match uom node with
  | None => (unmatched UomId single_domain h, Returned false)
  | Some u =>
      match find (uom_rule u) (domains_of single_domain) with
      | Some d => (matched UomId single_domain d node h, Returned true)
      | None => (unmatched UomId single_domain h, Returned false)
      end
  end.
Proof.
  unfold _check_for_uom_id, bind, enter, modify.
  destruct (uom node) as [u|]; [|reflexivity]. simpl.
  rewrite first_matching_find. fold (uom_rule u).
  destruct (find _ _); reflexivity.
Qed.

Lemma check_for_states_in_uom_all node single_domain h :
  _check_for_states_in_uom node single_domain None h =
  match uom node with
  | None => (unmatched StatesInUom single_domain h, Returned false)
  | Some u =>
      match find (states_rule u) (domains_of single_domain) with
      | Some d =>
          (matched StatesInUom single_domain d node h, Returned true)
      | None => (unmatched StatesInUom single_domain h, Returned false)
      end
  end.
Proof.
  unfold _check_for_states_in_uom, bind, enter, modify.
  destruct (uom node) as [u|]; [|reflexivity]. simpl.
  rewrite first_matching_find. fold (states_rule u).
  destruct (find _ _); reflexivity.
Qed.

(** With an override list and a single category. *)
Lemma check_for_uom_id_override node d (l : list string) h :
  l <> [] ->
  _check_for_uom_id node (Some d) (Some l) h =
  match uom node with
  | Some u =>
      if intersects (lowered u) l
      then (matched UomId (Some d) d node h, Returned true)
      else (unmatched UomId (Some d) h, Returned false)
  | None => (unmatched UomId (Some d) h, Returned false)
  end.
Proof.
  intro N. unfold _check_for_uom_id, bind, enter, modify.
  destruct (uom node) as [u|]; [|reflexivity].
  destruct l as [|x l]; [congruence|]. unfold truthy.
  destruct (intersects _ _); reflexivity.
Qed.

Lemma check_for_states_in_uom_override node d (l : list string) h :
  l <> [] ->
  _check_for_states_in_uom node (Some d) (Some l) h =
  match uom node with
  | Some u =>
      if set_eq (lowered u) l
      then (matched StatesInUom (Some d) d node h, Returned true)
      else (unmatched StatesInUom (Some d) h, Returned false)
  | None => (unmatched StatesInUom (Some d) h, Returned false)
  end.
Proof.
  intro N. unfold _check_for_states_in_uom, bind, enter, modify.
  destruct (uom node) as [u|]; [|reflexivity].
  destruct l as [|x l]; [congruence|]. unfold truthy.
  destruct (set_eq _ _); reflexivity.
Qed.

(* ================================================================= *)
(** ** At most one bucket per classification *)

Lemma first_matching_hit_or_miss test node domains h h0 :
  isy994_nodes h = isy994_nodes h0 ->
  hit_or_miss node h0 (first_matching test node domains h).
Proof.
  intro E. rewrite first_matching_find.
  destruct (find test domains) as [d|]; simpl; [|assumption].
  exists d. now rewrite E.
Qed.

Lemma insteon_hit_hit_or_miss d node h h0 :
  isy994_nodes h = isy994_nodes h0 ->
  hit_or_miss node h0 (insteon_hit d node h).
Proof.
  intro E. unfold insteon_hit, bind.
  destruct (domain_eqb d fan || domain_eqb d climate).
  - rewrite int_of_last_suffix.
    destruct (address_suffix (nid node)) as [k|]; simpl; [|assumption].
    exists (redirect d k). now rewrite E.
  - simpl. exists d. now rewrite E.
Qed.

Lemma check_for_node_def_hit_or_miss node single_domain h :
  hit_or_miss node h (_check_for_node_def node single_domain h).
Proof.
  rewrite check_for_node_def_spec.
  destruct (node_def_id node) as [id|]; [|reflexivity].
  destruct (find _ _) as [d|]; simpl; [now exists d | reflexivity].
Qed.

Lemma check_for_insteon_type_hit_or_miss node single_domain h :
  hit_or_miss node h (_check_for_insteon_type node single_domain h).
Proof.
  rewrite check_for_insteon_type_spec.
  destruct (type node) as [t|]; [|reflexivity].
  destruct (find _ _) as [d|]; [|reflexivity].
  now apply insteon_hit_hit_or_miss.
Qed.

Lemma check_for_zwave_cat_hit_or_miss node single_domain h :
  hit_or_miss node h (_check_for_zwave_cat node single_domain h).
Proof.
  rewrite check_for_zwave_cat_spec.
  destruct (devtype_cat node) as [t|]; [|reflexivity].
  destruct (find _ _) as [d|]; simpl; [now exists d | reflexivity].
Qed.

Lemma check_for_uom_id_hit_or_miss node single_domain uom_list h :
  hit_or_miss node h (_check_for_uom_id node single_domain uom_list h).
Proof.
  unfold _check_for_uom_id, bind, enter, modify.
  destruct (uom node) as [u|]; [|reflexivity].
  destruct (truthy uom_list) as [l|].
  - destruct (intersects _ _); [|reflexivity].
    destruct single_domain as [d|]; simpl; [now exists d | reflexivity].
  - now apply first_matching_hit_or_miss.
Qed.

Lemma check_for_states_in_uom_hit_or_miss node single_domain states_list h :
  hit_or_miss node h
    (_check_for_states_in_uom node single_domain states_list h).
Proof.
  unfold _check_for_states_in_uom, bind, enter, modify.
  destruct (uom node) as [u|]; [|reflexivity].
  destruct (truthy states_list) as [l|].
  - destruct (set_eq _ _); [|reflexivity].
    destruct single_domain as [d|]; simpl; [now exists d | reflexivity].
  - now apply first_matching_hit_or_miss.
Qed.

(** One step of a cascade that stops at the first matcher returning
    [True]: in a function returning the verdict, and in the loop body. *)
Lemma cascade_bool node (m rest : Py Hass bool) :
  (forall h, hit_or_miss node h (m h)) ->
  (forall h, hit_or_miss node h (rest h)) ->
  forall h,
    hit_or_miss node h ((b <- m ;; if b then ret true else rest) h).
Proof.
  intros Hm Hrest h. unfold bind. specialize (Hm h).
  destruct (m h) as [h' [[|]|e]]; simpl in *; try assumption.
  specialize (Hrest h'). unfold hit_or_miss in *.
  destruct (rest h') as [h'' [[|]|e]]; rewrite Hm in Hrest; assumption.
Qed.

Lemma cascade_unit node (m : Py Hass bool) (rest : Py Hass unit) :
  (forall h, hit_or_miss node h (m h)) ->
  (forall h, at_most_one node h (rest h)) ->
  forall h,
    at_most_one node h ((b <- m ;; if b then ret tt else rest) h).
Proof.
  intros Hm Hrest h. unfold bind. specialize (Hm h).
  destruct (m h) as [h' [[|]|e]]; simpl in *.
  - now right.
  - specialize (Hrest h'). unfold at_most_one in *.
    now rewrite Hm in Hrest.
  - now left.
Qed.

Lemma ret_hit_or_miss node b h : b = false -> hit_or_miss node h (ret b h).
Proof. intros ->. reflexivity. Qed.

Lemma is_sensor_a_binary_sensor_hit_or_miss node h :
  hit_or_miss node h (_is_sensor_a_binary_sensor node h).
Proof.
  revert h. unfold _is_sensor_a_binary_sensor.
  apply cascade_bool;
    [intro; apply check_for_node_def_hit_or_miss|].
  apply cascade_bool;
    [intro; apply check_for_insteon_type_hit_or_miss|].
  apply cascade_bool;
    [intro; apply check_for_uom_id_hit_or_miss|].
  apply cascade_bool;
    [intro; apply check_for_states_in_uom_hit_or_miss|].
  intro; now apply ret_hit_or_miss.
Qed.

Lemma categorize_node_at_most_one ignore_identifier sensor_identifier
    path node h :
  at_most_one node h
    (categorize_node ignore_identifier sensor_identifier (path, node) h).
Proof.
  unfold categorize_node.
  destruct (str_in ignore_identifier path
            || str_in ignore_identifier (name node)); [now left|].
  destruct (is_group node); [right; now exists SCENE_DOMAIN|].
  destruct (str_in sensor_identifier path
            || str_in sensor_identifier (name node)).
  - unfold bind.
    pose proof (is_sensor_a_binary_sensor_hit_or_miss node h) as Hm.
    destruct (_is_sensor_a_binary_sensor node h) as [h' [[|]|e]];
      simpl in *.
    + now right.
    + right. exists sensor. unfold append_node, modify. simpl.
      now rewrite Hm.
    + now left.
  - revert h.
    apply cascade_unit; [intro; apply check_for_node_def_hit_or_miss|].
    apply cascade_unit; [intro; apply check_for_insteon_type_hit_or_miss|].
    apply cascade_unit; [intro; apply check_for_zwave_cat_hit_or_miss|].
    apply cascade_unit; [intro; apply check_for_uom_id_hit_or_miss|].
    intro h. unfold bind.
    pose proof (check_for_states_in_uom_hit_or_miss node None None h) as Hm.
    destruct (_check_for_states_in_uom node None None h) as [h' [[|]|e]];
      simpl in *.
    + now right.
    + now left.
    + now left.
Qed.

(** C1.  For every (path, node) pair the node classifier processes,
    whatever the markers and the store, and whether or not an exception
    ends the pass, exactly one of two things holds of the node buckets:
    the node was dropped (every bucket is as before, and it is placed in
    none), or the node was appended to exactly one bucket (one category
    [d] has the node appended and all others are unchanged, no other
    category can be said to have received it, and the buckets are not as
    before).  No classification appends the node to two buckets. *)
Theorem categorize_node_one_bucket_or_dropped :
  forall ignore_identifier sensor_identifier path node h,
    let before := isy994_nodes h in
    let after :=
      isy994_nodes
        (fst (categorize_node ignore_identifier sensor_identifier
                (path, node) h)) in
    (dropped before after /\ forall d, ~ placed_in d node before after)
    \/ (exists d, placed_in d node before after
                  /\ (forall d', placed_in d' node before after -> d' = d)
                  /\ ~ dropped before after).
Proof.
  intros ign sens path node h before after.
  destruct (categorize_node_at_most_one ign sens path node h) as [E|[d E]];
    fold after in E; fold before in E.
  - left. assert (D : dropped before after) by (intro d; now rewrite E).
    split; [assumption|].
    intros d P. now apply (placed_in_not_dropped P).
  - right. exists d.
    assert (P : placed_in d node before after)
      by (rewrite E; apply placed_in_append).
    split; [assumption|]. split.
    + intros d' P'. now apply (placed_in_unique P P').
    + now apply (placed_in_not_dropped P).
Qed.

(* ================================================================= *)
(** ** The ignore marker *)

Lemma for_each_skip {S A} (body : A -> Py S unit) (x : A)
    (pre post : list A) :
  (forall s, body x s = (s, Returned tt)) ->
  forall s, for_each (pre ++ x :: post) body s
            = for_each (pre ++ post) body s.
Proof.
  intro Hx. induction pre as [|a pre IH]; intro s; simpl.
  - unfold bind. now rewrite Hx.
  - unfold bind. destruct (body a s) as [s' [[]|e]]; [apply IH|reflexivity].
Qed.

(** C4.  A (path, node) pair whose path or name contains the ignore
    marker leaves the whole store as it was: no bucket receives the node,
    the history of matcher invocations is unchanged (no matcher is run),
    and no exception is raised; this holds whatever else the node carries
    (the group flag, the sensor marker, any metadata).  A pass over a list
    of pairs gives the same result as the pass over the list without that
    pair. *)
Theorem ignored_node_is_discarded :
  forall ignore_identifier sensor_identifier path node,
    marked ignore_identifier path node = true ->
    (forall h,
       categorize_node ignore_identifier sensor_identifier (path, node) h
       = (h, Returned tt))
    /\ (forall pre post h,
          _categorize_nodes (pre ++ (path, node) :: post)
            ignore_identifier sensor_identifier h
          = _categorize_nodes (pre ++ post)
              ignore_identifier sensor_identifier h).
Proof.
  intros ign sens path node M.
  assert (B : forall h,
             categorize_node ign sens (path, node) h = (h, Returned tt)).
  { intro h. unfold categorize_node. unfold marked in M. now rewrite M. }
  split; [exact B|].
  intros pre post h. unfold _categorize_nodes. now apply for_each_skip.
Qed.

Lemma ignored_node_is_discarded_witness :
  marked "{IGNORE ME}" "Scenes/Attic" ignored_scene = true
  /\ (forall h,
        categorize_node "{IGNORE ME}" "sensor"
          ("Scenes/Attic", ignored_scene) h
        = (h, Returned tt))
  /\ (forall pre post h,
        _categorize_nodes (pre ++ ("Scenes/Attic", ignored_scene) :: post)
          "{IGNORE ME}" "sensor" h
        = _categorize_nodes (pre ++ post) "{IGNORE ME}" "sensor" h).
Proof.
  split; [reflexivity|].
  apply (@ignored_node_is_discarded "{IGNORE ME}" "sensor" "Scenes/Attic"
           ignored_scene).
  reflexivity.
Defined.

(* ================================================================= *)
(** ** The default cascade: firmware ids first *)

Lemma node_def_rule_first (id : string) (A : Domain) :
  node_def_rule id A = true -> first_category (node_def_rule id) = Some A.
Proof.
  unfold node_def_rule. intro H. apply mem_In in H.
  destruct A; simpl in H;
    repeat (destruct H as [H|H]; [subst id; reflexivity|]);
    contradiction.
Qed.

(** C2.  In the default cascade (the pair is not ignored, the node is not
    a group and carries no sensor marker), a node whose firmware
    node-definition id is in the id list of category [A] and whose unit of
    measure meets the code list of a different category [B] is placed in
    the bucket of [A] by the firmware matcher, the first matcher of the
    cascade: the classification returns normally, only that matcher was
    invoked, and the bucket of [B] is as before. *)
Theorem node_def_takes_priority_over_uom :
  forall ignore_identifier sensor_identifier path node A B id u h,
    marked ignore_identifier path node = false ->
    is_group node = false ->
    marked sensor_identifier path node = false ->
    node_def_id node = Some id -> node_def_rule id A = true ->
    uom node = Some u -> uom_rule u B = true ->
    A <> B ->
    let r :=
      categorize_node ignore_identifier sensor_identifier (path, node) h in
    r = (matched NodeDef None A node h, Returned tt)
    /\ placed_in A node (isy994_nodes h) (isy994_nodes (fst r))
    /\ isy994_nodes (fst r) B = isy994_nodes h B.
Proof.
  intros ign sens path node A B id u h Hi Hg Hs Hid HA Hu HB Hne r.
  assert (E : r = (matched NodeDef None A node h, Returned tt)).
  { subst r. unfold categorize_node. unfold marked in Hi, Hs.
    rewrite Hi, Hg, Hs. unfold bind.
    rewrite check_for_node_def_spec, Hid. simpl domains_of.
    fold (first_category (node_def_rule id)).
    now rewrite (node_def_rule_first _ _ HA). }
  rewrite E. simpl. split; [reflexivity|]. split.
  - apply placed_in_append.
  - apply bucket_append_other. congruence.
Qed.

Lemma node_def_takes_priority_over_uom_witness :
  let h := mkHass no_buckets [] in
  let r :=
    categorize_node "{IGNORE ME}" "sensor"
      ("Entry", lock_reporting_light_uom) h in
  r = (matched NodeDef None lock lock_reporting_light_uom h, Returned tt)
  /\ placed_in lock lock_reporting_light_uom
       (isy994_nodes h) (isy994_nodes (fst r))
  /\ isy994_nodes (fst r) light = isy994_nodes h light.
Proof.
  apply (@node_def_takes_priority_over_uom "{IGNORE ME}" "sensor" "Entry"
           lock_reporting_light_uom lock light "DoorLock" ["51"]);
    try reflexivity.
  discriminate.
Defined.

(* ================================================================= *)
(** ** The sensor marker *)

(** C3, as stated, fails on a scene.  The group test comes before the
    sensor-marker test: a group whose name contains the marker, and that
    is not ignored, is placed in the switch bucket and in neither the
    sensor nor the binary_sensor bucket. *)
Lemma sensor_marker_on_scene_goes_to_switch :
  marked "sensor" "Scenes" sensor_scene = true
  /\ marked "{IGNORE ME}" "Scenes" sensor_scene = false
  /\ categorize_node "{IGNORE ME}" "sensor" ("Scenes", sensor_scene) fresh
     = (mkHass (bucket_append switch sensor_scene no_buckets) [],
        Returned tt)
  /\ isy994_nodes
       (fst (categorize_node "{IGNORE ME}" "sensor"
               ("Scenes", sensor_scene) fresh)) switch = [sensor_scene]
  /\ isy994_nodes
       (fst (categorize_node "{IGNORE ME}" "sensor"
               ("Scenes", sensor_scene) fresh)) sensor = []
  /\ isy994_nodes
       (fst (categorize_node "{IGNORE ME}" "sensor"
               ("Scenes", sensor_scene) fresh)) binary_sensor = [].
Proof. repeat split. Qed.

Lemma is_sensor_a_binary_sensor_verdict node h :
  exists h',
    _is_sensor_a_binary_sensor node h
    = (h', Returned (forced_binary_sensor node))
    /\ isy994_nodes h' =
       if forced_binary_sensor node
       then bucket_append binary_sensor node (isy994_nodes h)
       else isy994_nodes h.
Proof.
  unfold _is_sensor_a_binary_sensor, forced_binary_sensor, bind.
  rewrite check_for_node_def_spec.
  destruct (node_def_id node) as [id|]; simpl find;
    [destruct (node_def_rule id binary_sensor);
       [eexists; split; reflexivity|] |];
    (rewrite check_for_insteon_type_spec;
     destruct (type node) as [t|]; simpl find;
       [destruct (insteon_rule t binary_sensor);
          [eexists; split; reflexivity|] |];
     (rewrite check_for_uom_id_override by discriminate;
      destruct (uom node) as [u|] eqn:U;
        [destruct (intersects (lowered u) ["2"; "78"]);
           [eexists; split; reflexivity|] |];
      cbv iota beta;
      rewrite check_for_states_in_uom_override by discriminate;
      rewrite U;
      try destruct (set_eq (lowered u) ["on"; "off"]);
      eexists; split; reflexivity)).
Qed.

(** C3, amended.  A (path, node) pair that is not ignored, whose node is
    not a group, and whose path or name contains the sensor marker is
    placed in exactly the binary_sensor bucket when the firmware rule or
    the protocol-type rule of binary_sensor accepts it, or its unit of
    measure meets the codes 2, 78, or its state tokens are exactly on and
    off; it is placed in exactly the sensor bucket otherwise.  No other
    bucket changes and the classification returns normally. *)
Theorem sensor_marker_gives_sensor_or_binary_sensor :
  forall ignore_identifier sensor_identifier path node h,
    marked ignore_identifier path node = false ->
    is_group node = false ->
    marked sensor_identifier path node = true ->
    let r :=
      categorize_node ignore_identifier sensor_identifier (path, node) h in
    snd r = Returned tt
    /\ placed_in (if forced_binary_sensor node then binary_sensor else sensor)
         node (isy994_nodes h) (isy994_nodes (fst r)).
Proof.
  intros ign sens path node h Hi Hg Hs r. subst r.
  unfold categorize_node. unfold marked in Hi, Hs. rewrite Hi, Hg, Hs.
  unfold bind.
  destruct (is_sensor_a_binary_sensor_verdict node h) as [h' [E N]].
  rewrite E. destruct (forced_binary_sensor node); simpl.
  - split; [reflexivity|]. rewrite N. apply placed_in_append.
  - split; [reflexivity|]. rewrite N. apply placed_in_append.
Qed.

Lemma sensor_marker_gives_sensor_or_binary_sensor_witness :
  (let r :=
     categorize_node "{IGNORE ME}" "sensor" ("Basement", leak_sensor)
       fresh in
   snd r = Returned tt
   /\ placed_in binary_sensor leak_sensor
        (isy994_nodes fresh) (isy994_nodes (fst r)))
  /\ (let r :=
        categorize_node "{IGNORE ME}" "sensor"
          ("Porch", temperature_sensor) fresh in
      snd r = Returned tt
      /\ placed_in sensor temperature_sensor
           (isy994_nodes fresh) (isy994_nodes (fst r))).
Proof.
  split.
  - apply (@sensor_marker_gives_sensor_or_binary_sensor "{IGNORE ME}"
             "sensor" "Basement" leak_sensor fresh); reflexivity.
  - apply (@sensor_marker_gives_sensor_or_binary_sensor "{IGNORE ME}"
             "sensor" "Porch" temperature_sensor fresh); reflexivity.
Defined.

(* ================================================================= *)
(** ** The protocol-type matcher and its two redirections *)

Lemma fan_prefix_first (t : string) :
  startswith t "1.46." = true -> first_category (insteon_rule t) = Some fan.
Proof.
  intro H. apply startswith_app in H. destruct H as [r ->]. reflexivity.
Qed.

Lemma climate_prefix_first (t : string) :
  startswith t "5." = true ->
  first_category (insteon_rule t) = Some climate.
Proof.
  intro H. apply startswith_app in H. destruct H as [r ->]. reflexivity.
Qed.

Lemma insteon_hit_redirect d node k h :
  address_suffix (nid node) = Some k ->
  insteon_hit d node h
  = (mkHass (bucket_append (redirect d k) node (isy994_nodes h)) (calls h),
     Returned true).
Proof.
  intro H. unfold insteon_hit, bind.
  destruct d; simpl; try reflexivity; now rewrite int_of_last_suffix, H.
Qed.

(** C5.  Let the node have a protocol type.  If the type starts with the
    fan prefix "1.46." and the address ends with the numeral 1, the
    protocol-type matcher, testing all categories or fan alone, returns
    [True] and the light bucket is its previous content followed by the
    node, every other bucket, fan included, being left as it was.  If the
    type starts with the climate prefix "5." and the address ends with the
    numeral 2 or 3, the matcher, testing all categories or climate alone,
    returns [True] and the binary_sensor bucket is its previous content
    followed by the node, every other bucket, climate included, being
    left as it was. *)
Theorem insteon_type_redirections :
  forall node t single_domain h,
    type node = Some t ->
    let r := _check_for_insteon_type node single_domain h in
    (startswith t "1.46." = true ->
     address_suffix (nid node) = Some 1%Z ->
     single_domain = None \/ single_domain = Some fan ->
     snd r = Returned true
     /\ placed_in light node (isy994_nodes h) (isy994_nodes (fst r))
     /\ isy994_nodes (fst r) light = isy994_nodes h light ++ [node]
     /\ isy994_nodes (fst r) fan = isy994_nodes h fan
     /\ calls (fst r) = calls h ++ [(InsteonType, single_domain)])
    /\ (startswith t "5." = true ->
        address_suffix (nid node) = Some 2%Z
        \/ address_suffix (nid node) = Some 3%Z ->
        single_domain = None \/ single_domain = Some climate ->
        snd r = Returned true
        /\ placed_in binary_sensor node
             (isy994_nodes h) (isy994_nodes (fst r))
        /\ isy994_nodes (fst r) binary_sensor
           = isy994_nodes h binary_sensor ++ [node]
        /\ isy994_nodes (fst r) climate = isy994_nodes h climate
        /\ calls (fst r) = calls h ++ [(InsteonType, single_domain)]).
Proof.
  intros node t sd h Ht r. subst r. split.
  - intros Hp Hk Hsd. rewrite check_for_insteon_type_spec, Ht.
    assert (F : find (insteon_rule t) (domains_of sd) = Some fan).
    { destruct Hsd as [-> | ->].
      - now apply fan_prefix_first.
      - unfold insteon_rule.
        cbn [domains_of find NODE_FILTERS Filter.insteon_type existsb].
        now rewrite Hp. }
    rewrite F, (insteon_hit_redirect _ _ _ Hk).
    cbn [fst snd isy994_nodes calls redirect Z.eqb Pos.eqb].
    pose proof (placed_in_append light node (isy994_nodes h)) as P.
    split; [reflexivity|]. split; [exact P|].
    split; [exact (proj1 P)|].
    split; [apply (proj2 P); discriminate | reflexivity].
  - intros Hp Hk Hsd. rewrite check_for_insteon_type_spec, Ht.
    assert (F : find (insteon_rule t) (domains_of sd) = Some climate).
    { destruct Hsd as [-> | ->].
      - now apply climate_prefix_first.
      - unfold insteon_rule.
        cbn [domains_of find NODE_FILTERS Filter.insteon_type existsb].
        now rewrite Hp. }
    rewrite F.
    pose proof (placed_in_append binary_sensor node (isy994_nodes h)) as P.
    destruct Hk as [Hk|Hk];
      rewrite (insteon_hit_redirect _ _ _ Hk);
      cbn [fst snd isy994_nodes calls redirect Z.eqb Pos.eqb orb];
      (split; [reflexivity|]; split; [exact P|];
       split; [exact (proj1 P)|];
       split; [apply (proj2 P); discriminate | reflexivity]).
Qed.

Lemma insteon_type_redirections_witness :
  (let r := _check_for_insteon_type fanlinc_light None fresh in
   snd r = Returned true
   /\ placed_in light fanlinc_light
        (isy994_nodes fresh) (isy994_nodes (fst r))
   /\ isy994_nodes (fst r) light
      = isy994_nodes fresh light ++ [fanlinc_light]
   /\ isy994_nodes (fst r) fan = isy994_nodes fresh fan
   /\ calls (fst r) = calls fresh ++ [(InsteonType, None)])
  /\ (let r := _check_for_insteon_type thermostat_heat None fresh in
      snd r = Returned true
      /\ placed_in binary_sensor thermostat_heat
           (isy994_nodes fresh) (isy994_nodes (fst r))
      /\ isy994_nodes (fst r) binary_sensor
         = isy994_nodes fresh binary_sensor ++ [thermostat_heat]
      /\ isy994_nodes (fst r) climate = isy994_nodes fresh climate
      /\ calls (fst r) = calls fresh ++ [(InsteonType, None)]).
Proof.
  split.
  - apply (proj1 (@insteon_type_redirections fanlinc_light "1.46.65.0"
                    None fresh eq_refl)).
    + reflexivity.
    + reflexivity.
    + now left.
  - apply (proj2 (@insteon_type_redirections thermostat_heat "5.11.13.0"
                    None fresh eq_refl)).
    + reflexivity.
    + now right.
    + now left.
Defined.

(** A pass over several nodes: each lands in the bucket its first
    matching rule names. *)
Example categorize_nodes_example :
  let h :=
    fst (_categorize_nodes
           [("Bedroom", fanlinc_light); ("Hall", thermostat_heat);
            ("Kitchen", uom_2_node); ("Basement", leak_sensor);
            ("Scenes", sensor_scene); ("Entry", lock_reporting_light_uom);
            ("Scenes/Attic", ignored_scene)]
           "{IGNORE ME}" "sensor" fresh) in
  map (isy994_nodes h) SUPPORTED_DOMAINS
  = [[thermostat_heat; leak_sensor]; []; [lock_reporting_light_uom]; [];
     []; [fanlinc_light]; [uom_2_node; sensor_scene]; []].
Proof. reflexivity. Qed.

(* ================================================================= *)
(** ** Exceptions of the node classifier *)

(** The classifier returns normally whenever the address ends with a
    decimal digit. *)
Lemma categorize_node_returns_on_numeral_suffix
    ignore_identifier sensor_identifier path node h :
  address_suffix (nid node) <> None ->
  snd (categorize_node ignore_identifier sensor_identifier (path, node) h)
  = Returned tt.
Proof.
  intro Hk. destruct (address_suffix (nid node)) as [k|] eqn:K;
    [clear Hk | congruence].
  unfold categorize_node.
  destruct (str_in ignore_identifier path
            || str_in ignore_identifier (name node)); [reflexivity|].
  destruct (is_group node); [reflexivity|].
  destruct (str_in sensor_identifier path
            || str_in sensor_identifier (name node)).
  - unfold bind.
    destruct (is_sensor_a_binary_sensor_verdict node h) as [h' [E _]].
    rewrite E. now destruct (forced_binary_sensor node).
  - unfold bind. rewrite check_for_node_def_spec.
    destruct (node_def_id node) as [id|];
      [destruct (find _ _); [reflexivity|] |];
      (rewrite check_for_insteon_type_spec;
       destruct (type node) as [t|];
         [destruct (find _ _);
            [now rewrite (insteon_hit_redirect _ _ _ K)|] |];
       (rewrite check_for_zwave_cat_spec;
        destruct (devtype_cat node) as [c|];
          [destruct (find _ _); [reflexivity|] |];
        (rewrite check_for_uom_id_all;
         destruct (uom node) as [u|] eqn:U;
           [destruct (find _ _); [reflexivity|] |];
         cbv iota beta;
         rewrite check_for_states_in_uom_all; rewrite U;
         try destruct (find _ _); reflexivity))).
Qed.

(** C8 fails on the code.  A thermostat sub-node whose address ends with
    a hexadecimal letter reaches the address-suffix test of the
    protocol-type matcher, where [int] raises [ValueError]: the exception
    leaves the classifier, the node is put in no bucket, and the node
    listed after it is never classified. *)
Theorem letter_subnode_raises_value_error :
  _check_for_insteon_type thermostat_subnode_a None fresh
  = (unmatched InsteonType None fresh, Raised ValueError)
  /\ _categorize_nodes
       [("Hall", thermostat_subnode_a); ("Porch", relay_switch)]
       "{IGNORE ME}" "sensor" fresh
     = (mkHass no_buckets [(NodeDef, None); (InsteonType, None)],
        Raised ValueError).
Proof. split; reflexivity. Qed.

(* ================================================================= *)
(** ** Testing all categories: the order of the probes *)

(** [first_category] is the first category of the fixed order that
    passes the test: it passes, and every category listed before it
    fails. *)
Lemma first_category_is_first (test : Domain -> bool) (d : Domain) :
  first_category test = Some d <->
  exists before after,
    SUPPORTED_DOMAINS = before ++ d :: after
    /\ test d = true
    /\ forall d', In d' before -> test d' = false.
Proof.
  unfold first_category. generalize SUPPORTED_DOMAINS as l.
  induction l as [|x l IH]; simpl.
  - split; [discriminate|]. intros [[|? ?] [? [E _]]]; discriminate.
  - destruct (test x) eqn:T.
    + split.
      * intro E. injection E as <-. exists [], l. now repeat split.
      * intros [[|y before] [after [E [Td Hb]]]].
        -- simpl in E. congruence.
        -- injection E as <- _. rewrite (Hb x) in T; [discriminate|].
           now left.
    + rewrite IH. split.
      * intros [before [after [E [Td Hb]]]].
        exists (x :: before), after. rewrite E. repeat split; trivial.
        intros d' [<-|I]; [assumption | now apply Hb].
      * intros [[|y before] [after [E [Td Hb]]]].
        -- simpl in E. injection E as <- _. congruence.
        -- injection E as <- E. exists before, after.
           repeat split; trivial. intros d' I. apply Hb. now right.
Qed.






(* ================================================================= *)
(** ** The program classifier *)

Section ProgramFacts.
Context {F : Type} {T : Programs.Tree F}.

Lemma categorize_program_child_not_folder domain (folder : F) dt nm id h :
  String.eqb dt "folder" = false ->
  categorize_program_child domain folder (dt, nm, id) h = (h, Returned tt).
Proof.
  intro E. unfold categorize_program_child, KEY_FOLDER. now rewrite E.
Qed.

Lemma categorize_program_child_folder domain (folder : F) dt nm id ef h :
  String.eqb dt "folder" = true ->
  Programs.getitem folder id = Some ef ->
  categorize_program_child domain folder (dt, nm, id) h =
  if malformed domain ef then
    (Programs.mkHass (Programs.isy994_programs h)
       (Programs.log h ++ [warning_program_not_loaded (Programs.name ef)]),
     Returned tt)
  else
    match program_entity domain ef with
    | [entity] =>
        (Programs.mkHass
           (bucket_append domain entity (Programs.isy994_programs h))
           (Programs.log h),
         Returned tt)
    | _ => (h, Raised KeyError)
    end.
Proof.
  intros E G.
  unfold categorize_program_child, KEY_FOLDER, program_entity.
  rewrite E, G.
  unfold malformed, is_program, load_handles, assert_program, try_except,
    bind, or_raise, KEY_STATUS, KEY_ACTIONS. simpl.
  destruct (Programs.getitem ef "status") as [status|]; [|reflexivity].
  simpl. destruct (Programs.dtype status) as [k|]; [|reflexivity].
  simpl. destruct (String.eqb k "program"); [|reflexivity].
  simpl. destruct (domain_eqb domain binary_sensor); [reflexivity|].
  simpl. destruct (Programs.getitem ef "actions") as [actions|];
    [|reflexivity].
  simpl. destruct (Programs.dtype actions) as [k'|]; [|reflexivity].
  simpl. destruct (String.eqb k' "program"); reflexivity.
Qed.

Lemma program_entity_well_formed domain (ef : F) :
  malformed domain ef = false ->
  exists status,
    Programs.getitem ef "status" = Some status
    /\ program_entity domain ef =
       [(Programs.name ef, status,
         if domain_eqb domain binary_sensor then None
         else Programs.getitem ef "actions")].
Proof.
  intro M. unfold program_entity. rewrite M.
  unfold malformed, is_program in M.
  destruct (Programs.getitem ef "status") as [status|]; [|discriminate].
  now exists status.
Qed.

Lemma program_entity_malformed domain (ef : F) :
  malformed domain ef = true -> program_entity domain ef = [].
Proof. intro M. unfold program_entity. now rewrite M. Qed.

(** The loop over any list of children of [folder]. *)
Lemma categorize_program_children domain (folder : F) children :
  children_resolve folder children ->
  forall h,
    let r := for_each children (categorize_program_child domain folder) h in
    snd r = Returned tt
    /\ Programs.isy994_programs (fst r) domain
       = Programs.isy994_programs h domain
         ++ expected_entities domain (resolved folder children)
    /\ (forall d', d' <> domain ->
          Programs.isy994_programs (fst r) d'
          = Programs.isy994_programs h d')
    /\ Programs.log (fst r)
       = Programs.log h
         ++ expected_warnings domain (resolved folder children).
Proof.
  induction children as [|[[dt nm] id] cs IH]; intros R h.
  - simpl. rewrite !app_nil_r. now repeat split.
  - assert (Rcs : children_resolve folder cs).
    { intros c I. apply R. now right. }
    specialize (IH Rcs).
    cbn [for_each]. unfold bind.
    unfold resolved. cbn [flat_map fst snd]. fold (resolved folder cs).
    destruct (String.eqb dt "folder") eqn:E.
    + destruct (Programs.getitem folder id) as [ef|] eqn:G.
      2:{ exfalso. apply (R (dt, nm, id)); [now left | | exact G].
          now apply String.eqb_eq. }
      rewrite (@categorize_program_child_folder domain folder dt nm id ef h E G).
      unfold expected_entities, expected_warnings.
      cbn [app flat_map filter].
      destruct (malformed domain ef) eqn:M.
      * rewrite (program_entity_malformed _ _ M).
        specialize (IH (Programs.mkHass (Programs.isy994_programs h)
          (Programs.log h
             ++ [warning_program_not_loaded (Programs.name ef)]))).
        destruct IH as [I1 [I2 [I3 I4]]]. simpl in *.
        repeat split; trivial.
        rewrite I4, <- app_assoc. reflexivity.
      * destruct (program_entity_well_formed _ _ M) as [status [_ PE]].
        rewrite PE.
        match goal with
        | |- context [bucket_append domain ?e _] => set (entity := e)
        end.
        specialize (IH (Programs.mkHass
          (bucket_append domain entity (Programs.isy994_programs h))
          (Programs.log h))).
        destruct IH as [I1 [I2 [I3 I4]]]. simpl in *.
        repeat split; trivial.
        -- eapply eq_trans; [exact I2|].
           rewrite bucket_append_same, <- app_assoc. reflexivity.
        -- intros d' N. eapply eq_trans; [exact (I3 d' N)|].
           now apply bucket_append_other.
    + rewrite (@categorize_program_child_not_folder domain folder dt nm id h E).
      simpl app. apply IH.
Qed.

Lemma in_expected_warnings domain (folders : list F) (ef : F) :
  In ef folders -> malformed domain ef = true ->
  In (warning_program_not_loaded (Programs.name ef))
     (expected_warnings domain folders).
Proof.
  intros I M. unfold expected_warnings.
  apply in_map with (f := fun f => warning_program_not_loaded (Programs.name f)).
  apply filter_In. now split.
Qed.

Lemma in_expected_entities domain (folders : list F) (ef : F) :
  In ef folders -> malformed domain ef = false ->
  exists status,
    Programs.getitem ef "status" = Some status
    /\ In (Programs.name ef, status,
           if domain_eqb domain binary_sensor then None
           else Programs.getitem ef "actions")
          (expected_entities domain folders).
Proof.
  intros I M. destruct (program_entity_well_formed _ _ M) as [status [S PE]].
  exists status. split; [assumption|].
  unfold expected_entities. apply in_flat_map. exists ef.
  split; [assumption|]. rewrite PE. now left.
Qed.

Lemma binary_sensor_entities_have_no_actions (folders : list F) e :
  In e (expected_entities binary_sensor folders) -> snd e = None.
Proof.
  unfold expected_entities. rewrite in_flat_map. intros [ef [_ I]].
  unfold program_entity in I.
  destruct (malformed binary_sensor ef); [contradiction|].
  destruct (Programs.getitem ef "status"); [|contradiction].
  destruct I as [<-|[]]. reflexivity.
Qed.

(** The category folder is the one at "My Programs" / "HA.<category>";
    a category without such a folder is passed over. *)
Lemma categorize_program_domain_found (programs root folder : F) domain h :
  Programs.getitem programs "My Programs" = Some root ->
  Programs.getitem root ("HA." ++ domain_name domain) = Some folder ->
  categorize_program_domain programs domain h
  = categorize_program_folder domain folder h.
Proof.
  intros R G.
  unfold categorize_program_domain, try_except, bind, or_raise, ret,
    KEY_MY_PROGRAMS.
  rewrite R. cbv beta iota. now rewrite G.
Qed.

Lemma categorize_program_domain_missing (programs : F) domain h :
  match Programs.getitem programs "My Programs" with
  | Some root => Programs.getitem root ("HA." ++ domain_name domain) = None
  | None => True
  end ->
  categorize_program_domain programs domain h = (h, Returned tt).
Proof.
  intro M.
  unfold categorize_program_domain, try_except, bind, or_raise, ret,
    KEY_MY_PROGRAMS.
  destruct (Programs.getitem programs "My Programs") as [root|];
    [cbv beta iota; now rewrite M | reflexivity].
Qed.

(** C7.  Let every folder-type child a category folder lists be
    fetchable.  Classifying the folder for a category returns normally;
    the category's program bucket grows by the entities of the well-formed
    child folders, in order, and no other bucket changes; the log grows
    by one warning per malformed child folder, naming it, in order.  So a
    child folder whose "status" leaf is absent or not a program, or (for
    every category but binary_sensor) whose "actions" leaf is absent or
    not a program, is warned about and yields no entity, while each
    well-formed sibling yields its entity (name, status handle, action
    handle); for binary_sensor the action handle of every entity is
    [None]. *)
Theorem malformed_program_folders_are_skipped :
  forall domain (folder : F) h,
    children_resolve folder (Programs.children folder) ->
    let r := categorize_program_folder domain folder h in
    snd r = Returned tt
    /\ Programs.isy994_programs (fst r) domain
       = Programs.isy994_programs h domain
         ++ expected_entities domain (entity_folders folder)
    /\ (forall d', d' <> domain ->
          Programs.isy994_programs (fst r) d'
          = Programs.isy994_programs h d')
    /\ Programs.log (fst r)
       = Programs.log h
         ++ expected_warnings domain (entity_folders folder)
    /\ (forall ef,
          In ef (entity_folders folder) -> malformed domain ef = true ->
          In (warning_program_not_loaded (Programs.name ef))
             (Programs.log (fst r))
          /\ program_entity domain ef = [])
    /\ (forall ef,
          In ef (entity_folders folder) -> malformed domain ef = false ->
          exists status,
            Programs.getitem ef "status" = Some status
            /\ In (Programs.name ef, status,
                   if domain_eqb domain binary_sensor then None
                   else Programs.getitem ef "actions")
                  (Programs.isy994_programs (fst r) domain))
    /\ (domain = binary_sensor ->
        forall e,
          In e (expected_entities domain (entity_folders folder)) ->
          snd e = None).
Proof.
  intros domain folder h R r.
  destruct (categorize_program_children domain R h) as [I1 [I2 [I3 I4]]].
  fold (categorize_program_folder domain folder) in I1, I2, I3, I4.
  fold r in I1, I2, I3, I4. fold (entity_folders folder) in I2, I4.
  repeat split; trivial.
  - rewrite I4. apply in_or_app. right. now apply in_expected_warnings.
  - now apply program_entity_malformed.
  - intros ef I M.
    destruct (in_expected_entities domain _ _ I M) as [status [S J]].
    exists status. split; [assumption|].
    rewrite I2. apply in_or_app. now right.
  - intros -> e. apply binary_sensor_entities_have_no_actions.
Qed.

End ProgramFacts.

Lemma malformed_program_folders_are_skipped_witness :
  let r :=
    categorize_program_folder lock ha_lock (Programs.mkHass no_buckets [])
  in
  children_resolve ha_lock (Programs.children ha_lock)
  /\ malformed lock side_gate = true
  /\ snd r = Returned tt
  /\ Programs.log (fst r) = [warning_program_not_loaded "Side gate"]
  /\ Programs.isy994_programs (fst r) lock
     = [("Front door", PNode "program" "status" "0013" [],
         Some (PNode "program" "actions" "0014" []));
        ("Garage", PNode "program" "status" "0018" [],
         Some (PNode "program" "actions" "0019" []))].
Proof.
  intro r.
  assert (R : children_resolve ha_lock (Programs.children ha_lock)).
  { intros child I. simpl in I.
    destruct I as [<-|[<-|[<-|[<-|[]]]]]; intros _; discriminate. }
  destruct (@malformed_program_folders_are_skipped ProgramNode _ lock
              ha_lock (Programs.mkHass no_buckets []) R)
    as [I1 [I2 [_ [I4 _]]]].
  split; [exact R|]. split; [reflexivity|]. split; [exact I1|].
  split; [exact I4 | exact I2].
Defined.

(** The whole program pass on a directory that has the lock folder
    only. *)
Example categorize_programs_example :
  _categorize_programs program_directory (Programs.mkHass no_buckets [])
  = (Programs.mkHass
       (bucket_append lock
          ("Garage", PNode "program" "status" "0018" [],
           Some (PNode "program" "actions" "0019" []))
          (bucket_append lock
             ("Front door", PNode "program" "status" "0013" [],
              Some (PNode "program" "actions" "0014" []))
             no_buckets))
       [warning_program_not_loaded "Side gate"],
     Returned tt).
Proof. reflexivity. Qed.

(* ================================================================= *)
(** ** The variable classifier *)

Section VariableFacts.
Context {V H : Type} {D : Variables.Dir V H}.

(** A descriptor whose id is not among the children of its type never
    reaches the [vname is None] test: unpacking the [None] that [next]
    returns raises [TypeError], with the store untouched. *)
Lemma unresolved_variable_raises (variables typed : V) domain isy_var
    (h : Variables.Hass H) :
  Variables.by_type variables (CONF_TYPE isy_var) = Some typed ->
  (forall var, In var (Variables.children typed) ->
               snd var <> CONF_ID isy_var) ->
  categorize_variable variables domain isy_var h = (h, Raised TypeError).
Proof.
  intros T U. unfold categorize_variable, bind, or_raise. rewrite T. simpl.
  destruct (find _ _) as [var|] eqn:Fd; [|reflexivity].
  apply find_some in Fd. destruct Fd as [I E].
  apply Z.eqb_eq in E. now apply U in I.
Qed.

(** The exception ends the loop: the descriptors after the unresolved
    one are not processed. *)
Lemma unresolved_variable_ends_the_pass (variables typed : V) domain
    isy_var rest (h : Variables.Hass H) :
  Variables.by_type variables (CONF_TYPE isy_var) = Some typed ->
  (forall var, In var (Variables.children typed) ->
               snd var <> CONF_ID isy_var) ->
  _categorize_variables variables (Some (isy_var :: rest)) domain h
  = (h, Raised TypeError).
Proof.
  intros T U. simpl. unfold bind.
  now rewrite (@unresolved_variable_raises variables typed domain isy_var h T U).
Qed.

End VariableFacts.

(** C6 fails on the code.  With a controller that has variable 1.3 only,
    a configuration declaring variable 1.7 before variable 1.3 makes the
    classifier raise [TypeError] at the first descriptor: nothing is
    logged and the second descriptor gets no entity, although classified
    alone it is bound to its name and value.  The branch that logs the
    error and continues is reached only by a child whose name is
    [None]. *)
Theorem unresolved_variable_aborts_classification :
  _categorize_variables controller_variables
    (Some [undeclared_var; outside_temperature_var]) sensor no_variables
  = (no_variables, Raised TypeError)
  /\ _categorize_variables controller_variables
       (Some [outside_temperature_var]) sensor no_variables
     = (Variables.mkHass
          (bucket_append sensor
             (outside_temperature_var, "Outside temperature", 17%Z)
             no_buckets)
          [],
        Returned tt).
Proof. split; reflexivity. Qed.

(* ================================================================= *)
(** ** The weather classifier *)

Section WeatherFacts.
Context {A : Type}.

Lemma weather_nodes_entries (climate : Climate A) attrs
    (weather : list (WeatherNode.t A)) :
  (forall attr, In attr (dir climate) -> getattr climate attr <> None) ->
  (forall attr, In attr attrs -> In attr (dir climate)) ->
  exists nodes,
    weather_nodes climate (dir climate) attrs weather
    = (weather, Returned nodes)
    /\ Forall2 (weather_entry climate)
         (filter (fun attr => mem (units_of attr) (dir climate)) attrs)
         nodes.
Proof.
  intros R. induction attrs as [|attr rest IH]; intro Sub.
  - exists []. split; [reflexivity | constructor].
  - destruct IH as [nodes [E Fa]]; [intros a I; apply Sub; now right|].
    cbn [weather_nodes filter].
    destruct (mem (units_of attr) (dir climate)) eqn:M.
    + destruct (getattr climate attr) as [value|] eqn:Gv.
      2:{ exfalso. refine (R attr _ Gv). apply Sub. now left. }
      destruct (getattr climate (units_of attr)) as [unit|] eqn:Gu.
      2:{ exfalso. refine (R (units_of attr) _ Gu). now apply mem_In. }
      exists (WeatherNode.mk value (replace_underscores attr) unit :: nodes).
      split.
      * unfold bind, or_raise, ret. simpl. now rewrite E.
      * constructor; [|assumption]. now repeat split.
    + exists nodes. now split.
Qed.

(** C9.  For a weather object whose [dir] lists each attribute once and
    whose listed attributes can all be read, the weather classifier
    returns normally and extends the weather list by exactly one entry
    per attribute X that has a sibling X_units, in the order of [dir]
    (the entries correspond one to one to those attributes, each holding
    the value of X, the name of X with spaces for underscores and the
    value of X_units), and by nothing for an attribute without such a
    sibling.  In particular an object exposing humidity, temperature and
    temperature_units yields the single entry of temperature. *)
Theorem weather_entries_are_the_paired_attributes :
  (forall (climate : Climate A) weather,
     climate_ok climate ->
     exists nodes,
       _categorize_weather climate weather
       = (weather ++ nodes, Returned tt)
       /\ Forall2 (weather_entry climate) (paired_attrs climate) nodes
       /\ List.length nodes = List.length (paired_attrs climate)
       /\ NoDup (paired_attrs climate)
       /\ (forall attr,
             In attr (paired_attrs climate) <->
             In attr (dir climate) /\ In (units_of attr) (dir climate)))
  /\ (forall (humidity temperature units : A) weather,
        _categorize_weather
          (object_of [("humidity", humidity); ("temperature", temperature);
                      ("temperature_units", units)])
          weather
        = (weather ++ [WeatherNode.mk temperature "temperature" units],
           Returned tt)).
Proof.
  split; [|reflexivity].
  intros climate weather [N R].
  destruct (@weather_nodes_entries climate (dir climate) weather R)
    as [nodes [E Fa]]; [trivial|].
  exists nodes. unfold _categorize_weather, bind. rewrite E.
  split; [reflexivity|]. split; [exact Fa|].
  split; [symmetry; exact (Forall2_length Fa)|].
  split; [now apply NoDup_filter|].
  intro attr. unfold paired_attrs. rewrite filter_In, mem_In. reflexivity.
Qed.

End WeatherFacts.

Lemma weather_entries_are_the_paired_attributes_witness :
  climate_ok station
  /\ paired_attrs station = ["temperature"]
  /\ exists nodes,
       _categorize_weather station []
       = ([] ++ nodes, Returned tt)
       /\ Forall2 (weather_entry station) ["temperature"] nodes
       /\ List.length nodes = 1.
Proof.
  assert (K : climate_ok station).
  { split.
    - repeat constructor; simpl; intuition discriminate.
    - intros attr I. simpl in I.
      destruct I as [<-|[<-|[<-|[]]]]; discriminate. }
  split; [exact K|]. split; [reflexivity|].
  destruct (proj1 (@weather_entries_are_the_paired_attributes string)
              station [] K) as [nodes [E [Fa [L _]]]].
  exists nodes. split; [exact E|]. split; [exact Fa | exact L].
Defined.

(* ================================================================= *)
(** ** The node classifier as a function of the node *)

Lemma check_for_node_def_decides node :
  decides node (_check_for_node_def node None) (Returned (by_node_def node)).
Proof.
  intro h. rewrite check_for_node_def_spec. unfold by_node_def.
  destruct (node_def_id node) as [id|]; [|now split].
  simpl domains_of. fold (first_category (node_def_rule id)).
  destruct (first_category _); now split.
Qed.

Lemma check_for_zwave_cat_decides node :
  decides node (_check_for_zwave_cat node None)
    (Returned (by_zwave_cat node)).
Proof.
  intro h. rewrite check_for_zwave_cat_spec. unfold by_zwave_cat.
  destruct (devtype_cat node) as [t|]; [|now split].
  simpl domains_of. fold (first_category (zwave_rule t)).
  destruct (first_category _); now split.
Qed.

Lemma check_for_uom_id_decides node :
  decides node (_check_for_uom_id node None None) (Returned (by_uom node)).
Proof.
  intro h. rewrite check_for_uom_id_all. unfold by_uom.
  destruct (uom node) as [u|]; [|now split].
  simpl domains_of. fold (first_category (uom_rule u)).
  destruct (first_category _); now split.
Qed.

Lemma check_for_states_in_uom_decides node :
  decides node (_check_for_states_in_uom node None None)
    (Returned (by_states node)).
Proof.
  intro h. rewrite check_for_states_in_uom_all. unfold by_states.
  destruct (uom node) as [u|]; [|now split].
  simpl domains_of. fold (first_category (states_rule u)).
  destruct (first_category _); now split.
Qed.

Lemma check_for_insteon_type_decides node :
  decides node (_check_for_insteon_type node None) (by_insteon_type node).
Proof.
  intro h. rewrite check_for_insteon_type_spec. unfold by_insteon_type.
  destruct (type node) as [t|]; [|now split].
  simpl domains_of. fold (first_category (insteon_rule t)).
  destruct (first_category (insteon_rule t)) as [d|]; [|now split].
  unfold insteon_hit, bind.
  destruct (domain_eqb d fan || domain_eqb d climate); [|now split].
  rewrite int_of_last_suffix. unfold suffix_error.
  destruct (address_suffix (nid node)); now split.
Qed.

(** A step of the cascade: the verdict of the matcher, or, when it names
    no category, the verdict of what follows. *)
Lemma cascade_lands node (m : Py Hass bool) (rest : Py Hass unit) c c' :
  decides node m c -> lands node rest c' ->
  lands node (b <- m ;; if b then ret tt else rest)
    (match c with Returned None => c' | _ => c end).
Proof.
  intros Hm Hrest h. unfold bind. specialize (Hm h).
  destruct (m h) as [h1 o1]. destruct c as [[d|]|e]; simpl in Hm;
    destruct Hm as [-> E]; simpl; try (now split).
  specialize (Hrest h1). destruct c' as [[d|]|e]; rewrite E in Hrest;
    exact Hrest.
Qed.

Lemma last_lands node (m : Py Hass bool) c :
  decides node m c -> lands node (b <- m ;; ret tt) c.
Proof.
  intros Hm h. unfold bind. specialize (Hm h).
  destruct (m h) as [h1 o1]. destruct c as [[d|]|e]; simpl in Hm;
    destruct Hm as [-> E]; simpl; now split.
Qed.

Lemma categorize_node_lands ignore_identifier sensor_identifier path node :
  lands node
    (categorize_node ignore_identifier sensor_identifier (path, node))
    (expected_category ignore_identifier sensor_identifier path node).
Proof.
  revert ignore_identifier sensor_identifier path node.
  intros ign sens path node.
  unfold expected_category, categorize_node, marked.
  destruct (str_in ign path || str_in ign (name node));
    [intro h; now split|].
  destruct (is_group node); [intro h; now split|].
  destruct (str_in sens path || str_in sens (name node)).
  - intro h. unfold bind.
    destruct (is_sensor_a_binary_sensor_verdict node h) as [h' [E N]].
    rewrite E.
    destruct (forced_binary_sensor node); simpl; rewrite N; now split.
  - pose proof
      (cascade_lands (check_for_node_def_decides node)
        (cascade_lands (check_for_insteon_type_decides node)
          (cascade_lands (check_for_zwave_cat_decides node)
            (cascade_lands (check_for_uom_id_decides node)
              (last_lands (check_for_states_in_uom_decides node))))))
      as L.
    destruct (by_node_def node), (by_insteon_type node) as [[?|]|?],
      (by_zwave_cat node), (by_uom node); exact L.
Qed.

(** The classification of one pair is a function of the markers, the path
    and the node.  For a node whose address ends with an ASCII character
    and whose unit-of-measure tokens are ASCII, and for every store: when
    [expected_category] names a bucket, the classification returns with
    that bucket being its previous content followed by the node and every
    other bucket as it was; when it names none, the classification
    returns with every bucket as it was; and when it names an exception,
    the classification raises it with every bucket as it was. *)
Theorem categorize_node_follows_expected_category :
  forall ignore_identifier sensor_identifier path node h,
    ascii_metadata node = true ->
    let r :=
      categorize_node ignore_identifier sensor_identifier (path, node) h in
    match expected_category ignore_identifier sensor_identifier path node
    with
    | Returned (Some d) =>
        snd r = Returned tt
        /\ placed_in d node (isy994_nodes h) (isy994_nodes (fst r))
    | Returned None =>
        snd r = Returned tt
        /\ dropped (isy994_nodes h) (isy994_nodes (fst r))
    | Raised e =>
        snd r = Raised e
        /\ dropped (isy994_nodes h) (isy994_nodes (fst r))
    end.
Proof.
  intros ign sens path node h _ r. subst r.
  pose proof (categorize_node_lands ign sens path node h) as L.
  destruct (expected_category ign sens path node) as [[d|]|e];
    destruct L as [O B]; (split; [exact O|]); rewrite B.
  - apply placed_in_append.
  - intro d. reflexivity.
  - intro d. reflexivity.
Qed.

Lemma categorize_node_follows_expected_category_witness :
  ascii_metadata fanlinc_light = true
  /\ expected_category "{IGNORE ME}" "sensor" "Bedroom" fanlinc_light
     = Returned (Some light)
  /\ (let r :=
        categorize_node "{IGNORE ME}" "sensor" ("Bedroom", fanlinc_light)
          fresh in
      snd r = Returned tt
      /\ placed_in light fanlinc_light
           (isy994_nodes fresh) (isy994_nodes (fst r))).
Proof.
  split; [reflexivity|]. split; [reflexivity|].
  exact (@categorize_node_follows_expected_category "{IGNORE ME}" "sensor"
           "Bedroom" fanlinc_light fresh eq_refl).
Defined.

Lemma last_char_of_nonempty (s : string) (c : ascii) :
  exists x, last_char (String c s) = Some x.
Proof.
  revert c. induction s as [|c' s IH]; intro c; [now exists c|].
  destruct (IH c') as [x E]. exists x.
  change (last_char (String c (String c' s)))
    with (last_char (String c' s)). exact E.
Qed.

Lemma first_category_accepts (test : Domain -> bool) (d : Domain) :
  first_category test = Some d -> test d = true.
Proof. intro E. now apply find_some in E. Qed.

Lemma insteon_first_is_fan (t : string) :
  first_category (insteon_rule t) = Some fan <->
  startswith t "1.46." = true.
Proof.
  split; [|apply fan_prefix_first].
  intro E. apply first_category_accepts in E. unfold insteon_rule in E.
  cbn [NODE_FILTERS Filter.insteon_type existsb] in E.
  now rewrite orb_false_r in E.
Qed.

Lemma insteon_first_is_climate (t : string) :
  first_category (insteon_rule t) = Some climate <->
  startswith t "5." = true.
Proof.
  split; [|apply climate_prefix_first].
  intro E. apply first_category_accepts in E. unfold insteon_rule in E.
  cbn [NODE_FILTERS Filter.insteon_type existsb] in E.
  now rewrite orb_false_r in E.
Qed.

Lemma by_insteon_type_raises node e :
  by_insteon_type node = Raised e <->
  exists t,
    type node = Some t
    /\ (startswith t "1.46." = true \/ startswith t "5." = true)
    /\ address_suffix (nid node) = None
    /\ e = suffix_error (nid node).
Proof.
  unfold by_insteon_type. split.
  - destruct (type node) as [t|]; [|discriminate].
    destruct (first_category (insteon_rule t)) as [d|] eqn:F;
      [|discriminate].
    destruct (address_suffix (nid node)) as [k|] eqn:K.
    + destruct (domain_eqb d fan || domain_eqb d climate); discriminate.
    + destruct d; simpl; try discriminate; intro E; injection E as <-;
        exists t; (split; [reflexivity|]); (split; [|now split]).
      * left. now apply insteon_first_is_fan.
      * right. now apply insteon_first_is_climate.
  - intros [t [-> [P [K ->]]]].
    destruct P as [P|P];
      [apply insteon_first_is_fan in P | apply insteon_first_is_climate in P];
      rewrite P; simpl; now rewrite K.
Qed.

(** For a node whose address is empty or ends with an ASCII character,
    the classification of a pair raises exactly when the pair reaches the
    default cascade (not ignored, not a group, no sensor marker), no
    category lists the firmware id of the node, its protocol type starts
    with the fan prefix "1.46." or the climate prefix "5.", and its
    address does not end with a decimal digit; the exception is
    [IndexError] for an empty address and [ValueError] otherwise. *)
Theorem categorize_node_raises_iff :
  forall ignore_identifier sensor_identifier path node h e,
    ascii_address (nid node) = true ->
    snd (categorize_node ignore_identifier sensor_identifier (path, node) h)
    = Raised e
    <->
    (marked ignore_identifier path node = false
     /\ is_group node = false
     /\ marked sensor_identifier path node = false
     /\ by_node_def node = None
     /\ (exists t,
           type node = Some t
           /\ (startswith t "1.46." = true \/ startswith t "5." = true))
     /\ address_suffix (nid node) = None
     /\ e = (if String.eqb (nid node) "" then IndexError else ValueError)).
Proof.
  intros ign sens path node h e _.
  assert (S : suffix_error (nid node)
              = if String.eqb (nid node) "" then IndexError else ValueError).
  { unfold suffix_error. destruct (nid node) as [|c s]; [reflexivity|].
    destruct (last_char_of_nonempty s c) as [x ->]. reflexivity. }
  pose proof (categorize_node_lands ign sens path node h)
    as L.
  assert (X : snd (categorize_node ign sens (path, node) h) = Raised e
              <-> expected_category ign sens path node = Raised e).
  { destruct (expected_category ign sens path node) as [[d|]|e'];
      destruct L as [-> _]; split; congruence. }
  rewrite X. clear X L. unfold expected_category.
  destruct (marked ign path node);
    [split; [discriminate | intros [? _]; discriminate]|].
  destruct (is_group node);
    [split; [discriminate | intros [_ [? _]]; discriminate]|].
  destruct (marked sens path node);
    [split; [discriminate | intros [_ [_ [? _]]]; discriminate]|].
  destruct (by_node_def node) as [d|];
    [split; [discriminate | intros [_ [_ [_ [? _]]]]; discriminate]|].
  rewrite <- S. split.
  - intro E.
    assert (B : by_insteon_type node = Raised e).
    { destruct (by_insteon_type node) as [[d|]|e']; try discriminate;
        [|congruence].
      destruct (by_zwave_cat node); [discriminate|].
      destruct (by_uom node); discriminate. }
    apply by_insteon_type_raises in B. destruct B as [t [T [P [K ->]]]].
    repeat split; trivial. now exists t.
  - intros [_ [_ [_ [_ [[t [T P]] [K ->]]]]]].
    assert (B : by_insteon_type node = Raised (suffix_error (nid node))).
    { apply by_insteon_type_raises. exists t. now repeat split. }
    now rewrite B.
Qed.

Lemma categorize_node_raises_iff_witness :
  ascii_address (nid thermostat_subnode_a) = true
  /\ snd (categorize_node "{IGNORE ME}" "sensor"
            ("Hall", thermostat_subnode_a) fresh)
     = Raised ValueError.
Proof.
  split; [reflexivity|].
  apply (proj2 (@categorize_node_raises_iff "{IGNORE ME}" "sensor" "Hall"
                  thermostat_subnode_a fresh ValueError eq_refl)).
  repeat split. exists "5.11.13.0". split; [reflexivity | now right].
Defined.

(* ================================================================= *)
(** ** Whole passes of the node classifier *)

Lemma for_each_app {S A} (body : A -> Py S unit) (xs ys : list A) (s : S) :
  for_each (xs ++ ys) body s
  = match for_each xs body s with
    | (s', Returned _) => for_each ys body s'
    | (s', Raised e) => (s', Raised e)
    end.
Proof.
  revert s. induction xs as [|x xs IH]; intro s; simpl; [reflexivity|].
  unfold bind. destruct (body x s) as [s1 [[]|e]]; [apply IH | reflexivity].
Qed.

(** A pass over two lists in a row is the pass over the first followed,
    from the store it leaves, by the pass over the second; when the first
    raises, the second is not started. *)
Theorem categorize_nodes_app :
  forall xs ys ignore_identifier sensor_identifier h,
    _categorize_nodes (xs ++ ys) ignore_identifier sensor_identifier h
    = match _categorize_nodes xs ignore_identifier sensor_identifier h with
      | (h', Returned _) =>
          _categorize_nodes ys ignore_identifier sensor_identifier h'
      | (h', Raised e) => (h', Raised e)
      end.
Proof. intros. unfold _categorize_nodes. apply for_each_app. Qed.

Lemma total_size_append {A} (d : Domain) (x : A) (b : Buckets A) :
  total_size (bucket_append d x b) = S (total_size b).
Proof.
  unfold total_size, bucket_append.
  destruct d; simpl; rewrite List.length_app; simpl; lia.
Qed.

(** Buckets only grow, at their end, and by nodes of the list: after a
    pass, whether it returned or raised, every bucket is the bucket before
    followed by nodes taken from the list, and all buckets together hold
    at most one more entry per pair. *)
Theorem categorize_nodes_appends_only :
  forall nodes ignore_identifier sensor_identifier h,
    let after :=
      isy994_nodes
        (fst (_categorize_nodes nodes ignore_identifier sensor_identifier h))
    in
    (forall d, exists added,
        after d = isy994_nodes h d ++ added
        /\ forall node, In node added -> In node (map snd nodes))
    /\ total_size after <= total_size (isy994_nodes h) + List.length nodes.
Proof.
  intros nodes ign sens. unfold _categorize_nodes.
  induction nodes as [|[path node] rest IH]; intro h; cbv zeta.
  - split; [|simpl; lia]. intro d. exists []. now rewrite app_nil_r.
  - cbn [for_each]. unfold bind.
    pose proof (categorize_node_at_most_one ign sens path node h) as One.
    unfold at_most_one in One.
    destruct (categorize_node ign sens (path, node) h) as [h1 [[]|e]];
      cbn [fst] in One; cbv beta iota.
    + specialize (IH h1). cbv zeta in IH. destruct IH as [P T].
      destruct One as [E|[d0 E]]; rewrite E in P, T.
      * split; [|simpl; lia]. intro d. destruct (P d) as [added [Pa Pi]].
        exists added. split; [assumption|]. intros n I. right. auto.
      * rewrite total_size_append in T. split; [|simpl; lia].
        intro d. destruct (P d) as [added [Pa Pi]].
        unfold bucket_append in Pa.
        destruct (domain_eqb d d0).
        -- exists (node :: added). rewrite <- app_assoc in Pa.
           split; [exact Pa|]. intros n [<-|I]; [now left | right; auto].
        -- exists added. split; [assumption|]. intros n I. right. auto.
    + cbn [fst]. destruct One as [E|[d0 E]]; rewrite E.
      * split; [|simpl; lia]. intro d. exists []. now rewrite app_nil_r.
      * rewrite total_size_append. split; [|simpl; lia].
        intro d. unfold bucket_append. destruct (domain_eqb d d0).
        -- exists [node]. split; [reflexivity|].
           intros n [<-|[]]. now left.
        -- exists []. now rewrite app_nil_r.
Qed.

(** Scenes go to the switch bucket without any matcher being consulted:
    a pass over pairs that are all groups and not ignored returns
    normally, appends the nodes to the switch bucket in the order of the
    list, leaves the other buckets alone and invokes no matcher, whatever
    names and metadata the groups have. *)
Theorem scenes_are_switches :
  forall nodes ignore_identifier sensor_identifier h,
    (forall path node, In (path, node) nodes ->
       marked ignore_identifier path node = false /\ is_group node = true) ->
    let r := _categorize_nodes nodes ignore_identifier sensor_identifier h in
    snd r = Returned tt
    /\ isy994_nodes (fst r) switch
       = isy994_nodes h switch ++ map snd nodes
    /\ (forall d, d <> switch ->
          isy994_nodes (fst r) d = isy994_nodes h d)
    /\ calls (fst r) = calls h.
Proof.
  intros nodes ign sens. unfold _categorize_nodes.
  induction nodes as [|[path node] rest IH]; intros h G; cbv zeta.
  - simpl. rewrite app_nil_r. now repeat split.
  - destruct (G path node (or_introl eq_refl)) as [Gi Gg].
    cbn [for_each]. unfold bind, categorize_node.
    unfold marked in Gi. rewrite Gi, Gg. simpl.
    specialize (IH (mkHass (bucket_append SCENE_DOMAIN node (isy994_nodes h))
                      (calls h))).
    destruct IH as [I1 [I2 [I3 I4]]];
      [intros p n I; apply G; now right|].
    simpl in *. repeat split; trivial.
    + eapply eq_trans; [exact I2|]. unfold SCENE_DOMAIN.
      rewrite bucket_append_same. now rewrite <- app_assoc.
    + intros d N. eapply eq_trans; [exact (I3 d N)|].
      now apply bucket_append_other.
Qed.

Lemma scenes_are_switches_witness :
  let r :=
    _categorize_nodes [("Scenes", sensor_scene)] "{IGNORE ME}" "sensor"
      fresh in
  snd r = Returned tt
  /\ isy994_nodes (fst r) switch
     = isy994_nodes fresh switch ++ [sensor_scene]
  /\ (forall d, d <> switch ->
        isy994_nodes (fst r) d = isy994_nodes fresh d)
  /\ calls (fst r) = calls fresh.
Proof.
  apply (@scenes_are_switches [("Scenes", sensor_scene)] "{IGNORE ME}"
           "sensor" fresh).
  intros path node [E|[]]. injection E as <- <-. now split.
Defined.

(** A node without firmware id, protocol type, secondary category and
    unit of measure that reaches the default cascade is dropped without
    an error, after the five matchers were consulted in the order
    firmware id, protocol type, secondary category, unit-of-measure code,
    state tokens. *)
Theorem bare_node_is_dropped :
  forall ignore_identifier sensor_identifier path node h,
    marked ignore_identifier path node = false ->
    is_group node = false ->
    marked sensor_identifier path node = false ->
    node_def_id node = None -> type node = None ->
    devtype_cat node = None -> uom node = None ->
    categorize_node ignore_identifier sensor_identifier (path, node) h
    = (mkHass (isy994_nodes h)
         (calls h ++ [(NodeDef, None); (InsteonType, None);
                      (ZwaveCat, None); (UomId, None);
                      (StatesInUom, None)]),
       Returned tt).
Proof.
  intros ign sens path node h Hi Hg Hs N T Z U.
  unfold categorize_node. unfold marked in Hi, Hs. rewrite Hi, Hg, Hs.
  unfold bind. rewrite check_for_node_def_spec, N.
  cbv beta iota. rewrite check_for_insteon_type_spec, T.
  cbv beta iota. rewrite check_for_zwave_cat_spec, Z.
  cbv beta iota. rewrite check_for_uom_id_all, U.
  cbv beta iota. rewrite check_for_states_in_uom_all, U.
  unfold unmatched, ret. simpl. now rewrite <- !app_assoc.
Qed.

Lemma bare_node_is_dropped_witness :
  categorize_node "{IGNORE ME}" "sensor" ("Den", bare_node) fresh
  = (mkHass (isy994_nodes fresh)
       (calls fresh ++ [(NodeDef, None); (InsteonType, None);
                        (ZwaveCat, None); (UomId, None);
                        (StatesInUom, None)]),
     Returned tt).
Proof.
  apply (@bare_node_is_dropped "{IGNORE ME}" "sensor" "Den" bare_node fresh);
    reflexivity.
Defined.

(* ================================================================= *)
(** ** Edge cases of the unit-of-measure matchers *)

(** An empty unit-of-measure list is not a missing one.  No code list
    meets it, so the code matcher returns [False] and leaves every bucket
    as it was; the state-token matcher compares it as a set with the
    state list of binary_sensor, which is empty too, and returns [True]
    with the binary_sensor bucket being its previous content followed by
    the node and every other bucket as it was.  A node that reaches the
    default cascade with an empty list and nothing else to go by is
    therefore classified without error into the binary_sensor bucket, and
    into no other. *)
Theorem empty_uom_list_is_a_binary_sensor :
  forall node h,
    uom node = Some [] ->
    (let m := _check_for_uom_id node None None h in
     snd m = Returned false
     /\ dropped (isy994_nodes h) (isy994_nodes (fst m)))
    /\ (let m := _check_for_states_in_uom node None None h in
        snd m = Returned true
        /\ placed_in binary_sensor node
             (isy994_nodes h) (isy994_nodes (fst m))
        /\ isy994_nodes (fst m) binary_sensor
           = isy994_nodes h binary_sensor ++ [node])
    /\ (forall ignore_identifier sensor_identifier path,
          marked ignore_identifier path node = false ->
          is_group node = false ->
          marked sensor_identifier path node = false ->
          node_def_id node = None -> type node = None ->
          devtype_cat node = None ->
          let r :=
            categorize_node ignore_identifier sensor_identifier
              (path, node) h in
          snd r = Returned tt
          /\ placed_in binary_sensor node
               (isy994_nodes h) (isy994_nodes (fst r))
          /\ isy994_nodes (fst r) binary_sensor
             = isy994_nodes h binary_sensor ++ [node]).
Proof.
  intros node h U.
  pose proof (placed_in_append binary_sensor node (isy994_nodes h)) as P.
  split.
  { cbv zeta. rewrite check_for_uom_id_all, U.
    split; [reflexivity | intro d; reflexivity]. }
  split.
  { cbv zeta. rewrite check_for_states_in_uom_all, U.
    split; [reflexivity|]. split; [exact P | exact (proj1 P)]. }
  intros ign sens path Hi Hg Hs N T Z r.
  pose proof (categorize_node_lands ign sens path node h)
    as L.
  unfold expected_category, by_node_def, by_insteon_type, by_zwave_cat,
    by_uom, by_states in L.
  rewrite Hi, Hg, Hs, N, T, Z, U in L. destruct L as [O B].
  subst r. split; [exact O|]. rewrite B.
  split; [exact P | exact (proj1 P)].
Qed.

Lemma empty_uom_list_is_a_binary_sensor_witness :
  uom stateless_node = Some []
  /\ (let m := _check_for_states_in_uom stateless_node None None fresh in
      snd m = Returned true
      /\ placed_in binary_sensor stateless_node
           (isy994_nodes fresh) (isy994_nodes (fst m))
      /\ isy994_nodes (fst m) binary_sensor
         = isy994_nodes fresh binary_sensor ++ [stateless_node]).
Proof.
  split; [reflexivity|].
  apply (proj1 (proj2 (@empty_uom_list_is_a_binary_sensor stateless_node
                         fresh eq_refl))).
Defined.



Lemma mem_same_set (x : string) (a b : list string) :
  same_set a b -> mem x a = mem x b.
Proof.
  intro S. apply eq_true_iff_eq. rewrite !mem_In. apply S.
Qed.

Lemma intersects_same_set (a a' b : list string) :
  same_set a a' -> intersects a b = intersects a' b.
Proof.
  intro S. apply eq_true_iff_eq. unfold intersects.
  rewrite !existsb_exists.
  split; intros [x [I M]]; exists x; (split; [now apply S | assumption]).
Qed.

Lemma subset_In (a b : list string) :
  subset a b = true <-> forall x, In x a -> In x b.
Proof.
  unfold subset. rewrite forallb_forall.
  split; intros H x I; [apply mem_In | apply mem_In]; auto.
Qed.

Lemma set_eq_same_set (a a' b : list string) :
  same_set a a' -> set_eq a b = set_eq a' b.
Proof.
  intro S. apply eq_true_iff_eq. unfold set_eq.
  rewrite !andb_true_iff, !subset_In.
  split; intros [H1 H2]; split; intros x I.
  - apply H1. now apply S.
  - apply S. now apply H2.
  - apply H1. now apply S.
  - apply S. now apply H2.
Qed.

Lemma find_ext {A} (f g : A -> bool) (l : list A) :
  (forall x, f x = g x) -> find f l = find g l.
Proof.
  intro E. induction l as [|x l IH]; simpl; [reflexivity|].
  rewrite E. now rewrite IH.
Qed.

(** The unit-of-measure matchers read the node's tokens as a set of
    lower-case strings: two nodes whose token lists, lower-cased, have the
    same elements (in any order, with any repetition, in any case) get
    the same verdict from the code matcher and from the state-token
    matcher, each node going to the bucket of that verdict. *)
Theorem uom_matchers_read_lowercase_sets :
  forall node node' u u' h,
    uom node = Some u -> uom node' = Some u' ->
    same_set (lowered u) (lowered u') ->
    (exists verdict,
       _check_for_uom_id node None None h
       = match verdict with
         | Some d => (matched UomId None d node h, Returned true)
         | None => (unmatched UomId None h, Returned false)
         end
       /\ _check_for_uom_id node' None None h
          = match verdict with
            | Some d => (matched UomId None d node' h, Returned true)
            | None => (unmatched UomId None h, Returned false)
            end)
    /\ (exists verdict,
          _check_for_states_in_uom node None None h
          = match verdict with
            | Some d => (matched StatesInUom None d node h, Returned true)
            | None => (unmatched StatesInUom None h, Returned false)
            end
          /\ _check_for_states_in_uom node' None None h
             = match verdict with
               | Some d =>
                   (matched StatesInUom None d node' h, Returned true)
               | None => (unmatched StatesInUom None h, Returned false)
               end).
Proof.
  intros node node' u u' h U U' S. split.
  - exists (find (uom_rule u) SUPPORTED_DOMAINS).
    rewrite !check_for_uom_id_all, U, U'. simpl domains_of.
    split; [reflexivity|].
    rewrite (find_ext (uom_rule u') (uom_rule u)); [reflexivity|].
    intro d. unfold uom_rule. symmetry. now apply intersects_same_set.
  - exists (find (states_rule u) SUPPORTED_DOMAINS).
    rewrite !check_for_states_in_uom_all, U, U'. simpl domains_of.
    split; [reflexivity|].
    rewrite (find_ext (states_rule u') (states_rule u)); [reflexivity|].
    intro d. unfold states_rule. symmetry. now apply set_eq_same_set.
Qed.

Lemma uom_matchers_read_lowercase_sets_witness :
  same_set (lowered ["ON"; "Off"; "on"]) (lowered ["off"; "on"])
  /\ exists verdict,
       _check_for_states_in_uom shouting_switch None None fresh
       = match verdict with
         | Some d =>
             (matched StatesInUom None d shouting_switch fresh,
              Returned true)
         | None => (unmatched StatesInUom None fresh, Returned false)
         end
       /\ _check_for_states_in_uom quiet_switch None None fresh
          = match verdict with
            | Some d =>
                (matched StatesInUom None d quiet_switch fresh,
                 Returned true)
            | None => (unmatched StatesInUom None fresh, Returned false)
            end.
Proof.
  assert (S : same_set (lowered ["ON"; "Off"; "on"]) (lowered ["off"; "on"])).
  { intro x. simpl. tauto. }
  split; [exact S|].
  exact (proj2 (@uom_matchers_read_lowercase_sets shouting_switch
                  quiet_switch ["ON"; "Off"; "on"] ["off"; "on"] fresh
                  eq_refl eq_refl S)).
Defined.

(* ================================================================= *)
(** ** The firmware ids of the rule table *)

(** No firmware node-definition id is listed for two categories; so the
    firmware matcher, testing all categories on a node whose id is listed
    for a category, returns [True] with the bucket of that one category
    being its previous content followed by the node and every other
    bucket as it was, whatever the order of the probes. *)
Theorem node_def_ids_name_one_category :
  forall id A,
    node_def_rule id A = true ->
    (forall B, node_def_rule id B = true -> B = A)
    /\ (forall node h,
          node_def_id node = Some id ->
          let m := _check_for_node_def node None h in
          snd m = Returned true
          /\ placed_in A node (isy994_nodes h) (isy994_nodes (fst m))
          /\ isy994_nodes (fst m) A = isy994_nodes h A ++ [node]
          /\ calls (fst m) = calls h ++ [(NodeDef, None)]).
Proof.
  intros id A HA. split.
  - intros B HB. apply node_def_rule_first in HA, HB. congruence.
  - intros node h N. cbv zeta. rewrite check_for_node_def_spec, N.
    simpl domains_of. fold (first_category (node_def_rule id)).
    rewrite (node_def_rule_first _ _ HA).
    pose proof (placed_in_append A node (isy994_nodes h)) as P.
    split; [reflexivity|]. split; [exact P|].
    split; [exact (proj1 P) | reflexivity].
Qed.

Lemma node_def_ids_name_one_category_witness :
  node_def_rule "RelayLampSwitch" switch = true
  /\ (let m := _check_for_node_def relay_switch None fresh in
      snd m = Returned true
      /\ placed_in switch relay_switch
           (isy994_nodes fresh) (isy994_nodes (fst m))
      /\ isy994_nodes (fst m) switch
         = isy994_nodes fresh switch ++ [relay_switch]
      /\ calls (fst m) = calls fresh ++ [(NodeDef, None)]).
Proof.
  split; [reflexivity|].
  apply (proj2 (@node_def_ids_name_one_category "RelayLampSwitch" switch
                  eq_refl) relay_switch fresh eq_refl).
Defined.

(* ================================================================= *)
(** ** Whole passes of the program classifier *)

Section ProgramPassFacts.
Context {F : Type} {T : Programs.Tree F}.

Lemma programs_grew_refl allowed (h : Programs.Hass F) :
  programs_grew allowed h h.
Proof.
  split; [intro d; exists []; now rewrite app_nil_r|].
  exists []. now rewrite app_nil_r.
Qed.

Lemma programs_grew_trans allowed (a b c : Programs.Hass F) :
  programs_grew allowed a b -> programs_grew allowed b c ->
  programs_grew allowed a c.
Proof.
  intros [B1 [l1 L1]] [B2 [l2 L2]]. split.
  - intro d. destruct (B1 d) as [x [E1 N1]], (B2 d) as [y [E2 N2]].
    exists (x ++ y). split; [now rewrite E2, E1, app_assoc|].
    intro A. now rewrite (N1 A), (N2 A).
  - exists (l1 ++ l2). now rewrite L2, L1, app_assoc.
Qed.

Lemma programs_grew_weaken (allowed allowed' : Domain -> bool)
    (a b : Programs.Hass F) :
  (forall d, allowed d = true -> allowed' d = true) ->
  programs_grew allowed a b -> programs_grew allowed' a b.
Proof.
  intros W [B L]. split; [|exact L].
  intro d. destruct (B d) as [x [E N]]. exists x. split; [exact E|].
  intro A. apply N. destruct (allowed d) eqn:Ad; [|reflexivity].
  apply W in Ad. congruence.
Qed.

Lemma categorize_program_child_grows domain (folder : F) child h :
  programs_grew (fun d => domain_eqb d domain) h
    (fst (categorize_program_child domain folder child h)).
Proof.
  destruct child as [[dt nm] id].
  destruct (String.eqb dt "folder") eqn:E.
  2:{ rewrite (@categorize_program_child_not_folder _ _ domain folder dt nm
                 id h E).
      apply programs_grew_refl. }
  destruct (Programs.getitem folder id) as [ef|] eqn:G.
  - rewrite (@categorize_program_child_folder _ _ domain folder dt nm id ef
               h E G).
    destruct (malformed domain ef).
    + split; [intro d; exists []; simpl; now rewrite app_nil_r|].
      now eexists.
    + destruct (program_entity domain ef) as [|e [|? ?]];
        try apply programs_grew_refl.
      split; [|exists []; simpl; now rewrite app_nil_r].
      intro d. simpl. unfold bucket_append.
      destruct (domain_eqb d domain); [now eexists|].
      exists []. now rewrite app_nil_r.
  - unfold categorize_program_child, KEY_FOLDER, bind, or_raise.
    rewrite E, G. simpl. apply programs_grew_refl.
Qed.

Lemma for_each_grows {A} allowed (body : A -> Py (Programs.Hass F) unit)
    (xs : list A) :
  (forall x h, In x xs -> programs_grew allowed h (fst (body x h))) ->
  forall h, programs_grew allowed h (fst (for_each xs body h)).
Proof.
  induction xs as [|x xs IH]; intros B h; [apply programs_grew_refl|].
  cbn [for_each]. unfold bind.
  pose proof (B x h (or_introl eq_refl)) as Bx.
  destruct (body x h) as [h1 [[]|e]]; [|exact Bx].
  apply (programs_grew_trans Bx). apply IH.
  intros y h' I. apply B. now right.
Qed.

Lemma categorize_program_domain_grows (programs : F) domain h :
  programs_grew (fun d => domain_eqb d domain) h
    (fst (categorize_program_domain programs domain h)).
Proof.
  destruct (category_folder programs domain) as [folder|] eqn:C;
    unfold category_folder in C.
  - destruct (Programs.getitem programs "My Programs") as [root|] eqn:R;
      [|discriminate].
    rewrite (categorize_program_domain_found programs domain h R C).
    apply for_each_grows. intros c h' _.
    apply categorize_program_child_grows.
  - rewrite categorize_program_domain_missing;
      [apply programs_grew_refl|].
    now destruct (Programs.getitem programs "My Programs").
Qed.

Lemma categorize_programs_grew (programs : F) h :
  programs_grew
    (fun d => existsb (domain_eqb d) SUPPORTED_PROGRAM_DOMAINS)
    h (fst (_categorize_programs programs h)).
Proof.
  unfold _categorize_programs. apply for_each_grows.
  intros domain h' I.
  apply programs_grew_weaken with (allowed := fun d => domain_eqb d domain);
    [|apply categorize_program_domain_grows].
  intros d E. apply domain_eqb_eq in E. subst d.
  apply existsb_exists. exists domain. split; [exact I|].
  apply domain_eqb_refl.
Qed.

(** The program buckets only grow, and only those of the program
    categories: after the program pass, whether it returned or raised,
    every bucket is the bucket before followed by new entities, the
    buckets of sensor, light and climate are exactly as before, and the
    log is the log before followed by new records. *)
Theorem categorize_programs_appends_only :
  forall (programs : F) h,
    programs_grew
      (fun d => existsb (domain_eqb d) SUPPORTED_PROGRAM_DOMAINS)
      h (fst (_categorize_programs programs h))
    /\ Programs.isy994_programs (fst (_categorize_programs programs h)) sensor
       = Programs.isy994_programs h sensor
    /\ Programs.isy994_programs (fst (_categorize_programs programs h)) light
       = Programs.isy994_programs h light
    /\ Programs.isy994_programs (fst (_categorize_programs programs h))
         climate
       = Programs.isy994_programs h climate.
Proof.
  intros programs h.
  pose proof (categorize_programs_grew programs h) as G.
  split; [exact G|]. destruct G as [B _].
  repeat split.
  - destruct (B sensor) as [x [E N]]. rewrite E, N; [apply app_nil_r|].
    reflexivity.
  - destruct (B light) as [x [E N]]. rewrite E, N; [apply app_nil_r|].
    reflexivity.
  - destruct (B climate) as [x [E N]]. rewrite E, N; [apply app_nil_r|].
    reflexivity.
Qed.

(** Without a "My Programs" folder the program pass does nothing: the
    lookup fails for every category, each failure is caught, and the
    store is returned as it was. *)
Theorem categorize_programs_without_root :
  forall (programs : F) h,
    Programs.getitem programs "My Programs" = None ->
    _categorize_programs programs h = (h, Returned tt).
Proof.
  intros programs h R. unfold _categorize_programs.
  induction SUPPORTED_PROGRAM_DOMAINS as [|d ds IH]; [reflexivity|].
  cbn [for_each]. unfold bind.
  rewrite categorize_program_domain_missing; [exact IH | now rewrite R].
Qed.

(** A folder-type child that cannot be fetched ends the pass over its
    category folder with [KeyError]: the children before it have been
    classified, those after it are not looked at. *)
Theorem unfetchable_program_folder_raises :
  forall domain (folder : F) before nm id after h,
    Programs.children folder = before ++ ("folder", nm, id) :: after ->
    children_resolve folder before ->
    Programs.getitem folder id = None ->
    categorize_program_folder domain folder h
    = (fst (for_each before (categorize_program_child domain folder) h),
       Raised KeyError).
Proof.
  intros domain folder before nm id after h C R G.
  unfold categorize_program_folder. rewrite C, for_each_app.
  destruct (categorize_program_children domain R h) as [I1 _].
  destruct (for_each before (categorize_program_child domain folder) h)
    as [h1 o1]. simpl in I1. subst o1.
  cbn [for_each fst]. unfold bind.
  unfold categorize_program_child, KEY_FOLDER, bind, or_raise.
  simpl String.eqb. cbv iota. rewrite G. reflexivity.
Qed.

Lemma categorize_program_domain_effect (programs : F) domain h :
  (forall folder,
     category_folder programs domain = Some folder ->
     children_resolve folder (Programs.children folder)) ->
  let r := categorize_program_domain programs domain h in
  snd r = Returned tt
  /\ Programs.isy994_programs (fst r) domain
     = Programs.isy994_programs h domain
       ++ category_entities programs domain
  /\ (forall d, d <> domain ->
        Programs.isy994_programs (fst r) d = Programs.isy994_programs h d)
  /\ Programs.log (fst r)
     = Programs.log h ++ category_warnings programs domain.
Proof.
  intros R. unfold category_entities, category_warnings.
  destruct (category_folder programs domain) as [folder|] eqn:C;
    unfold category_folder in C.
  - destruct (Programs.getitem programs "My Programs") as [root|] eqn:G;
      [|discriminate].
    rewrite (categorize_program_domain_found programs domain h G C).
    apply (categorize_program_children domain (R folder eq_refl) h).
  - rewrite categorize_program_domain_missing.
    + simpl. rewrite !app_nil_r. now repeat split.
    + now destruct (Programs.getitem programs "My Programs").
Qed.

Lemma categorize_program_domains_effect (programs : F) (domains : list Domain) :
  NoDup domains ->
  (forall domain folder,
     In domain domains ->
     category_folder programs domain = Some folder ->
     children_resolve folder (Programs.children folder)) ->
  forall h,
    let r := for_each domains (categorize_program_domain programs) h in
    snd r = Returned tt
    /\ (forall d,
          Programs.isy994_programs (fst r) d
          = Programs.isy994_programs h d
            ++ if existsb (domain_eqb d) domains
               then category_entities programs d else [])
    /\ Programs.log (fst r)
       = Programs.log h ++ flat_map (category_warnings programs) domains.
Proof.
  induction domains as [|a ds IH]; intros N R h.
  - simpl. rewrite app_nil_r. repeat split. intro d. now rewrite app_nil_r.
  - inversion N as [|? ? Na Nds]; subst.
    cbn [for_each]. unfold bind.
    destruct (@categorize_program_domain_effect programs a h)
      as [E1 [E2 [E3 E4]]]; [intros folder; apply R; now left|].
    destruct (categorize_program_domain programs a h) as [h1 o1].
    simpl in E1, E2, E3, E4. subst o1.
    destruct (IH Nds (fun d f I => R d f (or_intror I)) h1)
      as [I1 [I2 I3]].
    split; [exact I1|]. split.
    + intro d. rewrite I2. cbn [existsb].
      destruct (domain_eqb d a) eqn:Da.
      * apply domain_eqb_eq in Da. subst d. rewrite E2.
        assert (X : existsb (domain_eqb a) ds = false).
        { destruct (existsb (domain_eqb a) ds) eqn:X; [|reflexivity].
          apply existsb_exists in X. destruct X as [y [Iy Ey]].
          apply domain_eqb_eq in Ey. subst y. contradiction. }
        rewrite X. simpl. now rewrite app_nil_r.
      * rewrite E3; [reflexivity|].
        intro X. subst d. now rewrite domain_eqb_refl in Da.
    + rewrite I3, E4. cbn [flat_map]. now rewrite app_assoc.
Qed.

(** The program pass as a whole, on a directory in which "My Programs"
    holds a folder "HA.<category>" for each of the five program
    categories and every folder-type child those folders list can be
    fetched.  The pass returns normally; the bucket of each program
    category grows by the entities of the well-formed folders of its
    category folder, the other buckets stay as they are, and the log
    grows by the warnings for the malformed folders, category by category
    in the order binary_sensor, lock, fan, cover, switch. *)
Theorem categorize_programs_effect :
  forall (programs : F) h,
    (forall domain,
       In domain SUPPORTED_PROGRAM_DOMAINS ->
       exists folder,
         category_folder programs domain = Some folder
         /\ children_resolve folder (Programs.children folder)) ->
    let r := _categorize_programs programs h in
    snd r = Returned tt
    /\ (forall d,
          Programs.isy994_programs (fst r) d
          = Programs.isy994_programs h d
            ++ if existsb (domain_eqb d) SUPPORTED_PROGRAM_DOMAINS
               then category_entities programs d else [])
    /\ Programs.log (fst r)
       = Programs.log h
         ++ flat_map (category_warnings programs)
              [binary_sensor; lock; fan; cover; switch].
Proof.
  intros programs h R. unfold _categorize_programs.
  apply categorize_program_domains_effect.
  - repeat constructor; simpl; intuition discriminate.
  - intros domain folder I C. destruct (R domain I) as [folder' [C' Rf]].
    rewrite C in C'. injection C' as <-. exact Rf.
Qed.

End ProgramPassFacts.

Lemma categorize_programs_without_root_witness :
  _categorize_programs bare_directory (Programs.mkHass no_buckets [])
  = (Programs.mkHass no_buckets [], Returned tt).
Proof.
  apply (@categorize_programs_without_root ProgramNode _ bare_directory).
  reflexivity.
Defined.

Lemma unfetchable_program_folder_raises_witness :
  @categorize_program_folder ProgramNode stale_listing lock side_gate
    (Programs.mkHass no_buckets [])
  = (Programs.mkHass no_buckets [], Raised KeyError).
Proof.
  apply (@unfetchable_program_folder_raises ProgramNode stale_listing lock
           side_gate [("program", "status", "0016")] "Ghost" "9999" []).
  - reflexivity.
  - intros child [<-|[]]. discriminate.
  - reflexivity.
Defined.

Lemma categorize_programs_effect_witness :
  let r :=
    _categorize_programs full_directory (Programs.mkHass no_buckets [])
  in
  snd r = Returned tt
  /\ Programs.isy994_programs (fst r) lock
     = [("Front door", PNode "program" "status" "0013" [],
         Some (PNode "program" "actions" "0014" []));
        ("Garage", PNode "program" "status" "0018" [],
         Some (PNode "program" "actions" "0019" []))]
  /\ Programs.isy994_programs (fst r) cover = []
  /\ Programs.log (fst r) = [warning_program_not_loaded "Side gate"].
Proof.
  intro r.
  destruct (@categorize_programs_effect ProgramNode _ full_directory
              (Programs.mkHass no_buckets []))
    as [E1 [E2 E3]].
  { intros domain I.
    destruct I as [<-|[<-|[<-|[<-|[<-|[]]]]]];
      (eexists; split; [reflexivity|]);
      intros child Ic _; simpl in Ic;
      repeat (destruct Ic as [<-|Ic]; [discriminate|]);
      destruct Ic. }
  split; [exact E1|]. split; [exact (E2 lock)|].
  split; [exact (E2 cover) | exact E3].
Defined.

(* ================================================================= *)
(** ** Whole passes of the variable classifier *)

Section VariablePassFacts.
Context {V H : Type} {D : Variables.Dir V H}.

Lemma categorize_variable_effect (variables : V) domain isy_var
    (h : Variables.Hass H) :
  existsb (domain_eqb domain) SUPPORTED_VARIABLE_DOMAINS = true ->
  classifiable variables isy_var ->
  let r := categorize_variable variables domain isy_var h in
  snd r = Returned tt
  /\ Variables.isy994_variables (fst r) domain
     = Variables.isy994_variables h domain
       ++ variable_entities variables isy_var
  /\ (forall d, d <> domain ->
        Variables.isy994_variables (fst r) d
        = Variables.isy994_variables h d)
  /\ Variables.log (fst r)
     = Variables.log h ++ variable_errors variables isy_var.
Proof.
  intros S [child [C Hh]].
  unfold variable_entities, variable_errors. rewrite C.
  unfold declared_child, declared_handle in *.
  unfold categorize_variable, bind, or_raise.
  destruct (Variables.by_type variables (CONF_TYPE isy_var)) as [typed|];
    [|discriminate].
  unfold ret. cbv beta iota. rewrite C. cbv beta iota.
  destruct child as [[k [vname|]] i]; cbn [fst snd] in *.
  - destruct (Variables.item typed (CONF_ID isy_var)) as [handle|];
      [|exfalso; now apply Hh].
    cbv beta iota. unfold append_variable. rewrite S.
    unfold modify. cbn [fst snd Variables.isy994_variables Variables.log].
    rewrite bucket_append_same, app_nil_r. repeat split.
    intros d N. now apply bucket_append_other.
  - unfold log_error, modify.
    cbn [fst snd Variables.isy994_variables Variables.log].
    rewrite app_nil_r. now repeat split.
Qed.

(** The variable pass for a category that has a variable bucket, over
    descriptors whose (type, id) is found in the directory and whose
    value can be fetched: it returns normally; the bucket of the
    category grows, in the order of the configuration, by one entity
    (descriptor, name, value handle) per descriptor whose variable has a
    name; the other buckets stay as they are; and the log grows by one
    error, giving type and id, per descriptor whose variable has no
    name. *)
Theorem categorize_variables_effect :
  forall (variables : V) cfg domain (h : Variables.Hass H),
    In domain SUPPORTED_VARIABLE_DOMAINS ->
    (forall isy_var, In isy_var cfg -> classifiable variables isy_var) ->
    let r := _categorize_variables variables (Some cfg) domain h in
    snd r = Returned tt
    /\ Variables.isy994_variables (fst r) domain
       = Variables.isy994_variables h domain
         ++ flat_map (variable_entities variables) cfg
    /\ (forall d, d <> domain ->
          Variables.isy994_variables (fst r) d
          = Variables.isy994_variables h d)
    /\ Variables.log (fst r)
       = Variables.log h ++ flat_map (variable_errors variables) cfg.
Proof.
  intros variables cfg domain h I.
  assert (S : existsb (domain_eqb domain) SUPPORTED_VARIABLE_DOMAINS = true).
  { apply existsb_exists. exists domain. split; [exact I|].
    apply domain_eqb_refl. }
  clear I. revert h. unfold _categorize_variables.
  induction cfg as [|v cfg IH]; intros h C; cbv zeta.
  - simpl. rewrite !app_nil_r. now repeat split.
  - cbn [for_each]. unfold bind.
    destruct (@categorize_variable_effect variables domain v h S
                (C v (or_introl eq_refl))) as [E1 [E2 [E3 E4]]].
    destruct (categorize_variable variables domain v h) as [h1 o1].
    simpl in E1, E2, E3, E4. subst o1.
    destruct (IH h1 (fun x Ix => C x (or_intror Ix))) as [I1 [I2 [I3 I4]]].
    split; [exact I1|]. cbn [flat_map]. repeat split.
    + rewrite I2, E2. now rewrite app_assoc.
    + intros d N. rewrite (I3 d N). now apply E3.
    + rewrite I4, E4. now rewrite app_assoc.
Qed.

(** The lookups of the variable classifier that raise [KeyError], each
    leaving the store as it was: a declared type the directory does not
    have; a variable that is listed with a name but whose value cannot be
    fetched; and a category without a variable bucket, for a descriptor
    that resolves. *)
Theorem categorize_variable_key_errors :
  forall (variables : V) domain isy_var (h : Variables.Hass H),
    (Variables.by_type variables (CONF_TYPE isy_var) = None ->
     categorize_variable variables domain isy_var h = (h, Raised KeyError))
    /\ (forall k vname i,
          declared_child variables isy_var = Some (k, Some vname, i) ->
          declared_handle variables isy_var = None ->
          categorize_variable variables domain isy_var h
          = (h, Raised KeyError))
    /\ (forall entity,
          variable_entities variables isy_var = [entity] ->
          existsb (domain_eqb domain) SUPPORTED_VARIABLE_DOMAINS = false ->
          categorize_variable variables domain isy_var h
          = (h, Raised KeyError)).
Proof.
  intros variables domain isy_var h.
  unfold variable_entities, declared_child, declared_handle,
    categorize_variable, bind, or_raise.
  split; [intros ->; reflexivity|].
  destruct (Variables.by_type variables (CONF_TYPE isy_var)) as [typed|].
  - split.
    + intros k vname i C Hn. simpl. rewrite C. simpl. now rewrite Hn.
    + intros entity E S. unfold ret. cbv beta iota.
      destruct (find _ _) as [[[k [vname|]] i]|]; try discriminate.
      cbn [fst snd].
      destruct (Variables.item typed (CONF_ID isy_var));
        [|discriminate].
      cbv beta iota. unfold append_variable. now rewrite S.
  - split; [discriminate|]. intros entity E. discriminate.
Qed.

End VariablePassFacts.

Lemma categorize_variables_effect_witness :
  let r :=
    _categorize_variables named_and_nameless
      (Some [nameless_var; away_var]) switch no_variables in
  snd r = Returned tt
  /\ Variables.isy994_variables (fst r) switch = [(away_var, "Away", 1%Z)]
  /\ Variables.log (fst r) = [error_variable_not_found 2 1].
Proof.
  intro r.
  destruct (@categorize_variables_effect VarDir Z _ named_and_nameless
              [nameless_var; away_var] switch no_variables)
    as [E1 [E2 [_ E4]]].
  - simpl. tauto.
  - intros v [<-|[<-|[]]].
    + exists (2%Z, None, 1%Z). split; [reflexivity|]. now intros [].
    + exists (2%Z, Some "Away", 2%Z). split; [reflexivity|]. discriminate.
  - split; [exact E1|]. split; [exact E2 | exact E4].
Defined.

Lemma categorize_variable_key_errors_witness :
  categorize_variable named_and_nameless sensor float_var no_variables
  = (no_variables, Raised KeyError)
  /\ categorize_variable named_and_nameless light away_var no_variables
     = (no_variables, Raised KeyError).
Proof.
  split.
  - apply (proj1 (@categorize_variable_key_errors VarDir Z _
                    named_and_nameless sensor float_var no_variables)).
    reflexivity.
  - apply (proj2 (proj2 (@categorize_variable_key_errors VarDir Z _
                           named_and_nameless light away_var no_variables))
             (away_var, "Away", 1%Z)); reflexivity.
Defined.

(* ================================================================= *)
(** ** The weather list *)

Section WeatherListFacts.
Context {A : Type}.

Lemma weather_nodes_outcome (climate : Climate A) all attrs
    (weather : list (WeatherNode.t A)) :
  (exists nodes,
     weather_nodes climate all attrs weather = (weather, Returned nodes)
     /\ forall node, In node nodes ->
          exists attr,
            In attr attrs
            /\ WeatherNode.name node = replace_underscores attr)
  \/ weather_nodes climate all attrs weather
     = (weather, Raised AttributeError).
Proof.
  induction attrs as [|attr rest IH]; simpl.
  - left. exists []. split; [reflexivity|]. intros node [].
  - assert (K : (exists nodes,
                   weather_nodes climate all rest weather
                   = (weather, Returned nodes)
                   /\ forall node, In node nodes ->
                        exists a,
                          (attr = a \/ In a rest)
                          /\ WeatherNode.name node = replace_underscores a)
                \/ weather_nodes climate all rest weather
                   = (weather, Raised AttributeError)).
    { destruct IH as [[nodes [E N]]|E]; [left | now right].
      exists nodes. split; [exact E|]. intros node I.
      destruct (N node I) as [a [Ia Na]]. exists a. split; [now right|].
      exact Na. }
    destruct (mem (units_of attr) all); [|exact K].
    unfold bind, or_raise.
    destruct (getattr climate attr) as [value|]; [|now right].
    simpl. destruct (getattr climate (units_of attr)) as [unit|];
      [|now right].
    simpl. destruct K as [[nodes [E N]]|E]; rewrite E; [left | now right].
    eexists. split; [reflexivity|].
    intros node [<-|I]; [|now apply N].
    exists attr. split; [now left | reflexivity].
Qed.

(** The weather list is extended all at once or not at all: the weather
    classifier either returns normally, having appended entries to the
    list it found, or raises [AttributeError], on an attribute it could
    not read, and leaves the list exactly as it found it. *)
Theorem categorize_weather_all_or_nothing :
  forall (climate : Climate A) weather,
    (exists nodes,
       _categorize_weather climate weather = (weather ++ nodes, Returned tt))
    \/ _categorize_weather climate weather = (weather, Raised AttributeError).
Proof.
  intros climate weather. unfold _categorize_weather, bind.
  destruct (weather_nodes_outcome climate (dir climate) (dir climate) weather)
    as [[nodes [E _]]|E]; rewrite E; [left | now right].
  now exists nodes.
Qed.

Lemma no_underscore_left (s : string) :
  str_in "_" (replace_underscores s) = false.
Proof.
  induction s as [|c s IH]; [reflexivity|].
  cbn [replace_underscores str_in startswith].
  destruct (Ascii.eqb c "_") eqn:E; [exact IH|].
  rewrite E. exact IH.
Qed.

(** The names of the weather entries: when the weather classifier
    returns, each entry it appended is named after an attribute of the
    object, with every underscore replaced by a space; no entry name
    contains an underscore. *)
Theorem weather_names_have_no_underscore :
  forall (climate : Climate A) weather weather',
    _categorize_weather climate weather = (weather', Returned tt) ->
    exists nodes,
      weather' = weather ++ nodes
      /\ forall node, In node nodes ->
           str_in "_" (WeatherNode.name node) = false
           /\ exists attr,
                In attr (dir climate)
                /\ WeatherNode.name node = replace_underscores attr.
Proof.
  intros climate weather weather'. unfold _categorize_weather, bind.
  destruct (weather_nodes_outcome climate (dir climate) (dir climate) weather)
    as [[nodes [E N]]|E]; rewrite E; [|discriminate].
  simpl. intro X. injection X as <-. exists nodes.
  split; [reflexivity|]. intros node I.
  destruct (N node I) as [attr [Ia Na]]. split.
  - rewrite Na. apply no_underscore_left.
  - now exists attr.
Qed.

End WeatherListFacts.

Lemma weather_names_have_no_underscore_witness :
  exists nodes,
    [WeatherNode.mk "12" "wind speed" "km/h"] = [] ++ nodes
    /\ forall node, In node nodes ->
         str_in "_" (WeatherNode.name node) = false
         /\ exists attr,
              In attr (dir wind_station)
              /\ WeatherNode.name node = replace_underscores attr.
Proof.
  apply (@weather_names_have_no_underscore string wind_station []
           [WeatherNode.mk "12" "wind speed" "km/h"]).
  reflexivity.
Defined.

(** The second case happens: the units of the wind speed cannot be
    read. *)
Example categorize_weather_unreadable_attribute :
  _categorize_weather broken_station
    [WeatherNode.mk "21.5" "temperature" "C"]
  = ([WeatherNode.mk "21.5" "temperature" "C"], Raised AttributeError).
Proof. reflexivity. Qed.

(* ================================================================= *)
(** ** [setup] *)

Section SetupFacts.
Context {F V H A Tls : Type}
        {T : Programs.Tree F} {D : Variables.Dir V H}.
Variable connect :
  option string -> Z -> string -> string -> bool -> option Tls ->
  ISY.t F V A.

(** Destructs the classifier pass the goal is waiting for, and reads the
    fields of the store it leaves. *)
Ltac run_next :=
  first
    [ match goal with
      | |- context [_categorize_nodes ?a ?b ?c ?h] =>
          destruct (_categorize_nodes a b c h) as [? [[]|?]]
      end
    | match goal with
      | |- context [_categorize_programs ?p ?h] =>
          destruct (_categorize_programs p h) as [? [[]|?]]
      end
    | match goal with
      | |- context [_categorize_variables ?v ?c ?d ?h] =>
          destruct (_categorize_variables v c d h) as [? [[]|?]]
      end
    | match goal with
      | |- context [_categorize_weather ?c ?h] =>
          destruct (_categorize_weather c h) as [? [[]|?]]
      end ];
  cbn [fst snd Data.nodes Data.programs Data.variables Data.weather
       Data.log Data.stop_listeners Data.platforms Data.auto_update].

Lemma load_platform_list (domains : list Domain) :
  forall s : Data.t F H A,
    for_each domains load_platform s
    = (Data.mk (Data.nodes s) (Data.programs s) (Data.variables s)
         (Data.weather s) (Data.log s) (Data.stop_listeners s)
         (Data.platforms s ++ domains) (Data.auto_update s),
       Returned tt).
Proof.
  induction domains as [|d ds IH]; intro s.
  - cbn [for_each]. unfold ret. rewrite app_nil_r. now destruct s.
  - cbn [for_each]. unfold bind.
    change (load_platform d s)
      with (Data.mk (Data.nodes s) (Data.programs s) (Data.variables s)
              (Data.weather s) (Data.log s) (Data.stop_listeners s)
              (Data.platforms s ++ [d]) (Data.auto_update s),
            @Returned unit tt).
    cbv beta iota. rewrite IH.
    cbn [Data.nodes Data.programs Data.variables Data.weather Data.log
         Data.stop_listeners Data.platforms Data.auto_update].
    now rewrite <- app_assoc.
Qed.

Lemma finish_setup_run (s : Data.t F H A) :
  finish_setup s
  = (Data.mk (Data.nodes s) (Data.programs s) (Data.variables s)
       (Data.weather s) (Data.log s) (S (Data.stop_listeners s))
       (Data.platforms s ++ SUPPORTED_DOMAINS) true,
     Returned true).
Proof.
  unfold finish_setup, bind.
  change (listen_once_stop s)
    with (Data.mk (Data.nodes s) (Data.programs s) (Data.variables s)
            (Data.weather s) (Data.log s) (S (Data.stop_listeners s))
            (Data.platforms s) (Data.auto_update s),
          @Returned unit tt).
  cbv beta iota. rewrite load_platform_list. reflexivity.
Qed.

(** Reads the fields of the stores in the goal. *)
Ltac read_fields :=
  cbn [fst snd Data.nodes Data.programs Data.variables Data.weather
       Data.log Data.stop_listeners Data.platforms Data.auto_update].

Lemma setup_connected_platforms (isy_config : IsyConfig Tls)
    (isy : ISY.t F V A) (s : Data.t F H A) :
  let r := setup_connected isy_config isy s in
  (snd r = Returned true
   /\ Data.platforms (fst r) = Data.platforms s ++ SUPPORTED_DOMAINS
   /\ Data.stop_listeners (fst r) = S (Data.stop_listeners s)
   /\ Data.auto_update (fst r) = true)
  \/ (snd r <> Returned true
      /\ Data.platforms (fst r) = Data.platforms s
      /\ Data.stop_listeners (fst r) = Data.stop_listeners s
      /\ Data.auto_update (fst r) = Data.auto_update s).
Proof.
  unfold setup_connected.
  destruct (ISY.connected isy); cbn [negb];
    [|right; repeat split; discriminate].
  unfold bind, on_nodes, on_programs, on_variables.
  run_next; [|right; repeat split; discriminate].
  run_next; [|right; repeat split; discriminate].
  run_next; [|right; repeat split; discriminate].
  run_next; [|right; repeat split; discriminate].
  run_next; [|right; repeat split; discriminate].
  destruct (CONF_ENABLE_CLIMATE isy_config && ISY.weather_information isy).
  - unfold on_weather.
    run_next; [|right; repeat split; discriminate].
    rewrite !finish_setup_run. read_fields.
    left. now repeat split.
  - unfold ret. read_fields. rewrite !finish_setup_run. read_fields.
    left. now repeat split.
Qed.

Lemma setup_by_connection (isy_config : IsyConfig Tls) (s : Data.t F H A) :
  setup connect isy_config s
  = match connection connect isy_config with
    | Some isy => setup_connected isy_config isy (emptied s)
    | None =>
        if valid_scheme isy_config then
          match port (CONF_HOST isy_config) with
          | Raised e => (emptied s, Raised e)
          | Returned _ => (emptied s, Returned false)
          end
        else
          (Data.mk (mkHass no_buckets (calls (Data.nodes s)))
             no_buckets no_buckets [] (Data.log s ++ [error_invalid_host])
             (Data.stop_listeners s) (Data.platforms s)
             (Data.auto_update s),
           Returned false)
    end.
Proof.
  unfold setup, connection, valid_scheme, bind, reset_data, read_port,
    modify, emptied.
  destruct (String.eqb (scheme (CONF_HOST isy_config)) "http");
    [cbn [orb fst snd];
     destruct (port (CONF_HOST isy_config)); reflexivity|].
  destruct (String.eqb (scheme (CONF_HOST isy_config)) "https");
    [cbn [orb fst snd];
     destruct (port (CONF_HOST isy_config)); reflexivity|].
  reflexivity.
Qed.

(** Without a controller [setup] neither returns [True] nor touches
    anything but the log. *)
Lemma setup_unconnected (isy_config : IsyConfig Tls) (s : Data.t F H A) :
  connection connect isy_config = None ->
  exists o logged,
    setup connect isy_config s
    = (Data.mk (mkHass no_buckets (calls (Data.nodes s)))
         no_buckets no_buckets [] (Data.log s ++ logged)
         (Data.stop_listeners s) (Data.platforms s) (Data.auto_update s),
       o)
    /\ o <> Returned true.
Proof.
  intro C. rewrite setup_by_connection, C. unfold emptied.
  destruct (valid_scheme isy_config).
  - destruct (port (CONF_HOST isy_config)) as [p|e];
      eexists; exists []; rewrite app_nil_r;
      (split; [reflexivity | discriminate]).
  - eexists; eexists. split; [reflexivity | discriminate].
Qed.

(** The platforms are loaded all together, after every classifier has
    returned, or not at all.  Either [setup] returns [True], and then it
    has registered its stop listener, called [load_platform] for the
    eight categories in the order of [SUPPORTED_DOMAINS] and switched
    automatic updates on; or it returns [False] or raises, and then it
    has loaded no platform, registered no listener and left automatic
    updates as they were. *)
Theorem setup_loads_all_platforms_or_none :
  forall (isy_config : IsyConfig Tls) (s : Data.t F H A),
    let r := setup connect isy_config s in
    (snd r = Returned true
     /\ Data.platforms (fst r) = Data.platforms s ++ SUPPORTED_DOMAINS
     /\ Data.stop_listeners (fst r) = S (Data.stop_listeners s)
     /\ Data.auto_update (fst r) = true)
    \/ (snd r <> Returned true
        /\ Data.platforms (fst r) = Data.platforms s
        /\ Data.stop_listeners (fst r) = Data.stop_listeners s
        /\ Data.auto_update (fst r) = Data.auto_update s).
Proof.
  intros isy_config s.
  destruct (connection connect isy_config) as [isy|] eqn:C.
  - rewrite setup_by_connection, C.
    exact (setup_connected_platforms isy_config isy (emptied s)).
  - destruct (setup_unconnected isy_config s C) as [o [logged [-> N]]].
    right. now repeat split.
Qed.

(** Without a connection nothing is classified.  For a host whose scheme
    is neither http nor https, [setup] logs that the host is invalid and
    returns [False].  For an http or https host whose port cannot be
    read, the [ValueError] of [host.port] leaves [setup] before any
    connection is attempted, and nothing is logged.  For a controller
    that does not connect, [setup] returns [False] without logging.  In
    the three cases the four entries of [hass.data] are left freshly
    created and empty, no platform is loaded and no listener
    registered. *)
Theorem setup_without_connection :
  forall (isy_config : IsyConfig Tls) (s : Data.t F H A),
    let host := CONF_HOST isy_config in
    (String.eqb (scheme host) "http" = false ->
     String.eqb (scheme host) "https" = false ->
     setup connect isy_config s
     = (Data.mk (mkHass no_buckets (calls (Data.nodes s)))
          no_buckets no_buckets [] (Data.log s ++ [error_invalid_host])
          (Data.stop_listeners s) (Data.platforms s) (Data.auto_update s),
        Returned false))
    /\ (forall e,
          String.eqb (scheme host) "http" = true
          \/ String.eqb (scheme host) "https" = true ->
          port host = Raised e ->
          setup connect isy_config s
          = (Data.mk (mkHass no_buckets (calls (Data.nodes s)))
               no_buckets no_buckets [] (Data.log s)
               (Data.stop_listeners s) (Data.platforms s)
               (Data.auto_update s),
             Raised e))
    /\ (forall isy,
          connection connect isy_config = Some isy ->
          ISY.connected isy = false ->
          setup connect isy_config s
          = (Data.mk (mkHass no_buckets (calls (Data.nodes s)))
               no_buckets no_buckets [] (Data.log s)
               (Data.stop_listeners s) (Data.platforms s)
               (Data.auto_update s),
             Returned false)).
Proof.
  intros isy_config s host. subst host. rewrite setup_by_connection.
  unfold connection, valid_scheme, emptied. split; [|split].
  - intros E1 E2. now rewrite E1, E2.
  - intros e E P. rewrite P.
    destruct (String.eqb (scheme (CONF_HOST isy_config)) "http");
      [reflexivity|].
    destruct E as [E|E]; [discriminate|]. now rewrite E.
  - intros isy C K. unfold setup_connected.
    destruct (String.eqb (scheme (CONF_HOST isy_config)) "http").
    + destruct (port (CONF_HOST isy_config)); [|discriminate].
      injection C as <-. now rewrite K.
    + destruct (String.eqb (scheme (CONF_HOST isy_config)) "https");
        [|discriminate].
      destruct (port (CONF_HOST isy_config)); [|discriminate].
      injection C as <-. now rewrite K.
Qed.

Lemma categorize_nodes_same_buckets nodes ignore_identifier
    sensor_identifier :
  forall h h',
    isy994_nodes h = isy994_nodes h' ->
    isy994_nodes
      (fst (_categorize_nodes nodes ignore_identifier sensor_identifier h))
    = isy994_nodes
        (fst (_categorize_nodes nodes ignore_identifier sensor_identifier
                h'))
    /\ snd (_categorize_nodes nodes ignore_identifier sensor_identifier h)
       = snd (_categorize_nodes nodes ignore_identifier sensor_identifier
                h').
Proof.
  unfold _categorize_nodes.
  induction nodes as [|[path node] rest IH]; intros h h' E;
    [now split|].
  cbn [for_each]. unfold bind.
  pose proof (categorize_node_lands ignore_identifier sensor_identifier
                path node h) as L.
  pose proof (categorize_node_lands ignore_identifier sensor_identifier
                path node h') as L'.
  destruct (categorize_node ignore_identifier sensor_identifier
              (path, node) h) as [h1 o1].
  destruct (categorize_node ignore_identifier sensor_identifier
              (path, node) h') as [h1' o1'].
  cbn [fst snd] in L, L'.
  destruct (expected_category ignore_identifier sensor_identifier path node)
    as [[d|]|e]; destruct L as [-> B], L' as [-> B'];
    try (apply IH; congruence); cbn [fst snd]; split; congruence.
Qed.

Lemma data_only_bind {X Y} (m : Py (Data.t F H A) X)
    (k : X -> Py (Data.t F H A) Y) :
  data_only m -> (forall x, data_only (k x)) -> data_only (bind m k).
Proof.
  intros Hm Hk s s' E. unfold bind. destruct (Hm s s' E) as [E1 O1].
  destruct (m s) as [s1 o1], (m s') as [s1' o1']. cbn [fst snd] in *.
  subst o1'. destruct o1 as [x|e]; [now apply Hk | now split].
Qed.

Lemma data_only_ret {X} (x : X) : data_only (@ret (Data.t F H A) X x).
Proof. intros s s' E. now split. Qed.

Lemma data_only_on_nodes nodes ignore_identifier sensor_identifier :
  data_only
    (@on_nodes F H A unit
       (_categorize_nodes nodes ignore_identifier sensor_identifier)).
Proof.
  intros s s' [En [Ep [Ev Ew]]]. unfold on_nodes.
  destruct (categorize_nodes_same_buckets nodes ignore_identifier
              sensor_identifier _ _ En) as [B O].
  destruct (_categorize_nodes nodes ignore_identifier sensor_identifier
              (Data.nodes s)) as [n o].
  destruct (_categorize_nodes nodes ignore_identifier sensor_identifier
              (Data.nodes s')) as [n' o'].
  cbn [fst snd] in *. split; [|exact O]. now repeat split.
Qed.

Lemma data_only_on_programs {X} (m : Py (Programs.Hass F) X) :
  data_only (@on_programs F H A X m).
Proof.
  intros s s' [En [Ep [Ev Ew]]]. unfold on_programs. rewrite Ep.
  destruct (m _) as [p o]. cbn [fst snd]. split; [|reflexivity].
  now repeat split.
Qed.

Lemma data_only_on_variables {X} (m : Py (Variables.Hass H) X) :
  data_only (@on_variables F H A X m).
Proof.
  intros s s' [En [Ep [Ev Ew]]]. unfold on_variables. rewrite Ev.
  destruct (m _) as [v o]. cbn [fst snd]. split; [|reflexivity].
  now repeat split.
Qed.

Lemma data_only_on_weather {X} (m : Py (list (WeatherNode.t A)) X) :
  data_only (@on_weather F H A X m).
Proof.
  intros s s' [En [Ep [Ev Ew]]]. unfold on_weather. rewrite Ew.
  destruct (m _) as [w o]. cbn [fst snd]. split; [|reflexivity].
  now repeat split.
Qed.

Lemma data_only_modify (f : Data.t F H A -> Data.t F H A) :
  (forall s, same_data (f s) s) -> data_only (modify f).
Proof.
  intros Hf s s' E. unfold modify. cbn [fst snd]. split; [|reflexivity].
  destruct (Hf s) as [A1 [A2 [A3 A4]]], (Hf s') as [B1 [B2 [B3 B4]]],
    E as [E1 [E2 [E3 E4]]].
  repeat split; congruence.
Qed.

Lemma data_only_for_each {X} (xs : list X)
    (body : X -> Py (Data.t F H A) unit) :
  (forall x, data_only (body x)) -> data_only (for_each xs body).
Proof.
  intro Hb. induction xs as [|x xs IH]; [apply data_only_ret|].
  cbn [for_each]. apply data_only_bind; [apply Hb | intros _; exact IH].
Qed.

Lemma data_only_setup_connected (isy_config : IsyConfig Tls)
    (isy : ISY.t F V A) :
  data_only (setup_connected isy_config isy).
Proof.
  unfold setup_connected.
  destruct (negb (ISY.connected isy)); [apply data_only_ret|].
  apply data_only_bind; [apply data_only_on_nodes | intros _].
  apply data_only_bind; [apply data_only_on_programs | intros _].
  apply data_only_bind; [apply data_only_on_variables | intros _].
  apply data_only_bind; [apply data_only_on_variables | intros _].
  apply data_only_bind; [apply data_only_on_variables | intros _].
  apply data_only_bind.
  { destruct (_ && _); [apply data_only_on_weather | apply data_only_ret]. }
  intros _. apply data_only_bind.
  { apply data_only_modify. intro s. now repeat split. }
  intros _. apply data_only_bind.
  { apply data_only_for_each. intro d. apply data_only_modify.
    intro s. now repeat split. }
  intros _. apply data_only_bind; [|intros _; apply data_only_ret].
  apply data_only_modify. intro s. now repeat split.
Qed.

(** Every call of [setup] rebuilds [hass.data] from nothing: started
    from any two stores, with the same configuration and controller, it
    gives the same return value or exception and the same node, program
    and variable buckets and weather list.  What the entries held before
    the call has no influence. *)
Theorem setup_rebuilds_the_buckets :
  forall (isy_config : IsyConfig Tls) (s s' : Data.t F H A),
    snd (setup connect isy_config s) = snd (setup connect isy_config s')
    /\ same_data (fst (setup connect isy_config s))
         (fst (setup connect isy_config s')).
Proof.
  intros isy_config s s'. rewrite !setup_by_connection.
  destruct (connection connect isy_config) as [isy|].
  - destruct (@data_only_setup_connected isy_config isy (emptied s)
                (emptied s')) as [E O]; [now repeat split|].
    now split.
  - destruct (valid_scheme isy_config);
      [destruct (port (CONF_HOST isy_config))|];
      cbn [fst snd]; (split; [reflexivity|]); now repeat split.
Qed.

(** The node pass comes first and on fresh buckets: when the controller
    connects, the node entry [setup] leaves is the one the node
    classifier builds from empty buckets; and when that pass raises,
    [setup] raises the same exception with the program and variable
    buckets and the weather list still empty and nothing logged. *)
Theorem setup_classifies_nodes_first :
  forall (isy_config : IsyConfig Tls) (s : Data.t F H A) isy,
    connection connect isy_config = Some isy ->
    ISY.connected isy = true ->
    let pass :=
      _categorize_nodes (ISY.nodes isy) (CONF_IGNORE_STRING isy_config)
        (CONF_SENSOR_STRING isy_config)
        (mkHass no_buckets (calls (Data.nodes s))) in
    let r := setup connect isy_config s in
    Data.nodes (fst r) = fst pass
    /\ (forall e,
          snd pass = Raised e ->
          snd r = Raised e
          /\ Data.programs (fst r) = no_buckets
          /\ Data.variables (fst r) = no_buckets
          /\ Data.weather (fst r) = []
          /\ Data.log (fst r) = Data.log s).
Proof.
  intros isy_config s isy C K pass r. subst r.
  rewrite setup_by_connection, C. unfold setup_connected. rewrite K.
  cbn [negb]. unfold bind, on_nodes. cbn [emptied Data.nodes]. fold pass.
  destruct pass as [n [[]|e]]; cbn [fst snd].
  2:{ split; [reflexivity|]. intros e' E. injection E as <-.
      now repeat split. }
  split; [|discriminate].
  unfold on_programs, on_variables.
  run_next; [|reflexivity].
  run_next; [|reflexivity].
  run_next; [|reflexivity].
  run_next; [|reflexivity].
  destruct (CONF_ENABLE_CLIMATE isy_config && ISY.weather_information isy).
  - unfold on_weather. run_next; [|reflexivity].
    now rewrite !finish_setup_run.
  - unfold ret. read_fields. now rewrite !finish_setup_run.
Qed.

(** Weather is classified only when the configuration enables it and the
    controller offers it: the weather list [setup] leaves is empty, or
    the controller connected, climate is enabled, the controller reports
    weather information, and the list is the one the weather classifier
    builds from the empty list. *)
Theorem setup_weather_is_gated :
  forall (isy_config : IsyConfig Tls) (s : Data.t F H A),
    let r := setup connect isy_config s in
    Data.weather (fst r) = []
    \/ exists isy,
         connection connect isy_config = Some isy
         /\ ISY.connected isy = true
         /\ CONF_ENABLE_CLIMATE isy_config = true
         /\ ISY.weather_information isy = true
         /\ Data.weather (fst r)
            = fst (_categorize_weather (ISY.climate isy) []).
Proof.
  intros isy_config s r. subst r.
  destruct (connection connect isy_config) as [isy|] eqn:C.
  2:{ destruct (setup_unconnected isy_config s C) as [o [logged [-> N]]].
      now left. }
  rewrite setup_by_connection, C.
  unfold setup_connected.
  destruct (ISY.connected isy) eqn:K; cbn [negb]; [|now left].
  unfold bind, on_nodes, on_programs, on_variables, emptied. read_fields.
  run_next; [|now left].
  run_next; [|now left].
  run_next; [|now left].
  run_next; [|now left].
  run_next; [|now left].
  destruct (CONF_ENABLE_CLIMATE isy_config) eqn:Ec;
    destruct (ISY.weather_information isy) eqn:Wi; cbn [andb].
  - right. exists isy. repeat split; trivial.
    unfold on_weather. read_fields.
    destruct (_categorize_weather (ISY.climate isy) []) as [w [[]|e]];
      [|reflexivity].
    now rewrite !finish_setup_run.
  - left. unfold ret. read_fields. now rewrite !finish_setup_run.
  - left. unfold ret. read_fields. now rewrite !finish_setup_run.
  - left. unfold ret. read_fields. now rewrite !finish_setup_run.
Qed.

Lemma categorize_variable_other_buckets (variables : V) domain isy_var
    (h : Variables.Hass H) d :
  d <> domain ->
  Variables.isy994_variables
    (fst (categorize_variable variables domain isy_var h)) d
  = Variables.isy994_variables h d.
Proof.
  intro N. unfold categorize_variable, bind, or_raise.
  destruct (Variables.by_type variables (CONF_TYPE isy_var)) as [typed|];
    [|reflexivity].
  unfold ret. cbv beta iota.
  destruct (find _ _) as [[[k [vname|]] i]|]; [| |reflexivity];
    cbn [fst snd]; [|reflexivity].
  destruct (Variables.item typed (CONF_ID isy_var)) as [handle|];
    [|reflexivity].
  cbv beta iota. unfold append_variable.
  destruct (existsb _ _); [|reflexivity].
  unfold modify. cbn [fst Variables.isy994_variables].
  now apply bucket_append_other.
Qed.

Lemma categorize_variables_other_buckets (variables : V) domain_cfg domain
    d :
  d <> domain ->
  forall h : Variables.Hass H,
    Variables.isy994_variables
      (fst (_categorize_variables variables domain_cfg domain h)) d
    = Variables.isy994_variables h d.
Proof.
  intro N. unfold _categorize_variables.
  destruct domain_cfg as [cfg|]; [|reflexivity].
  induction cfg as [|v cfg IH]; intro h; [reflexivity|].
  cbn [for_each]. unfold bind.
  pose proof (categorize_variable_other_buckets variables v h N) as E.
  destruct (categorize_variable variables domain v h) as [h1 [[]|e]];
    cbn [fst] in *; [|exact E].
  now rewrite IH.
Qed.

(** Program buckets nothing is ever put in: whatever [setup] does,
    whether it returns or raises, it leaves the program buckets of the
    categories outside [SUPPORTED_PROGRAM_DOMAINS], which are sensor,
    light and climate, empty. *)
Theorem setup_leaves_unsupported_buckets_empty :
  forall (isy_config : IsyConfig Tls) (s : Data.t F H A),
    let r := setup connect isy_config s in
    (forall d,
       existsb (domain_eqb d) SUPPORTED_PROGRAM_DOMAINS = false ->
       Data.programs (fst r) d = [])
    /\ Data.programs (fst r) sensor = []
    /\ Data.programs (fst r) light = []
    /\ Data.programs (fst r) climate = [].
Proof.
  intros isy_config s r.
  assert (P : forall d,
            existsb (domain_eqb d) SUPPORTED_PROGRAM_DOMAINS = false ->
            Data.programs (fst r) d = []).
  2:{ split; [exact P|]. repeat split; apply P; reflexivity. }
  intros d X. subst r.
  destruct (connection connect isy_config) as [isy|] eqn:C.
  2:{ destruct (setup_unconnected isy_config s C) as [o [logged [-> N]]].
      reflexivity. }
  rewrite setup_by_connection, C.
  unfold setup_connected.
  destruct (ISY.connected isy); cbn [negb]; [|reflexivity].
  unfold bind, on_nodes, on_programs, on_variables.
  unfold emptied. read_fields.
  destruct (_categorize_nodes _ _ _ _) as [n [[]|e]]; read_fields;
    [|reflexivity].
  pose proof (categorize_programs_grew (ISY.programs isy)
                (Programs.mkHass no_buckets [])) as [G _].
  destruct (_categorize_programs (ISY.programs isy)
              (Programs.mkHass no_buckets [])) as [p op].
  cbn [fst] in G.
  assert (P : Programs.isy994_programs p d = []).
  { destruct (G d) as [added [E Z]]. rewrite E, (Z X). reflexivity. }
  destruct op as [[]|e]; read_fields; [|exact P].
  run_next; [|exact P].
  run_next; [|exact P].
  run_next; [|exact P].
  destruct (CONF_ENABLE_CLIMATE isy_config && ISY.weather_information isy).
  - unfold on_weather. run_next; [|exact P].
    rewrite !finish_setup_run. read_fields. exact P.
  - unfold ret. read_fields. rewrite !finish_setup_run. read_fields.
    exact P.
Qed.

End SetupFacts.

Lemma setup_without_connection_witness :
  setup house ftp_config empty_store
  = (Data.mk fresh no_buckets no_buckets [] [error_invalid_host] 0 [] false,
     Returned false)
  /\ setup house bad_port_config empty_store
     = (Data.mk fresh no_buckets no_buckets [] [] 0 [] false,
        Raised ValueError)
  /\ setup unreachable http_config empty_store
     = (Data.mk fresh no_buckets no_buckets [] [] 0 [] false,
        Returned false).
Proof.
  split; [|split].
  - apply (proj1 (@setup_without_connection _ _ _ _ _ _ _ house ftp_config
                    empty_store)); reflexivity.
  - apply (proj1 (proj2 (@setup_without_connection _ _ _ _ _ _ _ house
                           bad_port_config empty_store)) ValueError);
      [now left | reflexivity].
  - apply (proj2 (proj2 (@setup_without_connection _ _ _ _ _ _ _
                           unreachable http_config empty_store))
             (unreachable (Some "isy.local") 80 "admin" "secret" false None));
      reflexivity.
Defined.

Lemma setup_classifies_nodes_first_witness :
  Data.nodes (fst (setup house http_config empty_store))
  = fst (_categorize_nodes
           [("Bedroom", fanlinc_light); ("Basement", leak_sensor);
            ("Scenes", sensor_scene); ("Den", bare_node)]
           "{IGNORE ME}" "sensor" fresh).
Proof.
  apply (@setup_classifies_nodes_first _ _ _ _ _ _ _ house http_config
           empty_store
           (house (Some "isy.local") 80 "admin" "secret" false None));
    reflexivity.
Defined.

(** A whole [setup] against a controller with four nodes, the lock
    programs, three variables and a weather station. *)
Example setup_example :
  let r := setup house http_config empty_store in
  snd r = Returned true
  /\ map (fun d => map name (isy994_nodes (Data.nodes (fst r)) d))
       SUPPORTED_DOMAINS
     = [["Basement leak sensor"]; []; []; []; []; ["Bedroom fan light"];
        ["Hallway sensor lights"]; []]
  /\ map fst (map fst (Data.programs (fst r) lock))
     = ["Front door"; "Garage"]
  /\ Data.variables (fst r) sensor
     = [(outside_temperature_var, "Outside temperature", 17%Z)]
  /\ Data.variables (fst r) switch = [(away_var, "Away", 1%Z)]
  /\ Data.weather (fst r) = [WeatherNode.mk "21.5" "temperature" "C"]
  /\ Data.log (fst r)
     = [classifier_record (warning_program_not_loaded "Side gate")]
  /\ Data.platforms (fst r) = SUPPORTED_DOMAINS.
Proof. repeat split. Qed.

Lemma setup_leaves_unsupported_buckets_empty_witness :
  existsb (domain_eqb light) SUPPORTED_PROGRAM_DOMAINS = false
  /\ Data.programs (fst (setup house http_config empty_store)) light = [].
Proof.
  split; [reflexivity|].
  apply (proj1 (@setup_leaves_unsupported_buckets_empty _ _ _ _ _ _ _
                  house http_config empty_store) light).
  reflexivity.
Defined.

(* ================================================================= *)
(** ** [ISYDevice] *)

Lemma dict_get_set_same {A} (k : string) (v : A) (d : list (string * A)) :
  dict_get k (dict_set k v d) = Some v.
Proof.
  unfold dict_get. induction d as [|[k' v'] d IH]; simpl.
  - now rewrite String.eqb_refl.
  - destruct (String.eqb k' k) eqn:E; simpl.
    + now rewrite String.eqb_refl.
    + rewrite E. exact IH.
Qed.

Lemma dict_get_set_other {A} (k k' : string) (v : A)
    (d : list (string * A)) :
  k' <> k -> dict_get k' (dict_set k v d) = dict_get k' d.
Proof.
  intro N. unfold dict_get. induction d as [|[k0 v0] d IH]; simpl.
  - apply String.eqb_neq in N. rewrite String.eqb_sym in N. now rewrite N.
  - destruct (String.eqb k0 k) eqn:E; simpl.
    + apply String.eqb_eq in E. subst k0.
      apply String.eqb_neq in N. rewrite String.eqb_sym in N.
      now rewrite N.
    + destruct (String.eqb k0 k'); [reflexivity | exact IH].
Qed.

Lemma dict_get_none {A} (k : string) (d : list (string * A)) :
  dict_get k d = None <-> ~ In k (map fst d).
Proof.
  unfold dict_get. induction d as [|[k' v'] d IH]; simpl.
  - split; [intros _ [] | reflexivity].
  - destruct (String.eqb k' k) eqn:E.
    + apply String.eqb_eq in E. split; [discriminate | intro X].
      exfalso. apply X. now left.
    + apply String.eqb_neq in E. rewrite IH. tauto.
Qed.

Lemma dict_get_in {A} (k : string) (v : A) (d : list (string * A)) :
  NoDup (map fst d) -> In (k, v) d -> dict_get k d = Some v.
Proof.
  unfold dict_get. induction d as [|[k' v'] d IH]; simpl; [intros _ []|].
  intros ND [E|I].
  - injection E as -> ->. now rewrite String.eqb_refl.
  - inversion ND as [|? ? Nk Nd]; subst.
    destruct (String.eqb k' k) eqn:E; [|now apply IH].
    apply String.eqb_eq in E. subst k'. exfalso. apply Nk.
    apply in_map_iff. now exists (k, v).
Qed.

Lemma fold_dict_set_absent {A B} (g : string * B -> A)
    (items : list (string * B)) (k : string) :
  ~ In k (map fst items) ->
  forall d,
    dict_get k (fold_left (fun acc e => dict_set (fst e) (g e) acc) items d)
    = dict_get k d.
Proof.
  induction items as [|e rest IH]; intros N d; [reflexivity|].
  simpl. rewrite IH; [|intro X; apply N; now right].
  apply dict_get_set_other. intro X. apply N. now left.
Qed.

Lemma fold_dict_set_present {A B} (g : string * B -> A)
    (items : list (string * B)) (k : string) (p : B) :
  NoDup (map fst items) -> In (k, p) items ->
  forall d,
    dict_get k (fold_left (fun acc e => dict_set (fst e) (g e) acc) items d)
    = Some (g (k, p)).
Proof.
  induction items as [|e rest IH]; intros ND I d; [destruct I|].
  inversion ND as [|? ? Nk Nd]; subst. simpl. destruct I as [->|I].
  - rewrite fold_dict_set_absent; [|exact Nk].
    apply dict_get_set_same.
  - now apply IH.
Qed.

Lemma dict_set_keys {A} (k : string) (v : A) (d : list (string * A)) :
  NoDup (map fst d) -> NoDup (map fst (dict_set k v d)).
Proof.
  induction d as [|[k' v'] d IH]; simpl; intro ND.
  - constructor; [intros [] | constructor].
  - inversion ND as [|? ? Nk Nd]; subst.
    destruct (String.eqb k' k) eqn:E; simpl.
    + apply String.eqb_eq in E. subst k'. now constructor.
    + constructor; [|now apply IH].
      intro X. apply Nk.
      assert (G : dict_get k' (dict_set k v d) <> None).
      { intro Z. apply dict_get_none in Z. contradiction. }
      apply String.eqb_neq in E.
      rewrite dict_get_set_other in G by exact E.
      destruct (in_dec string_dec k' (map fst d)) as [Y|Y]; [exact Y|].
      apply dict_get_none in Y. contradiction.
Qed.

Lemma fold_dict_set_keys {A B} (g : string * B -> A)
    (items : list (string * B)) :
  forall d,
    NoDup (map fst d) ->
    NoDup (map fst
             (fold_left (fun acc e => dict_set (fst e) (g e) acc) items d)).
Proof.
  induction items as [|e rest IH]; intros d ND; [exact ND|].
  simpl. apply IH. now apply dict_set_keys.
Qed.

Lemma dict_get_update {A} (k : string) (d other : list (string * A)) :
  NoDup (map fst other) ->
  dict_get k (dict_update d other)
  = match dict_get k other with
    | Some v => Some v
    | None => dict_get k d
    end.
Proof.
  intro ND. unfold dict_update.
  destruct (dict_get k other) as [v|] eqn:G.
  - assert (I : In (k, v) other).
    { unfold dict_get in G.
      destruct (find _ other) as [[k' v']|] eqn:Fd; [|discriminate].
      injection G as ->. apply find_some in Fd. destruct Fd as [I E].
      apply String.eqb_eq in E. simpl in E. now subst k'. }
    exact (@fold_dict_set_present A A snd other k v ND I d).
  - apply dict_get_none in G. exact (@fold_dict_set_absent A A snd other k G d).
Qed.

Section DeviceFacts.
Context {N : Type}.
Variable int : N -> Outcome Z.

(** A control event is always passed on to the bus, with the entity id,
    the control code and the value, before anything else.  For a code of
    [ISY994_EVENT_IGNORE] nothing more happens.  For any other code the
    value is read as an integer and stored in the attributes under the
    friendly name of the code (the code itself when it has none), the
    other attributes keeping their values, and one state update is
    scheduled; when the value cannot be read the exception leaves the
    handler, the attributes are as before and no update is scheduled. *)
Theorem on_control_effect :
  forall (self : ISYDevice.t N) (e : ISYDevice.ControlEvent N),
    let r := on_control int e self in
    ISYDevice.fired (fst r)
    = ISYDevice.fired self
      ++ [ISYDevice.mkBus (ISYDevice.self_entity_id self)
            (ISYDevice.event e) (ISYDevice.nval e)]
    /\ (mem (ISYDevice.event e) ISY994_EVENT_IGNORE = true ->
        snd r = Returned tt
        /\ ISYDevice._attrs (fst r) = ISYDevice._attrs self
        /\ ISYDevice.scheduled_updates (fst r)
           = ISYDevice.scheduled_updates self)
    /\ (mem (ISYDevice.event e) ISY994_EVENT_IGNORE = false ->
        match int (ISYDevice.nval e) with
        | Returned z =>
            snd r = Returned tt
            /\ dict_get (friendly_name (ISYDevice.event e))
                 (ISYDevice._attrs (fst r)) = Some (AInt z)
            /\ (forall k, k <> friendly_name (ISYDevice.event e) ->
                  dict_get k (ISYDevice._attrs (fst r))
                  = dict_get k (ISYDevice._attrs self))
            /\ ISYDevice.scheduled_updates (fst r)
               = S (ISYDevice.scheduled_updates self)
        | Raised x =>
            snd r = Raised x
            /\ ISYDevice._attrs (fst r) = ISYDevice._attrs self
            /\ ISYDevice.scheduled_updates (fst r)
               = ISYDevice.scheduled_updates self
        end).
Proof.
  intros self e r. subst r.
  unfold on_control, bind, fire_control, modify.
  destruct (mem (ISYDevice.event e) ISY994_EVENT_IGNORE); cbn [negb].
  - split; [reflexivity|]. split; [now repeat split | discriminate].
  - destruct (int (ISYDevice.nval e)) as [z|x].
    + cbn [fst snd set_attr schedule_update_ha_state modify ISYDevice.fired
           ISYDevice._attrs ISYDevice.scheduled_updates
           ISYDevice.self_entity_id].
      split; [reflexivity|]. split; [discriminate|]. intros _.
      repeat split.
      * apply dict_get_set_same.
      * intros k Nk. now apply dict_get_set_other.
    + cbn [fst snd]. split; [reflexivity|]. split; [discriminate|].
      intros _. now repeat split.
Qed.

(** [device_state_attributes] returns the auxiliary properties only.
    The dict it returns has a key only for a name of [aux_properties]
    (none when the node has no such attribute), holding "value uom" for
    that property; attributes picked up from control events are not in
    it.  The stored attributes are updated with it: afterwards they hold,
    for every key, the returned value if there is one and their previous
    value otherwise.  Nothing is fired or scheduled. *)
Theorem device_state_attributes_returns_aux_only :
  forall (self : ISYDevice.t N) aux_properties,
    let r := device_state_attributes aux_properties self in
    exists attr,
      snd r = Returned attr
      /\ (forall k, dict_get k attr <> None ->
            exists items,
              aux_properties = Some items /\ In k (map fst items))
      /\ (forall items name p,
            aux_properties = Some items -> NoDup (map fst items) ->
            In (name, p) items ->
            dict_get name attr
            = Some (AStr (format_pair (aux_value p) (aux_uom p))))
      /\ (forall k,
            dict_get k (ISYDevice._attrs (fst r))
            = match dict_get k attr with
              | Some v => Some v
              | None => dict_get k (ISYDevice._attrs self)
              end)
      /\ ISYDevice.fired (fst r) = ISYDevice.fired self
      /\ ISYDevice.scheduled_updates (fst r)
         = ISYDevice.scheduled_updates self.
Proof.
  intros self aux r. subst r. unfold device_state_attributes, bind, modify.
  cbn [fst snd ret].
  match goal with
  | |- context [dict_update (ISYDevice._attrs self) ?a] => set (attr := a)
  end.
  exists attr. cbn [fst snd ISYDevice._attrs ISYDevice.fired
                    ISYDevice.scheduled_updates].
  assert (ND : NoDup (map fst attr)).
  { subst attr. destruct aux as [items|]; [|constructor].
    apply fold_dict_set_keys. constructor. }
  split; [reflexivity|]. split; [|split; [|split; [|now split]]].
  - intros k G. subst attr. destruct aux as [items|];
      [|now elim G].
    exists items. split; [reflexivity|].
    destruct (in_dec string_dec k (map fst items)) as [Y|Y]; [exact Y|].
    exfalso. apply G.
    rewrite (@fold_dict_set_absent _ _
               (fun item : string * AuxProperty =>
                  AStr (format_pair (aux_value (snd item))
                          (aux_uom (snd item)))) items k Y).
    reflexivity.
  - intros items name p -> NDi I. subst attr.
    exact (@fold_dict_set_present _ _
             (fun item : string * AuxProperty =>
                AStr (format_pair (aux_value (snd item))
                        (aux_uom (snd item)))) items name p NDi I []).
  - intro k. now apply dict_get_update.
Qed.

End DeviceFacts.

Lemma on_control_effect_witness :
  let r :=
    on_control read_digit (ISYDevice.mkControl "CLIMD" "3")
      thermostat_entity in
  snd r = Returned tt
  /\ friendly_name "CLIMD" = "Mode"
  /\ dict_get "Mode" (ISYDevice._attrs (fst r)) = Some (AInt 3)
  /\ ISYDevice.scheduled_updates (fst r) = 1.
Proof.
  intro r.
  destruct (@on_control_effect string read_digit thermostat_entity
              (ISYDevice.mkControl "CLIMD" "3")) as [_ [_ Hn]].
  destruct (Hn eq_refl) as [R [G [_ S1]]].
  split; [exact R|]. split; [reflexivity|]. split; [exact G | exact S1].
Defined.

Lemma device_state_attributes_returns_aux_only_witness :
  exists attr,
    snd (device_state_attributes
           (Some [("CLIHUM", mkAux (Some "41") (Some "%"));
                  ("BATLVL", mkAux (Some "90") None)])
           thermostat_entity)
    = Returned attr
    /\ dict_get "CLIHUM" attr = Some (AStr "41 %")
    /\ dict_get "BATLVL" attr = Some (AStr "90 None")
    /\ (dict_get "Mode" attr <> None -> False).
Proof.
  destruct (@device_state_attributes_returns_aux_only string
              thermostat_entity
              (Some [("CLIHUM", mkAux (Some "41") (Some "%"));
                     ("BATLVL", mkAux (Some "90") None)]))
    as [attr [R [K [V _]]]].
  exists attr. split; [exact R|].
  assert (ND : NoDup (map fst [("CLIHUM", mkAux (Some "41") (Some "%"));
                               ("BATLVL", mkAux (Some "90") None)])).
  { repeat constructor; simpl; intuition discriminate. }
  split; [exact (V _ "CLIHUM" _ eq_refl ND (or_introl eq_refl))|].
  split; [exact (V _ "BATLVL" _ eq_refl ND (or_intror (or_introl eq_refl)))|].
  intro G. destruct (K "Mode" G) as [items [E I]].
  injection E as <-. simpl in I. intuition discriminate.
Defined.
